(** * XOps production-devops-handbook: reclamation and anomaly detection

    A shallow embedding of the cost-optimisation, clean-up, right-sizing,
    budget-alert and flow-log scripts of the handbook, with the properties
    of the reclamation / anomaly-detection core stated over it.

    Conventions of the embedding.
    - Python [float] amounts are binary64 values ([PrimFloat.float]) with
      the operations of IEEE 754, as in CPython, in the three computations
      where a rounded value is compared with a bound or rounded to cents:
      the percentage change of [detect_cost_anomalies], the untagged
      percentage of the cost report and the average CPU of
      [analyze_ec2_utilization].  The builtins [sum] and [round] are
      parameters there, since their last bits depend on the version of the
      interpreter.
    - In the other scripts [float] amounts are exact rationals ([Q]); the
      sums and products computed there are those of the interpreter up to
      the rounding of the last bits.
    - A Python exception is a value [Raise e] of [Result]; state written
      before a raise is kept, as in Python.
    - boto3 clients are an abstract [World] with one transition per API
      operation; every call is appended to a log of [Event]s.
    - Timestamps are seconds since the epoch ([Z]). *)

From Stdlib Require Import List String ZArith QArith Qabs Qround Bool Lia Arith.
From Stdlib Require Import Sorting.Sorted Sorting.Permutation Ascii.
From Stdlib Require Import Floats.
Import ListNotations.
Open Scope string_scope.
Open Scope list_scope.
Open Scope Q_scope.

(** A decimal literal of a float stands for the nearest binary64 value, as
    in Python. *)
#[local] Set Warnings "-inexact-float".

(** ** Python values and exceptions *)

Inductive Exn : Type :=
| IndexError
| KeyError (key : string)
| ZeroDivisionError
| ValueError
| OverflowError
| ClientError (msg : string).

Inductive Result (A : Type) : Type :=
| Ok (a : A)
| Raise (e : Exn).
Arguments Ok {A} a.
Arguments Raise {A} e.

(** [str(e)] of the exceptions above. *)
Definition str_exn (e : Exn) : string :=
  match e with
  | IndexError => "list index out of range"
  | KeyError k => k
  | ZeroDivisionError => "float division by zero"
  | ValueError => "invalid literal for int() with base 10"
  | OverflowError => "integer division result too large for a float"
  | ClientError m => m
  end.

Definition Qlt_bool (x y : Q) : bool := negb (Qle_bool y x).

(** [a / b] on floats. *)
Definition py_div (a b : Q) : Result Q :=
  if Qeq_bool b 0 then Raise ZeroDivisionError else Ok (a / b).

(** [sum(xs)]: left fold from [0]. *)
Definition py_sum (xs : list Q) : Q := fold_left Qplus xs 0.

(** [round(x)] to an integer, ties to even. *)
Definition round_half_even (x : Q) : Z :=
  let n := Qfloor x in
  let frac := x - inject_Z n in
  if Qlt_bool frac (1 # 2) then n
  else if Qlt_bool (1 # 2) frac then (n + 1)%Z
  else if Z.even n then n else (n + 1)%Z.

(** [round(x, 2)]. *)
Definition round2 (x : Q) : Q := inject_Z (round_half_even (x * 100)) / 100.

(** [xs[i]]. *)
Definition py_index {A} (xs : list A) (i : nat) : Result A :=
  match nth_error xs i with
  | Some x => Ok x
  | None => Raise IndexError
  end.

(** ** Binary64 values *)

Module Binary64.
Local Open Scope float_scope.

(** Truthiness of a float: [0.0] and [-0.0] are falsy; every other value,
    [nan] included, is truthy. *)
Definition truthy (x : float) : bool := negb (x =? 0).

(** [a / b] on floats: [ZeroDivisionError] for a divisor equal to zero,
    the IEEE 754 quotient otherwise. *)
Definition py_div (a b : float) : Result float :=
  if b =? 0 then Raise ZeroDivisionError else Ok (a / b).

(** [float(n)] for the length [n] of a list: exact below 2^53, and a list
    is shorter than 2^63. *)
Definition of_nat (n : nat) : float :=
  of_uint63 (Uint63.of_Z (Z.of_nat n)).

(** [sum] over floats as a left fold from [0], which is what CPython
    computes up to version 3.11; later versions compensate the rounding
    errors of the additions. *)
Definition sum_left (xs : list float) : float :=
  fold_left PrimFloat.add xs 0.

(** The value of a finite float. *)
Definition to_Q (x : float) : Q :=
  match Prim2SF x with
  | S754_finite s m e =>
    ((if s then -1 else 1) * inject_Z (Zpos m) * Qpower 2 e)%Q
  | _ => 0%Q
  end.

(** The float nearest to [cents / 100], ties to even, for [cents > 0]:
    with [k] the integer part of the binary logarithm of the quotient, its
    53-bit significand is the quotient scaled by [2^(52 - k)] and
    rounded. *)
Definition of_cents (cents : Z) : float :=
  let k0 := (Z.log2 cents - 7)%Z in
  let k :=
    if Qle_bool (100 * Qpower 2 (k0 + 1)) (inject_Z cents)
    then (k0 + 1)%Z else k0 in
  let e := (k - 52)%Z in
  let m := round_half_even (inject_Z cents / 100 / Qpower 2 e)%Q in
  SF2Prim (S754_finite false (Z.to_pos m) e).

(** [round(x, 2)] as CPython computes it: the value of [x] is rounded to
    hundredths, ties to even, and the float nearest to that decimal is
    returned, with the sign of [x]; zeros, infinities and [nan] round to
    themselves. *)
Definition round_cents (x : float) : float :=
  match Prim2SF x with
  | S754_finite s m e =>
    let cents := round_half_even (Qabs (to_Q x) * 100)%Q in
    let r := if (cents =? 0)%Z then 0 else of_cents cents in
    if s then - r else r
  | _ => x
  end.

End Binary64.

(** ** aws-cost-analyzer.py: untagged percentage of [generate_report] *)

Module CostReport.
Local Open Scope float_scope.

(** A number of the report: the [int] of the guard's [else 0], or a
    float. *)
Inductive Number :=
| Int (z : Z)
| Float (x : float).

Section Builtins.
(** The builtins [sum], over the parsed amounts, and [round(x, 2)].  Both
    return a binary64 value; which one depends, in the last bits of a
    sum, on the version of the interpreter.  [Binary64.sum_left] is the
    [sum] of CPython up to 3.11 and [Binary64.round_cents] is
    [round(x, 2)]. *)
Variable py_sum : list float -> float.
Variable round2 : float -> float.

(** Line 215:
    [round((untagged_total / total_cost) * 100, 2) if total_cost > 0 else 0]. *)
Definition untagged_percentage (untagged_total total_cost : float)
  : Result Number :=
  if 0 <? total_cost then
    match Binary64.py_div untagged_total total_cost with
    | Ok q => Ok (Float (round2 (q * 100)))
    | Raise e => Raise e
    end
  else Ok (Int 0).

(** Lines 178-179 and 212-215: both totals are sums over the amounts of the
    Cost Explorer results ([cost_data], [untagged_costs]). *)
Definition report_untagged_percentage (cost_data untagged_costs : list float)
  : Result Number :=
  let total_cost := py_sum cost_data in
  let untagged_total := py_sum untagged_costs in
  untagged_percentage untagged_total total_cost.

End Builtins.

End CostReport.

(** ** budget-alert-lambda.py *)

Module BudgetAlert.

Record Budget := {
  BudgetName : string;
  BudgetLimit : Q;                  (* budget['BudgetLimit']['Amount'] *)
  ActualSpend : option Q;           (* CalculatedSpend.ActualSpend.Amount *)
  ForecastedSpend : option Q        (* CalculatedSpend.ForecastedSpend.Amount *)
}.

Inductive AlertLevel := CRITICAL | HIGH | MEDIUM | WARNING.

Record Alert := {
  budget_name : string;
  budget_limit : Q;
  actual_spend : Q;
  forecasted_spend : Q;
  actual_percentage : Q;
  forecast_percentage : Q;
  alert_level : AlertLevel
}.

(** [.get('Amount', 0)] *)
Definition amount_or_zero (a : option Q) : Q :=
  match a with Some x => x | None => 0 end.

(** Lines 38-39: [(spend / budget_limit) * 100 if budget_limit > 0 else 0]. *)
Definition percentage (spend limit : Q) : Result Q :=
  if Qlt_bool 0 limit then
    match py_div spend limit with
    | Ok q => Ok (q * 100)
    | Raise e => Raise e
    end
  else Ok 0.

(** Lines 42-50. *)
Definition threshold_level (actual_pct forecast_pct : Q) : option AlertLevel :=
  if Qle_bool 100 actual_pct then Some CRITICAL
  else if Qle_bool 90 actual_pct then Some HIGH
  else if Qle_bool 80 actual_pct then Some MEDIUM
  else if Qle_bool 100 forecast_pct then Some WARNING
  else None.

(** Body of the loop of [lambda_handler] for one budget (lines 30-63):
    the alert built for it, if any. *)
Definition check_budget (budget : Budget) : Result (option Alert) :=
  let limit := BudgetLimit budget in
  let actual := amount_or_zero (ActualSpend budget) in
  let forecasted := amount_or_zero (ForecastedSpend budget) in
  match percentage actual limit with
  | Raise e => Raise e
  | Ok actual_pct =>
    match percentage forecasted limit with
    | Raise e => Raise e
    | Ok forecast_pct =>
      match threshold_level actual_pct forecast_pct with
      | None => Ok None
      | Some level =>
        Ok (Some {| budget_name := BudgetName budget;
                    budget_limit := limit;
                    actual_spend := actual;
                    forecasted_spend := forecasted;
                    actual_percentage := actual_pct;
                    forecast_percentage := forecast_pct;
                    alert_level := level |})
      end
    end
  end.

(** What [lambda_handler] sends for an alert: [send_alert] then
    [publish_metric]; both swallow their own exceptions. *)
Inductive Notification :=
| SnsPublish (a : Alert)
| PutMetricData (name : string) (percentage : Q).

(** [lambda_handler] (lines 20-77) over the budgets returned by
    [describe_budgets]: the alerts of the response body and the
    notifications attempted, in order. *)
Fixpoint lambda_handler_loop (budgets_list : list Budget)
    (alerts : list Alert) (sent : list Notification)
  : Result (list Alert * list Notification) :=
  match budgets_list with
  | [] => Ok (alerts, sent)
  | budget :: rest =>
    match check_budget budget with
    | Raise e => Raise e
    | Ok None => lambda_handler_loop rest alerts sent
    | Ok (Some alert) =>
      lambda_handler_loop rest (alerts ++ [alert])
        (sent ++ [SnsPublish alert;
                  PutMetricData (budget_name alert) (actual_percentage alert)])
    end
  end.

Definition lambda_handler (budgets_list : list Budget)
  : Result (list Alert * list Notification) :=
  lambda_handler_loop budgets_list [] [].

End BudgetAlert.

(** ** aws-cost-analyzer.py: [detect_cost_anomalies] *)

Module CostAnomaly.
Local Open Scope float_scope.

(** One entry of [ResultsByTime]: [TimePeriod.Start] and the parsed
    [Total.UnblendedCost.Amount], a binary64 value. *)
Record CostResult := {
  period_start : string;
  amount : float
}.

Inductive Severity := HIGH | MEDIUM.

Record Anomaly := {
  date : string;
  current_cost : float;
  previous_cost : float;
  change_percentage : float;
  severity : Severity
}.

(** [if previous_cost:] is false for [None] and for a zero. *)
Definition has_baseline (previous_cost : option float) : option float :=
  match previous_cost with
  | Some p => if Binary64.truthy p then Some p else None
  | None => None
  end.

(** Lines 80-95: the loop, with [previous_cost] and [anomalies] as the
    loop state.  [threshold_percentage] is a float: the default [20], as
    every [int] below 2^53, converts exactly. *)
Fixpoint detect_loop (threshold_percentage : float)
    (previous_cost : option float)
    (anomalies : list Anomaly) (results : list CostResult)
  : Result (list Anomaly) :=
  match results with
  | [] => Ok anomalies
  | result :: rest =>
    let current := amount result in
    match has_baseline previous_cost with
    | None => detect_loop threshold_percentage (Some current) anomalies rest
    | Some previous =>
      match Binary64.py_div (current - previous) previous with
      | Raise e => Raise e
      | Ok ratio =>
        let change := ratio * 100 in
        let anomalies' :=
          if threshold_percentage <? abs change then
            anomalies ++
              [{| date := period_start result;
                  current_cost := current;
                  previous_cost := previous;
                  change_percentage := change;
                  severity := if 50 <? abs change
                              then HIGH else MEDIUM |}]
          else anomalies in
        detect_loop threshold_percentage (Some current) anomalies' rest
      end
    end
  end.

(** Lines 73-97, over the daily results returned by [get_cost_and_usage]. *)
Definition detect_cost_anomalies (results : list CostResult)
    (threshold_percentage : float) : Result (list Anomaly) :=
  detect_loop threshold_percentage None [] results.

(** The percentage change of a consecutive pair, as line 84 computes it. *)
Definition pct (previous current : float) : float :=
  ((current - previous) / previous) * 100.

(** The delta mode as the specification words it: an anomaly for a
    consecutive pair iff [|pct| >= medium], [High] iff [|pct| >= high]. *)
Definition spec_severity (medium high previous current : float)
  : option Severity :=
  let p := abs (pct previous current) in
  if medium <=? p
  then Some (if high <=? p then HIGH else MEDIUM)
  else None.

(** The record appended at lines 87-93 for the consecutive results
    [previous], [current]. *)
Definition anomaly_for (previous current : CostResult) : Anomaly :=
  let change := pct (amount previous) (amount current) in
  {| date := period_start current;
     current_cost := amount current;
     previous_cost := amount previous;
     change_percentage := change;
     severity := if 50 <? abs change then HIGH else MEDIUM |}.

(** What the loop appends for a pair of consecutive results. *)
Definition flag_pair (threshold_percentage : float)
    (previous current : CostResult) : list Anomaly :=
  if Binary64.truthy (amount previous) then
    if threshold_percentage <? abs (pct (amount previous) (amount current))
    then [anomaly_for previous current]
    else []
  else [].

End CostAnomaly.

(** ** rightsizing-recommendations.py *)

Module RightSizing.

Record MetricStats := {
  average : Q;
  max : Q;
  p95 : Q
}.

Definition zero_stats : MetricStats :=
  {| average := 0; max := 0; p95 := 0 |}.

Fixpoint insert_sorted (x : Q) (xs : list Q) : list Q :=
  match xs with
  | [] => [x]
  | y :: ys => if Qle_bool x y then x :: xs else y :: insert_sorted x ys
  end.

(** [sorted(values)] *)
Definition sorted (xs : list Q) : list Q := fold_right insert_sorted [] xs.

(** [max(values)] of a non-empty list. *)
Definition py_max (x : Q) (xs : list Q) : Q :=
  fold_left (fun m y => if Qlt_bool m y then y else m) xs x.

(** [int(len(values) * 0.95)] *)
Definition p95_index (values : list Q) : nat :=
  Z.to_nat (Qfloor (inject_Z (Z.of_nat (List.length values)) * (95 # 100))).

(** Lines 65-90.  [response] is what [get_metric_statistics] answers: the
    values of the datapoints for the requested statistic, or an exception.
    Every exception raised in the body is caught at line 88. *)
Definition get_metric_stats (response : Result (list Q)) : MetricStats :=
  match response with
  | Raise _ => zero_stats
  | Ok [] => zero_stats
  | Ok ((v :: vs) as values) =>
    match py_div (py_sum values) (inject_Z (Z.of_nat (List.length values))),
          py_index (sorted values) (p95_index values) with
    | Ok avg, Ok p => {| average := avg; max := py_max v vs; p95 := p |}
    | _, _ => zero_stats
    end
  end.

(** The CloudWatch client: instance id and metric name to a response. *)
Definition CloudWatch := string -> string -> Result (list Q).

Record Metrics := {
  cpu_utilization : MetricStats;
  network_in : MetricStats;
  network_out : MetricStats
}.

(** Lines 46-63. *)
Definition get_instance_metrics (cloudwatch : CloudWatch)
    (instance_id : string) : Metrics :=
  {| cpu_utilization := get_metric_stats (cloudwatch instance_id "CPUUtilization");
     network_in := get_metric_stats (cloudwatch instance_id "NetworkIn");
     network_out := get_metric_stats (cloudwatch instance_id "NetworkOut") |}.

Inductive Action := DOWNSIZE | UPSIZE.
Inductive Priority := HIGH | MEDIUM.

(** The recommendation dict, without its display strings
    ([suggested_type], [reason], [potential_savings], [risk]). *)
Record Recommendation := {
  instance_id : string;
  current_type : string;
  action : Action;
  priority : Priority
}.

(** Lines 92-123. *)
Definition generate_ec2_recommendation (id type : string) (metrics : Metrics)
  : option Recommendation :=
  let cpu_avg := average (cpu_utilization metrics) in
  let cpu_p95 := p95 (cpu_utilization metrics) in
  if Qlt_bool cpu_avg 10 && Qlt_bool cpu_p95 20 then
    Some {| instance_id := id; current_type := type; action := DOWNSIZE;
            priority := if Qlt_bool cpu_avg 5 then HIGH else MEDIUM |}
  else if Qlt_bool 80 cpu_avg || Qlt_bool 90 cpu_p95 then
    Some {| instance_id := id; current_type := type; action := UPSIZE;
            priority := HIGH |}
  else None.

(** Lines 19-44, over the running instances [(InstanceId, InstanceType)]
    that [describe_instances] lists. *)
Fixpoint analyze_ec2_instances (cloudwatch : CloudWatch)
    (instances : list (string * string)) : list Recommendation :=
  match instances with
  | [] => []
  | (id, type) :: rest =>
    let metrics := get_instance_metrics cloudwatch id in
    match generate_ec2_recommendation id type metrics with
    | Some recommendation =>
        recommendation :: analyze_ec2_instances cloudwatch rest
    | None => analyze_ec2_instances cloudwatch rest
    end
  end.

End RightSizing.

(** ** flow-log-analyzer.py *)

Module FlowLogs.

(** A result row: [[{'field': f, 'value': v}, ...]]. *)
Definition Row := list (string * string).

Record QueryResults := {
  status : string;
  results : list Row
}.

(** CloudWatch Logs Insights: [start_query] maps a query string to a query
    id; [get_query_results q k] is the answer to the [k]-th poll of [q]
    (counting from 0). *)
Record LogsClient := {
  start_query : string -> string;
  get_query_results : string -> nat -> QueryResults
}.

(** The loop at lines 43-47, 72-76 and 101-105:
    [while True: result = get_query_results(...); if result['status'] ==
    'Complete': return result['results']; time.sleep(1)].
    [polls] counts the polls already made, which is also the number of
    seconds slept; [fuel] bounds the iterations the model unfolds.  The
    value is the results and the seconds slept, or [None] when the loop is
    still running after [fuel] iterations. *)
Fixpoint poll_loop (logs : LogsClient) (query_id : string)
    (fuel polls : nat) : option (list Row * nat) :=
  match fuel with
  | O => None
  | S fuel' =>
    let result := get_query_results logs query_id polls in
    if String.eqb (status result) "Complete"
    then Some (results result, polls)
    else poll_loop logs query_id fuel' (S polls)
  end.

(** Poll [n] is the first one that answers "Complete". *)
Definition first_complete (logs : LogsClient) (query_id : string) (n : nat)
  : Prop :=
  status (get_query_results logs query_id n) = "Complete" /\
  forall k, (k < n)%nat ->
    status (get_query_results logs query_id k) <> "Complete".

Definition rejected_query : string := "filter action = REJECT | stats count() as rejections by srcAddr, dstAddr, dstPort".
Definition port_scan_query : string := "filter action = REJECT | stats count_distinct(dstPort) as unique_ports by srcAddr | filter unique_ports > 20".
Definition exfiltration_query (threshold_gb : Z) : string := "filter action = ACCEPT | stats sum(bytes) as total_bytes by srcAddr | filter total_bytes > threshold".

(** Lines 18-47. *)
Definition query_flow_logs (logs : LogsClient) (fuel : nat)
  : option (list Row * nat) :=
  poll_loop logs (start_query logs rejected_query) fuel 0.

(** Lines 49-76. *)
Definition detect_port_scanning (logs : LogsClient) (fuel : nat)
  : option (list Row * nat) :=
  poll_loop logs (start_query logs port_scan_query) fuel 0.

(** Lines 78-105. *)
Definition detect_data_exfiltration (logs : LogsClient) (fuel : nat)
  : option (list Row * nat) :=
  poll_loop logs (start_query logs (exfiltration_query 10)) fuel 0.

End FlowLogs.

(** ** cost-optimizer.py: untagged resources *)

Module Tagging.

Definition required_tags : list string :=
  ["Environment"; "CostCenter"; "Owner"; "Project"].

(** An instance or a volume with its [Tags] ([[]] when absent). *)
Record Resource := {
  resource_id : string;
  Tags : list (string * string)
}.

(** [tag in tags] for the dict built from the [Key]/[Value] pairs. *)
Definition has_key (tag : string) (tags : list (string * string)) : bool :=
  existsb (fun kv => String.eqb (fst kv) tag) tags.

Definition missing_tags (tags : list (string * string)) : list string :=
  filter (fun tag => negb (has_key tag tags)) required_tags.

Record Untagged := {
  untagged_id : string;
  MissingTags : list string
}.

(** Lines 293-302 and 306-314: one loop over the resources. *)
Definition untagged_of (resources : list Resource) : list Untagged :=
  flat_map
    (fun r =>
       match missing_tags (Tags r) with
       | [] => []
       | missing => [{| untagged_id := resource_id r; MissingTags := missing |}]
       end)
    resources.

(** Lines 279-322 over the answers of [describe_instances] (the instances
    of each reservation) and [describe_volumes]: the ['instances'] and
    ['volumes'] lists.  An exception ends the [try] block and keeps what
    was collected before it. *)
Definition find_untagged_resources
    (reservations : Result (list (list Resource)))
    (volumes : Result (list Resource)) : list Untagged * list Untagged :=
  match reservations with
  | Raise _ => ([], [])
  | Ok rs =>
    match volumes with
    | Raise _ => (untagged_of (List.concat rs), [])
    | Ok vs => (untagged_of (List.concat rs), untagged_of vs)
    end
  end.

End Tagging.

(** ** The EC2 client and the state-and-exception monad of the scripts *)

Module EC2.

Record SnapshotDesc := {
  SnapshotId : string;
  StartTime : Z;
  VolumeSize : Z
}.

Record VolumeDesc := {
  VolumeId : string;
  Size : Z;
  VolumeType : string;
  CreateTime : Z
}.

(** An address; [AllocationId] and [AssociationId] may be absent. *)
Record AddressDesc := {
  PublicIp : string;
  AllocationId : option string;
  AssociationId : option string
}.

(** The calls of the scripts.  [DescribeVolumes] is the listing of the
    available volumes, [DescribeAllVolumes] the listing without a filter
    (cost-optimizer.py, line 305); [DescribeInstances] is the listing
    without a filter (line 292), [DescribeRunningInstances] the one of the
    running instances (line 338).  The calls cost-optimizer.py makes to
    its CloudWatch and SNS clients are logged with those of the EC2
    client. *)
Inductive Call :=
| DescribeSnapshots
| DescribeVolumes
| DescribeAddresses
| CreateSnapshot (volume_id : string)
| DeleteVolume (volume_id : string)
| DeleteSnapshot (snapshot_id : string)
| ReleaseAddress (allocation_id : string)
| CreateTags (snapshot_id : string)
| DescribeInstances
| DescribeAllVolumes
| DescribeRunningInstances
| GetMetricStatistics (instance_id : string)
| Publish.

(** The calls that change the account. *)
Definition mutating (c : Call) : bool :=
  match c with
  | DescribeSnapshots | DescribeVolumes | DescribeAddresses
  | DescribeInstances | DescribeAllVolumes | DescribeRunningInstances
  | GetMetricStatistics _ | Publish => false
  | CreateSnapshot _ | DeleteVolume _ | DeleteSnapshot _
  | ReleaseAddress _ | CreateTags _ => true
  end.

Record Event := {
  call : Call;
  succeeded : bool
}.

(** The operations of [boto3.client('ec2')] the scripts use, as transitions
    of an abstract world. *)
Record Client (World : Type) := {
  describe_snapshots : World -> Result (list SnapshotDesc) * World;
  describe_volumes : World -> Result (list VolumeDesc) * World;
  describe_addresses : World -> Result (list AddressDesc) * World;
  create_snapshot : string -> World -> Result string * World;
  delete_volume : string -> World -> Result unit * World;
  delete_snapshot : string -> World -> Result unit * World;
  release_address : string -> World -> Result unit * World;
  create_tags : string -> World -> Result unit * World;
  (* the instances of each reservation, with their tags *)
  describe_instances :
    World -> Result (list (list Tagging.Resource)) * World;
  (* every volume, with its tags *)
  describe_all_volumes : World -> Result (list Tagging.Resource) * World;
  (* [InstanceId] and [InstanceType] of the running instances *)
  describe_running_instances :
    World -> Result (list (string * string)) * World
}.
Arguments describe_snapshots {World}.
Arguments describe_volumes {World}.
Arguments describe_addresses {World}.
Arguments create_snapshot {World}.
Arguments delete_volume {World}.
Arguments delete_snapshot {World}.
Arguments release_address {World}.
Arguments create_tags {World}.
Arguments describe_instances {World}.
Arguments describe_all_volumes {World}.
Arguments describe_running_instances {World}.

(** The world together with the log of the calls made so far. *)
Record Cloud (World : Type) := {
  world : World;
  calls : list Event
}.
Arguments world {World}.
Arguments calls {World}.

(** A computation over a state [S] that returns or raises; the state
    reached is kept in both cases. *)
Definition M (S A : Type) : Type := S -> Result A * S.

Definition ret {S A} (a : A) : M S A := fun st => (Ok a, st).

Definition bind {S A B} (m : M S A) (k : A -> M S B) : M S B :=
  fun st =>
    match m st with
    | (Ok a, st') => k a st'
    | (Raise e, st') => (Raise e, st')
    end.

Definition pure_result {S A} (r : Result A) : M S A := fun st => (r, st).

(** [try: body / except Exception as e: handler(e)] *)
Definition try_except {S A} (body : M S A) (handler : Exn -> M S A) : M S A :=
  fun st =>
    match body st with
    | (Ok a, st') => (Ok a, st')
    | (Raise e, st') => handler e st'
    end.

(** [for x in xs: acc = body(x, acc)] *)
Fixpoint for_each {S A B} (xs : list A) (body : A -> B -> M S B) (acc : B)
  : M S B :=
  match xs with
  | [] => ret acc
  | x :: rest => bind (body x acc) (for_each rest body)
  end.

Definition is_ok {A} (r : Result A) : bool :=
  match r with Ok _ => true | Raise _ => false end.

(** One API call: the world moves and the call is logged with its outcome. *)
Definition invoke {World A} (c : Call) (op : World -> Result A * World)
  : M (Cloud World) A :=
  fun st =>
    let (r, w) := op (world st) in
    (r, {| world := w;
           calls := calls st ++ [{| call := c; succeeded := is_ok r |}] |}).

Definition ev (c : Call) (ok : bool) : Event :=
  {| call := c; succeeded := ok |}.

Definition call_eqb (a b : Call) : bool :=
  match a, b with
  | DescribeSnapshots, DescribeSnapshots
  | DescribeVolumes, DescribeVolumes
  | DescribeAddresses, DescribeAddresses
  | DescribeInstances, DescribeInstances
  | DescribeAllVolumes, DescribeAllVolumes
  | DescribeRunningInstances, DescribeRunningInstances
  | Publish, Publish => true
  | CreateSnapshot x, CreateSnapshot y
  | DeleteVolume x, DeleteVolume y
  | DeleteSnapshot x, DeleteSnapshot y
  | ReleaseAddress x, ReleaseAddress y
  | CreateTags x, CreateTags y
  | GetMetricStatistics x, GetMetricStatistics y => String.eqb x y
  | _, _ => false
  end.

(** The safety-snapshot discipline on a log: every [DeleteVolume v] comes
    directly after a successful [CreateSnapshot v]. *)
Fixpoint snapshot_guarded_after (previous : option Event) (log : list Event)
  : bool :=
  match log with
  | [] => true
  | e :: rest =>
    match call e with
    | DeleteVolume v =>
      match previous with
      | Some p => succeeded p && call_eqb (call p) (CreateSnapshot v)
      | None => false
      end
    | _ => true
    end && snapshot_guarded_after (Some e) rest
  end.

Definition snapshot_guarded (log : list Event) : bool :=
  snapshot_guarded_after None log.

(** A scripted account for concrete runs: a fixed inventory of snapshots,
    available volumes and addresses, no instance and no other volume, and
    the outcomes of the successive mutating calls ([None]: the call
    succeeds, [Some msg]: it raises [ClientError msg]; success once the
    script is used up). *)
Record Script := {
  inventory_snapshots : list SnapshotDesc;
  inventory_volumes : list VolumeDesc;
  inventory_addresses : list AddressDesc;
  outcomes : list (option string)
}.

Definition next_outcome {A} (a : A) (w : Script) : Result A * Script :=
  match outcomes w with
  | [] => (Ok a, w)
  | o :: rest =>
    (match o with None => Ok a | Some msg => Raise (ClientError msg) end,
     {| inventory_snapshots := inventory_snapshots w;
        inventory_volumes := inventory_volumes w;
        inventory_addresses := inventory_addresses w;
        outcomes := rest |})
  end.

Definition scripted : Client Script := {|
  describe_snapshots := fun w => (Ok (inventory_snapshots w), w);
  describe_volumes := fun w => (Ok (inventory_volumes w), w);
  describe_addresses := fun w => (Ok (inventory_addresses w), w);
  create_snapshot := fun v => next_outcome ("snap-of-" ++ v)%string;
  delete_volume := fun _ => next_outcome tt;
  delete_snapshot := fun _ => next_outcome tt;
  release_address := fun _ => next_outcome tt;
  create_tags := fun _ => next_outcome tt;
  describe_instances := fun w => (Ok [], w);
  describe_all_volumes := fun w => (Ok [], w);
  describe_running_instances := fun w => (Ok [], w)
|}.

Definition start (w : Script) : Cloud Script := {| world := w; calls := [] |}.

End EC2.

Declare Scope monad_scope.
Notation "x <- m ;; k" := (EC2.bind m (fun x => k))
  (at level 61, m at next level, right associativity) : monad_scope.
Notation "m ;;; k" := (EC2.bind m (fun _ => k))
  (at level 61, right associativity) : monad_scope.

(** ** cost-optimizer.py *)

Module CostOptimizer.
Import EC2.
Local Open Scope monad_scope.

(** [volume_info] of [find_unattached_volumes]. *)
Record VolumeInfo := {
  vi_VolumeId : string;
  vi_Size : Z;
  vi_AgeDays : Z;
  vi_MonthlyCost : Q
}.

(** [eip_info] of [find_orphaned_eips]. *)
Record EipInfo := {
  ei_PublicIp : string;
  ei_AllocationId : string;
  ei_MonthlyCost : Q
}.

(** [snapshot_info] of [find_old_snapshots]. *)
Record SnapshotInfo := {
  si_SnapshotId : string;
  si_VolumeSize : Z;
  si_MonthlyCost : Q
}.

(** An entry of a ['failed'] list: the resource and [str(e)]. *)
Record Failure := {
  resource : string;
  Error : string
}.

Record VolumeResults := {
  deleted : list string;
  failed : list Failure;
  total_savings : Q
}.

Record EipResults := {
  released : list string;
  eip_failed : list Failure;
  eip_total_savings : Q
}.

Record SnapshotResults := {
  tagged : list string;
  snapshot_failed : list Failure
}.

(** [timedelta.days] of a difference of [seconds]. *)
Definition days (seconds : Z) : Z := (seconds / 86400)%Z.

Section WithClient.
Context {World : Type} (ec2 : Client World).

(** Lines 43-81. *)
Definition find_unattached_volumes (now MIN_DAYS_BEFORE_DELETE : Z)
  : M (Cloud World) (list VolumeInfo) :=
  try_except
    (volumes <- invoke DescribeVolumes (describe_volumes ec2) ;;
     ret (flat_map
            (fun volume =>
               let volume_age := days (now - CreateTime volume) in
               if (MIN_DAYS_BEFORE_DELETE <=? volume_age)%Z then
                 [{| vi_VolumeId := VolumeId volume;
                     vi_Size := Size volume;
                     vi_AgeDays := volume_age;
                     vi_MonthlyCost :=
                       round2 (inject_Z (Size volume) * (8 # 100)) |}]
               else [])
            volumes))
    (fun _ => ret []).

(** Lines 92-129: the body of the loop for one volume. *)
Definition delete_volume_step (DRY_RUN : bool) (volume : VolumeInfo)
    (results : VolumeResults) : M (Cloud World) VolumeResults :=
  let volume_id := vi_VolumeId volume in
  if DRY_RUN then
    ret {| deleted := deleted results ++ [volume_id];
           failed := failed results;
           total_savings := total_savings results + vi_MonthlyCost volume |}
  else
    try_except
      (snapshot <- invoke (CreateSnapshot volume_id)
                     (create_snapshot ec2 volume_id) ;;
       invoke (DeleteVolume volume_id) (delete_volume ec2 volume_id) ;;;
       ret {| deleted := deleted results ++ [volume_id];
              failed := failed results;
              total_savings := total_savings results + vi_MonthlyCost volume |})
      (fun e =>
         ret {| deleted := deleted results;
                failed := failed results ++
                            [{| resource := volume_id; Error := str_exn e |}];
                total_savings := total_savings results |}).

(** Lines 84-131. *)
Definition delete_unattached_volumes (DRY_RUN : bool)
    (volumes : list VolumeInfo) : M (Cloud World) VolumeResults :=
  for_each volumes (delete_volume_step DRY_RUN)
    {| deleted := []; failed := []; total_savings := 0 |}.

(** Lines 147-160: the loop of [find_orphaned_eips]; a missing
    ['AllocationId'] raises [KeyError], caught at line 164 with the list
    collected so far. *)
Fixpoint collect_orphaned (addresses : list AddressDesc)
    (orphaned_eips : list EipInfo) : list EipInfo :=
  match addresses with
  | [] => orphaned_eips
  | address :: rest =>
    match AssociationId address with
    | Some _ => collect_orphaned rest orphaned_eips
    | None =>
      match AllocationId address with
      | None => orphaned_eips
      | Some allocation_id =>
        collect_orphaned rest
          (orphaned_eips ++
             [{| ei_PublicIp := PublicIp address;
                 ei_AllocationId := allocation_id;
                 ei_MonthlyCost := 36 # 10 |}])
      end
    end
  end.

(** Lines 138-167. *)
Definition find_orphaned_eips : M (Cloud World) (list EipInfo) :=
  try_except
    (addresses <- invoke DescribeAddresses (describe_addresses ec2) ;;
     ret (collect_orphaned addresses []))
    (fun _ => ret []).

(** Lines 178-198: the body of the loop for one address. *)
Definition release_eip_step (DRY_RUN : bool) (eip : EipInfo)
    (results : EipResults) : M (Cloud World) EipResults :=
  let allocation_id := ei_AllocationId eip in
  if DRY_RUN then
    ret {| released := released results ++ [ei_PublicIp eip];
           eip_failed := eip_failed results;
           eip_total_savings := eip_total_savings results + ei_MonthlyCost eip |}
  else
    try_except
      (invoke (ReleaseAddress allocation_id)
         (release_address ec2 allocation_id) ;;;
       ret {| released := released results ++ [ei_PublicIp eip];
              eip_failed := eip_failed results;
              eip_total_savings :=
                eip_total_savings results + ei_MonthlyCost eip |})
      (fun e =>
         ret {| released := released results;
                eip_failed := eip_failed results ++
                  [{| resource := ei_PublicIp eip; Error := str_exn e |}];
                eip_total_savings := eip_total_savings results |}).

(** Lines 170-200. *)
Definition release_orphaned_eips (DRY_RUN : bool) (eips : list EipInfo)
  : M (Cloud World) EipResults :=
  for_each eips (release_eip_step DRY_RUN)
    {| released := []; eip_failed := []; eip_total_savings := 0 |}.

(** Lines 207-240. *)
Definition find_old_snapshots (now days_old : Z)
  : M (Cloud World) (list SnapshotInfo) :=
  let cutoff_date := (now - days_old * 86400)%Z in
  try_except
    (snapshots <- invoke DescribeSnapshots (describe_snapshots ec2) ;;
     ret (flat_map
            (fun snapshot =>
               if (StartTime snapshot <? cutoff_date)%Z then
                 [{| si_SnapshotId := SnapshotId snapshot;
                     si_VolumeSize := VolumeSize snapshot;
                     si_MonthlyCost :=
                       round2 (inject_Z (VolumeSize snapshot) * (5 # 100)) |}]
               else [])
            snapshots))
    (fun _ => ret []).

(** Lines 250-270: the body of the loop for one snapshot.  The function
    does not read [DRY_RUN]. *)
Definition archive_step (snapshot : SnapshotInfo) (results : SnapshotResults)
  : M (Cloud World) SnapshotResults :=
  let snapshot_id := si_SnapshotId snapshot in
  try_except
    (invoke (CreateTags snapshot_id) (create_tags ec2 snapshot_id) ;;;
     ret {| tagged := tagged results ++ [snapshot_id];
            snapshot_failed := snapshot_failed results |})
    (fun e =>
       ret {| tagged := tagged results;
              snapshot_failed := snapshot_failed results ++
                [{| resource := snapshot_id; Error := str_exn e |}] |}).

(** Lines 243-272. *)
Definition archive_old_snapshots (snapshots : list SnapshotInfo)
  : M (Cloud World) SnapshotResults :=
  for_each snapshots archive_step {| tagged := []; snapshot_failed := [] |}.

(** What the three reclamation steps report. *)
Record Reclaimed := {
  volume_results : VolumeResults;
  eip_results : EipResults;
  snapshot_results : SnapshotResults
}.

(** Lines 481-490 of [lambda_handler]: the reclamation steps, in order. *)
Definition reclaim (DRY_RUN : bool) (MIN_DAYS_BEFORE_DELETE now : Z)
  : M (Cloud World) Reclaimed :=
  unattached_volumes <- find_unattached_volumes now MIN_DAYS_BEFORE_DELETE ;;
  volume_results <- delete_unattached_volumes DRY_RUN unattached_volumes ;;
  orphaned_eips <- find_orphaned_eips ;;
  eip_results <- release_orphaned_eips DRY_RUN orphaned_eips ;;
  old_snapshots <- find_old_snapshots now 90 ;;
  snapshot_results <- archive_old_snapshots old_snapshots ;;
  ret {| volume_results := volume_results;
         eip_results := eip_results;
         snapshot_results := snapshot_results |}.

(** Lines 279-322: the listings of lines 292 and 305, and what
    [Tagging.find_untagged_resources] makes of their answers.  A listing
    of the instances that raises ends the [try] block, so the volumes are
    not listed then. *)
Definition find_untagged_resources
  : M (Cloud World) (list Tagging.Untagged * list Tagging.Untagged) :=
  fun st =>
    match invoke DescribeInstances (describe_instances ec2) st with
    | (Raise e, st1) =>
      (Ok (Tagging.find_untagged_resources (Raise e) (Raise e)), st1)
    | (Ok reservations, st1) =>
      let (volumes, st2) :=
        invoke DescribeAllVolumes (describe_all_volumes ec2) st1 in
      (Ok (Tagging.find_untagged_resources (Ok reservations) volumes), st2)
    end.

(** An entry of [underutilized_instances]; its ['LaunchTime'] and
    ['Tags'], copied from the listing, are left out. *)
Record Underutilized := {
  InstanceId : string;
  InstanceType : string;
  AvgCpuUtilization : float
}.

(** The figures and lists that [generate_cost_report] renders as the
    text of the report. *)
Record Report := {
  report_total_savings : Q;
  report_volumes : VolumeResults;
  report_eips : EipResults;
  report_snapshots_tagged : nat;
  report_untagged_instances : nat;
  report_untagged_volumes : nat;
  report_underutilized : nat;
  report_recommendations : list Underutilized
}.

(** The figures of the response body, lines 514-519. *)
Record Summary := {
  resp_total_savings : Q;
  volumes_deleted : nat;
  eips_released : nat;
  snapshots_tagged : nat;
  untagged_instances : nat;
  underutilized_instances : nat
}.

Inductive Body :=
| Completed (summary : Summary)   (* 'message', and the figures *)
| Failed (error : string).        (* 'error': str(e) *)

Record Response := {
  statusCode : Z;
  body : Body
}.

Section WithServices.
(** The builtins [sum], over the datapoints, and [round(x, 2)], as in
    [CostReport]. *)
Variable py_sum : list float -> float.
Variable round2 : float -> float.
(** [cloudwatch_client.get_metric_statistics] for an instance id: the
    ['Average'] of its datapoints; and [sns_client.publish] of a report.
    Neither changes what the EC2 client answers. *)
Variable cloudwatch_client : string -> Result (list float).
Variable sns_client : Report -> Result unit.

(** Lines 342-368: the loop over the running instances.  An exception in
    it is caught at line 372, outside the loop, with the list built so
    far. *)
Fixpoint utilization_loop (instances : list (string * string))
    (underutilized_instances : list Underutilized)
  : M (Cloud World) (list Underutilized) :=
  match instances with
  | [] => ret underutilized_instances
  | (instance_id, instance_type) :: rest =>
    fun st =>
      match invoke (GetMetricStatistics instance_id)
              (fun w => (cloudwatch_client instance_id, w)) st with
      | (Raise _, st') => (Ok underutilized_instances, st')
      | (Ok [], st') => utilization_loop rest underutilized_instances st'
      | (Ok datapoints, st') =>
        match Binary64.py_div (py_sum datapoints)
                (Binary64.of_nat (List.length datapoints)) with
        | Raise _ => (Ok underutilized_instances, st')
        | Ok avg_cpu =>
          utilization_loop rest
            (if (avg_cpu <? 10)%float
             then underutilized_instances ++
                    [{| InstanceId := instance_id;
                        InstanceType := instance_type;
                        AvgCpuUtilization := round2 avg_cpu |}]
             else underutilized_instances)
            st'
        end
      end
  end.

(** Lines 329-375. *)
Definition analyze_ec2_utilization : M (Cloud World) (list Underutilized) :=
  fun st =>
    match invoke DescribeRunningInstances
            (describe_running_instances ec2) st with
    | (Raise _, st1) => (Ok [], st1)
    | (Ok instances, st1) => utilization_loop instances [] st1
    end.

(** Lines 382-450. *)
Definition generate_cost_report (reclaimed : Reclaimed)
    (untagged : list Tagging.Untagged * list Tagging.Untagged)
    (underutilized : list Underutilized) : Report :=
  {| report_total_savings :=
       total_savings (volume_results reclaimed) +
       eip_total_savings (eip_results reclaimed);
     report_volumes := volume_results reclaimed;
     report_eips := eip_results reclaimed;
     report_snapshots_tagged :=
       List.length (tagged (snapshot_results reclaimed));
     report_untagged_instances := List.length (fst untagged);
     report_untagged_volumes := List.length (snd untagged);
     report_underutilized := List.length underutilized;
     report_recommendations := firstn 5 underutilized |}.

(** Lines 453-467. *)
Definition send_notification (SNS_TOPIC_ARN : string) (report : Report)
  : M (Cloud World) unit :=
  match SNS_TOPIC_ARN with
  | EmptyString => ret tt
  | _ =>
    try_except (invoke Publish (fun w => (sns_client report, w)))
      (fun _ => ret tt)
  end.

(** Lines 474-530. *)
Definition lambda_handler (DRY_RUN : bool) (MIN_DAYS_BEFORE_DELETE : Z)
    (SNS_TOPIC_ARN : string) (now : Z) : M (Cloud World) Response :=
  try_except
    (reclaimed <- reclaim DRY_RUN MIN_DAYS_BEFORE_DELETE now ;;
     untagged_resources <- find_untagged_resources ;;
     underutilized_instances <- analyze_ec2_utilization ;;
     let report :=
       generate_cost_report reclaimed untagged_resources
         underutilized_instances in
     send_notification SNS_TOPIC_ARN report ;;;
     ret {| statusCode := 200;
            body := Completed
              {| resp_total_savings :=
                   total_savings (volume_results reclaimed) +
                   eip_total_savings (eip_results reclaimed);
                 volumes_deleted :=
                   List.length (deleted (volume_results reclaimed));
                 eips_released :=
                   List.length (released (eip_results reclaimed));
                 snapshots_tagged :=
                   List.length (tagged (snapshot_results reclaimed));
                 untagged_instances :=
                   List.length (fst untagged_resources);
                 underutilized_instances :=
                   List.length underutilized_instances |} |})
    (fun e => ret {| statusCode := 500; body := Failed (str_exn e) |}).

End WithServices.

End WithClient.

End CostOptimizer.

(** ** resource-cleanup.py *)

Module ResourceCleanup.
Import EC2.
Local Open Scope monad_scope.

Record SnapshotEntry := {
  id : string;
  size_gb : Z;
  savings_per_month : Q
}.

Record VolumeEntry := {
  volume_id : string;
  volume_size_gb : Z;
  type : string
}.

Record EipEntry := {
  ip : string;
  eip_savings_per_month : Q
}.

(** [self.cleanup_report] *)
Record CleanupReport := {
  snapshots_deleted : list SnapshotEntry;
  volumes_deleted : list VolumeEntry;
  eips_released : list EipEntry;
  total_savings : Q
}.

Definition empty_report : CleanupReport :=
  {| snapshots_deleted := []; volumes_deleted := []; eips_released := [];
     total_savings := 0 |}.

(** The object and its surroundings: the account, [self.cleanup_report],
    and the content of [cleanup_report.json] once written. *)
Record Self (World : Type) := {
  cloud : Cloud World;
  cleanup_report : CleanupReport;
  report_file : option CleanupReport
}.
Arguments cloud {World}.
Arguments cleanup_report {World}.
Arguments report_file {World}.

Section WithClient.
Context {World : Type} (ec2 : Client World).

(** A call on [self.ec2]. *)
Definition on_ec2 {A} (m : M (Cloud World) A) : M (Self World) A :=
  fun self =>
    let (r, c) := m (cloud self) in
    (r, {| cloud := c;
           cleanup_report := cleanup_report self;
           report_file := report_file self |}).

Definition update_report (f : CleanupReport -> CleanupReport)
  : M (Self World) unit :=
  fun self =>
    (Ok tt, {| cloud := cloud self;
               cleanup_report := f (cleanup_report self);
               report_file := report_file self |}).

(** Lines 35-52: the body of the loop for one old snapshot. *)
Definition snapshot_step (dry_run : bool) (snapshot : SnapshotDesc) (_ : unit)
  : M (Self World) unit :=
  let snapshot_id := SnapshotId snapshot in
  let size := VolumeSize snapshot in
  (if negb dry_run then
     try_except
       (on_ec2 (invoke (DeleteSnapshot snapshot_id)
                  (delete_snapshot ec2 snapshot_id)))
       (fun _ => ret tt)
   else ret tt) ;;;
  update_report (fun r =>
    {| snapshots_deleted := snapshots_deleted r ++
         [{| id := snapshot_id; size_gb := size;
             savings_per_month := inject_Z size * (5 # 100) |}];
       volumes_deleted := volumes_deleted r;
       eips_released := eips_released r;
       total_savings := total_savings r |}).

(** Lines 26-54. *)
Definition cleanup_old_snapshots (dry_run : bool) (now days_old : Z)
  : M (Self World) nat :=
  snapshots <- on_ec2 (invoke DescribeSnapshots (describe_snapshots ec2)) ;;
  first <- pure_result (py_index snapshots 0) ;;
  let cutoff_date := (now - days_old * 86400)%Z in
  let old_snapshots :=
    filter (fun s => (StartTime s <? cutoff_date)%Z) snapshots in
  for_each old_snapshots (snapshot_step dry_run) tt ;;;
  ret (List.length old_snapshots).

(** Lines 64-82: the body of the loop for one volume. *)
Definition volume_step (dry_run : bool) (volume : VolumeDesc) (_ : unit)
  : M (Self World) unit :=
  let vid := VolumeId volume in
  (if negb dry_run then
     try_except
       (on_ec2 (invoke (DeleteVolume vid) (delete_volume ec2 vid)))
       (fun _ => ret tt)
   else ret tt) ;;;
  update_report (fun r =>
    {| snapshots_deleted := snapshots_deleted r;
       volumes_deleted := volumes_deleted r ++
         [{| volume_id := vid; volume_size_gb := Size volume;
             type := VolumeType volume |}];
       eips_released := eips_released r;
       total_savings := total_savings r |}).

(** Lines 56-84; [describe_volumes] is asked for the available volumes. *)
Definition cleanup_unattached_volumes (dry_run : bool) : M (Self World) nat :=
  volumes <- on_ec2 (invoke DescribeVolumes (describe_volumes ec2)) ;;
  for_each volumes (volume_step dry_run) tt ;;;
  ret (List.length volumes).

(** [allocation_id] is truthy: present and not empty. *)
Definition truthy_id (allocation_id : option string) : option string :=
  match allocation_id with
  | Some a => if String.eqb a "" then None else Some a
  | None => None
  end.

(** Lines 93-109: the body of the loop for one address. *)
Definition eip_step (dry_run : bool) (eip : AddressDesc) (_ : unit)
  : M (Self World) unit :=
  match (if dry_run then None else truthy_id (AllocationId eip)) with
  | Some allocation_id =>
    try_except
      (on_ec2 (invoke (ReleaseAddress allocation_id)
                 (release_address ec2 allocation_id)))
      (fun _ => ret tt)
  | None => ret tt
  end ;;;
  update_report (fun r =>
    {| snapshots_deleted := snapshots_deleted r;
       volumes_deleted := volumes_deleted r;
       eips_released := eips_released r ++
         [{| ip := PublicIp eip; eip_savings_per_month := 36 # 10 |}];
       total_savings := total_savings r |}).

(** Lines 86-111. *)
Definition cleanup_unassociated_eips (dry_run : bool) : M (Self World) nat :=
  eips <- on_ec2 (invoke DescribeAddresses (describe_addresses ec2)) ;;
  let unassociated :=
    filter (fun eip => match AssociationId eip with
                       | Some _ => false | None => true end) eips in
  for_each unassociated (eip_step dry_run) tt ;;;
  ret (List.length unassociated).

(** Lines 113-141. *)
Definition run_cleanup (dry_run : bool) (now : Z) : M (Self World) unit :=
  snapshot_count <- cleanup_old_snapshots dry_run now 90 ;;
  volume_count <- cleanup_unattached_volumes dry_run ;;
  eip_count <- cleanup_unassociated_eips dry_run ;;
  update_report (fun r =>
    let snapshot_savings :=
      py_sum (map savings_per_month (snapshots_deleted r)) in
    let eip_savings :=
      inject_Z (Z.of_nat (List.length (eips_released r))) * (36 # 10) in
    {| snapshots_deleted := snapshots_deleted r;
       volumes_deleted := volumes_deleted r;
       eips_released := eips_released r;
       total_savings := snapshot_savings + eip_savings |}) ;;;
  (fun self =>
     (Ok tt, {| cloud := cloud self;
                cleanup_report := cleanup_report self;
                report_file := Some (cleanup_report self) |})).

End WithClient.

(** [ResourceCleanup(dry_run)] on a scripted account, before any call. *)
Definition fresh (w : Script) : Self Script :=
  {| cloud := start w; cleanup_report := empty_report; report_file := None |}.

End ResourceCleanup.

(** ** Concrete inputs used by the runs below *)

Module Scenario.
Import EC2.

(** A budget with limit 0 and a large spend, and an ordinary one. *)
Definition overspent : BudgetAlert.Budget :=
  {| BudgetAlert.BudgetName := "sandbox";
     BudgetAlert.BudgetLimit := 0;
     BudgetAlert.ActualSpend := Some 5000;
     BudgetAlert.ForecastedSpend := Some 9000 |}.

Definition capped : BudgetAlert.Budget :=
  {| BudgetAlert.BudgetName := "prod";
     BudgetAlert.BudgetLimit := 1000;
     BudgetAlert.ActualSpend := Some 950;
     BudgetAlert.ForecastedSpend := Some 1200 |}.

(** Daily cost series. *)
Definition daily (costs : list float) : list CostAnomaly.CostResult :=
  map (fun c => {| CostAnomaly.period_start := "day";
                   CostAnomaly.amount := c |}) costs.

Definition three_days : list CostAnomaly.CostResult :=
  [{| CostAnomaly.period_start := "2024-01-01";
      CostAnomaly.amount := 100%float |};
   {| CostAnomaly.period_start := "2024-01-02";
      CostAnomaly.amount := 100%float |};
   {| CostAnomaly.period_start := "2024-01-03";
      CostAnomaly.amount := 160%float |}].

Definition two_days : list CostAnomaly.CostResult :=
  [{| CostAnomaly.period_start := "2024-01-01";
      CostAnomaly.amount := 100%float |};
   {| CostAnomaly.period_start := "2024-01-02";
      CostAnomaly.amount := 105%float |}].

(** A Logs backend whose port-scan query stays "Running" for ever while
    every other query is complete at the first poll. *)
Definition stuck_port_scan : FlowLogs.LogsClient :=
  {| FlowLogs.start_query := fun query => query;
     FlowLogs.get_query_results := fun query_id _ =>
       if String.eqb query_id FlowLogs.port_scan_query
       then {| FlowLogs.status := "Running"; FlowLogs.results := [] |}
       else {| FlowLogs.status := "Complete"; FlowLogs.results := [] |} |}.

(** A Logs backend that completes every query at the third poll. *)
Definition third_poll : FlowLogs.LogsClient :=
  {| FlowLogs.start_query := fun query => query;
     FlowLogs.get_query_results := fun _ k =>
       if (k <? 2)%nat
       then {| FlowLogs.status := "Running"; FlowLogs.results := [] |}
       else {| FlowLogs.status := "Complete";
               FlowLogs.results := [[("srcAddr", "10.0.0.9")]] |} |}.

(** An account with one available 100 GB volume, one snapshot of 100 GB
    taken at time 0 and no address. *)
Definition vol1 : VolumeDesc :=
  {| VolumeId := "vol-1"; Size := 100; VolumeType := "gp3"; CreateTime := 0 |}.

Definition snap1 : SnapshotDesc :=
  {| SnapshotId := "snap-1"; StartTime := 0; VolumeSize := 100 |}.

Definition account (outcomes : list (option string)) : Script :=
  {| inventory_snapshots := [snap1];
     inventory_volumes := [vol1];
     inventory_addresses := [];
     outcomes := outcomes |}.

(** The same account where [vol-1] disappears between its safety
    snapshot and its deletion. *)
Definition vanishing : Script := account [None; Some "InvalidVolume.NotFound"].

(** An account with volumes and addresses but no snapshot. *)
Definition no_snapshots : Script :=
  {| inventory_snapshots := [];
     inventory_volumes := [vol1];
     inventory_addresses :=
       [{| PublicIp := "198.51.100.7"; AllocationId := Some "eipalloc-1";
           AssociationId := None |}];
     outcomes := [] |}.

(** [vol-1] as [find_unattached_volumes] reports it. *)
Definition vol1_info : CostOptimizer.VolumeInfo :=
  {| CostOptimizer.vi_VolumeId := "vol-1";
     CostOptimizer.vi_Size := 100;
     CostOptimizer.vi_AgeDays := 200;
     CostOptimizer.vi_MonthlyCost := 8 |}.

(** 200 days after the epoch, in seconds. *)
Definition day200 : Z := 17280000.

End Scenario.

(** ** Python strings, counters and sorting used by the reporting code *)

Module PyStr.

(** [sub in s] *)
Fixpoint contains (sub s : string) : bool :=
  match s with
  | EmptyString => String.prefix sub EmptyString
  | String _ rest => String.prefix sub s || contains sub rest
  end.

(** [s.replace(old, new)] for a non-empty [old]: a left-to-right scan that
    replaces each occurrence and resumes after it.  [skip] counts the
    characters of the occurrence still to be dropped. *)
Fixpoint replace_from (old new : string) (skip : nat) (s : string) : string :=
  match s with
  | EmptyString => EmptyString
  | String c rest =>
    match skip with
    | S k => replace_from old new k rest
    | O =>
      if String.prefix old s
      then (new ++ replace_from old new (String.length old - 1) rest)%string
      else String c (replace_from old new 0 rest)
    end
  end.

Definition replace (old new s : string) : string := replace_from old new 0 s.

(** No character of [s] is [c]. *)
Fixpoint lacks (c : Ascii.ascii) (s : string) : bool :=
  match s with
  | EmptyString => true
  | String d rest => negb (Ascii.eqb c d) && lacks c rest
  end.

End PyStr.

Module Counter.

Section Counting.
Context {V : Type} (zero : V) (add : V -> V -> V).

(** [d[key] += v] on a [defaultdict] / [Counter]: dicts keep insertion
    order, a new key goes last. *)
Fixpoint bump (key : string) (v : V) (d : list (string * V))
  : list (string * V) :=
  match d with
  | [] => [(key, add zero v)]
  | (k, old) :: rest =>
    if String.eqb k key then (k, add old v) :: rest
    else (k, old) :: bump key v rest
  end.

(** [d.get(key, zero)] *)
Fixpoint lookup (key : string) (d : list (string * V)) : V :=
  match d with
  | [] => zero
  | (k, v) :: rest => if String.eqb k key then v else lookup key rest
  end.

End Counting.

Section Sorting.
Context {V : Type} (gtb : V -> V -> bool).

(** [sorted(items, key=lambda x: x[1], reverse=True)]: descending by
    value, items of equal value in their original order. *)
Fixpoint insert_desc (x : string * V) (l : list (string * V))
  : list (string * V) :=
  match l with
  | [] => [x]
  | y :: ys => if gtb (snd y) (snd x) then y :: insert_desc x ys else x :: l
  end.

Definition sorted_desc (l : list (string * V)) : list (string * V) :=
  fold_right insert_desc [] l.

End Sorting.

End Counter.

(** ** aws-cost-analyzer.py: top services and recommendations *)

Module CostAnalysis.

(** Lines 99-112.  [results] holds, for each period, its [Groups] as
    pairs of [Keys[0]] and the parsed [UnblendedCost] amount. *)
Definition service_costs (results : list (list (string * Q)))
  : list (string * Q) :=
  fold_left
    (fun d period =>
       fold_left (fun d' group => Counter.bump 0 Qplus (fst group) (snd group) d')
         period d)
    results [].

Definition get_top_cost_services (results : list (list (string * Q)))
    (top_n : nat) : list (string * Q) :=
  firstn top_n (Counter.sorted_desc (fun a b => Qlt_bool b a)
                  (service_costs results)).

Inductive Recommendation :=
| ReservedInstances (avg_coverage : Q)      (* priority HIGH *)
| ResourceTagging (untagged_percentage : Q) (* priority HIGH *)
| CostAnomalies (high_anomalies : nat).     (* priority CRITICAL *)

(** The entries of [report['analysis']] that [_generate_recommendations]
    reads; [ri_coverage] holds the parsed [coverage_percentage] values. *)
Record Analysis := {
  ri_coverage : list Q;
  untagged_percentage : Q;
  anomalies : list CostAnomaly.Anomaly
}.

Definition is_high (a : CostAnomaly.Anomaly) : bool :=
  match CostAnomaly.severity a with
  | CostAnomaly.HIGH => true
  | CostAnomaly.MEDIUM => false
  end.

(** Lines 231-240. *)
Definition ri_recommendation (coverage : list Q)
  : Result (list Recommendation) :=
  match coverage with
  | [] => Ok []
  | _ =>
    match py_div (py_sum coverage)
            (inject_Z (Z.of_nat (List.length coverage))) with
    | Raise e => Raise e
    | Ok avg_coverage =>
      Ok (if Qlt_bool avg_coverage 70
          then [ReservedInstances avg_coverage] else [])
    end
  end.

(** Lines 227-262. *)
Definition _generate_recommendations (analysis : Analysis)
  : Result (list Recommendation) :=
  match ri_recommendation (ri_coverage analysis) with
  | Raise e => Raise e
  | Ok ri =>
    let tagging :=
      if Qlt_bool 20 (untagged_percentage analysis)
      then [ResourceTagging (untagged_percentage analysis)] else [] in
    let high_anomalies := filter is_high (anomalies analysis) in
    let anomaly :=
      match high_anomalies with
      | [] => []
      | _ => [CostAnomalies (List.length high_anomalies)]
      end in
    Ok (ri ++ tagging ++ anomaly)
  end.

End CostAnalysis.

(** ** rightsizing-recommendations.py: suggested types and the summary *)

Module InstanceTypes.

(** The first entry of [size_map] whose key occurs in [instance_type]
    decides (lines 135-139 and 150-154). *)
Fixpoint suggest (size_map : list (string * string)) (instance_type : string)
  : string :=
  match size_map with
  | [] => instance_type
  | (size, other) :: rest =>
    if PyStr.contains size instance_type
    then PyStr.replace size other instance_type
    else suggest rest instance_type
  end.

(** Lines 125-139. *)
Definition suggest_smaller_instance (instance_type : string) : string :=
  suggest [("2xlarge", "xlarge"); ("xlarge", "large");
           ("large", "medium"); ("medium", "small")] instance_type.

(** Lines 141-154. *)
Definition suggest_larger_instance (instance_type : string) : string :=
  suggest [("small", "medium"); ("medium", "large");
           ("large", "xlarge"); ("xlarge", "2xlarge")] instance_type.

Definition is_downsize (r : RightSizing.Recommendation) : bool :=
  match RightSizing.action r with
  | RightSizing.DOWNSIZE => true
  | RightSizing.UPSIZE => false
  end.

Definition is_upsize (r : RightSizing.Recommendation) : bool :=
  match RightSizing.action r with
  | RightSizing.UPSIZE => true
  | RightSizing.DOWNSIZE => false
  end.

(** [report['summary']]; [estimated_savings] is the dollar amount that
    [calculate_total_savings] formats. *)
Record Summary := {
  total_analyzed : nat;
  downsize_opportunities : nat;
  upsize_needed : nat;
  estimated_savings : nat
}.

(** Lines 166-193. *)
Definition generate_report (cloudwatch : RightSizing.CloudWatch)
    (instances : list (string * string))
  : list RightSizing.Recommendation * Summary :=
  let ec2_recommendations :=
    RightSizing.analyze_ec2_instances cloudwatch instances in
  (ec2_recommendations,
   {| total_analyzed := List.length ec2_recommendations;
      downsize_opportunities :=
        List.length (filter is_downsize ec2_recommendations);
      upsize_needed := List.length (filter is_upsize ec2_recommendations);
      estimated_savings :=
        (List.length (filter is_downsize ec2_recommendations) * 50)%nat |}).

End InstanceTypes.

(** ** flow-log-analyzer.py: [analyze_security_group_denials] *)

Module Denials.

Section WithInt.
(** [int(s)]; [None] stands for [ValueError]. *)
Context (py_int : string -> option Z).

(** [{item['field']: item['value'] for item in log_entry}.get(key)]: the
    last pair with that field wins. *)
Definition field (log_entry : FlowLogs.Row) (key : string) : option string :=
  fold_left (fun found item =>
               if String.eqb (fst item) key then Some (snd item) else found)
    log_entry None.

Definition field_or (log_entry : FlowLogs.Row) (key default : string)
  : string :=
  match field log_entry key with Some v => v | None => default end.

(** [int(fields.get('rejections', 0))] *)
Definition rejections (log_entry : FlowLogs.Row) : option Z :=
  match field log_entry "rejections" with
  | Some v => py_int v
  | None => Some 0%Z
  end.

Record Counters := {
  denials : list (string * Z);
  top_sources : list (string * Z);
  top_destinations : list (string * Z)
}.

(** Lines 115-125. *)
Fixpoint count_loop (rejected_logs : list FlowLogs.Row) (c : Counters)
  : option Counters :=
  match rejected_logs with
  | [] => Some c
  | log_entry :: rest =>
    let src := field_or log_entry "srcAddr" "unknown" in
    let dst := field_or log_entry "dstAddr" "unknown" in
    let port := field_or log_entry "dstPort" "unknown" in
    match rejections log_entry with
    | None => None
    | Some count =>
      count_loop rest
        {| denials :=
             Counter.bump 0%Z Z.add (dst ++ ":" ++ port)%string count
               (denials c);
           top_sources := Counter.bump 0%Z Z.add src count (top_sources c);
           top_destinations :=
             Counter.bump 0%Z Z.add dst count (top_destinations c) |}
    end
  end.

Record Analysis := {
  total_denials : Z;
  top_denied_endpoints : list (string * Z);
  top_10_sources : list (string * Z);
  top_10_destinations : list (string * Z)
}.

Definition top10 (d : list (string * Z)) : list (string * Z) :=
  firstn 10 (Counter.sorted_desc (fun a b => (b <? a)%Z) d).

(** Lines 107-132, over the rows [query_flow_logs] returned. *)
Definition analyze_security_group_denials (rejected_logs : list FlowLogs.Row)
  : option Analysis :=
  match count_loop rejected_logs
          {| denials := []; top_sources := []; top_destinations := [] |} with
  | None => None
  | Some c =>
    Some {| total_denials := fold_left Z.add (map snd (denials c)) 0%Z;
            top_denied_endpoints := top10 (denials c);
            top_10_sources := top10 (top_sources c);
            top_10_destinations := top10 (top_destinations c) |}
  end.

End WithInt.

End Denials.

(** ** flow-log-analyzer.py: [generate_report] *)

Module FlowReport.

Section WithInt.
(** [int(s)]; [None] stands for [ValueError]. *)
Context (py_int : string -> option Z).

(** Line 158, [int(fields.get('total_bytes', 0)) / (1024**3)], for one
    row.  [int] raises [ValueError] for a text that is not an integer, and
    the division raises [OverflowError] when the quotient, rounded to the
    nearest float, is not finite, that is from 2^1024 - 2^970 on.  The
    value is only printed: what the run keeps of it is whether it
    raised. *)
Definition bytes_gb (instance : FlowLogs.Row) : Result unit :=
  match Denials.field instance "total_bytes" with
  | None => Ok tt
  | Some v =>
    match py_int v with
    | None => Raise ValueError
    | Some total_bytes =>
      if (Z.abs total_bytes <? 2 ^ 1054 - 2 ^ 1000)%Z
      then Ok tt
      else Raise OverflowError
    end
  end.

(** Lines 154-159: the loop over [exfil[:5]]. *)
Fixpoint print_exfiltration (instances : list FlowLogs.Row) : Result unit :=
  match instances with
  | [] => Ok tt
  | instance :: rest =>
    match bytes_gb instance with
    | Ok _ => print_exfiltration rest
    | Raise e => Raise e
    end
  end.

(** The report of lines 192-197, without its timestamp. *)
Record Report := {
  port_scans : nat;
  data_exfiltration : nat;
  security_group_analysis : Denials.Analysis
}.

(** Lines 134-202.  The port-scan query, the exfiltration query and the
    printing of its first five rows, then [analyze_security_group_denials]
    with its own query, one after the other.  [None]: a query is still
    being polled after [fuel] iterations; [Some (Raise e)]: the run ended
    with the exception [e] of an [int(...)] or of the division; printing
    and the writing of the file are taken to succeed. *)
Definition generate_report (logs : FlowLogs.LogsClient) (fuel : nat)
  : option (Result Report) :=
  match FlowLogs.detect_port_scanning logs fuel with
  | None => None
  | Some (scans, _) =>
    match FlowLogs.detect_data_exfiltration logs fuel with
    | None => None
    | Some (exfil, _) =>
      match print_exfiltration (firstn 5 exfil) with
      | Raise e => Some (Raise e)
      | Ok _ =>
        match FlowLogs.query_flow_logs logs fuel with
        | None => None
        | Some (rejected_logs, _) =>
          match Denials.analyze_security_group_denials py_int
                  rejected_logs with
          | None => Some (Raise ValueError)
          | Some sg_analysis =>
            Some (Ok {| port_scans := List.length scans;
                        data_exfiltration := List.length exfil;
                        security_group_analysis := sg_analysis |})
          end
        end
      end
    end
  end.

End WithInt.

End FlowReport.

(** ** What the clean-up script records, in closed form *)

Module Ledger.
Import EC2.

(** The entries appended at lines 48-52, 78-82 and 106-109. *)
Definition snapshot_entry (s : SnapshotDesc) : ResourceCleanup.SnapshotEntry :=
  {| ResourceCleanup.id := SnapshotId s;
     ResourceCleanup.size_gb := VolumeSize s;
     ResourceCleanup.savings_per_month := inject_Z (VolumeSize s) * (5 # 100) |}.

Definition volume_entry (v : VolumeDesc) : ResourceCleanup.VolumeEntry :=
  {| ResourceCleanup.volume_id := VolumeId v;
     ResourceCleanup.volume_size_gb := Size v;
     ResourceCleanup.type := VolumeType v |}.

Definition eip_entry (a : AddressDesc) : ResourceCleanup.EipEntry :=
  {| ResourceCleanup.ip := PublicIp a;
     ResourceCleanup.eip_savings_per_month := 36 # 10 |}.

(** The report with further entries at the end of one of its lists. *)
Definition with_snapshots (r : ResourceCleanup.CleanupReport)
    (l : list SnapshotDesc) : ResourceCleanup.CleanupReport :=
  {| ResourceCleanup.snapshots_deleted :=
       ResourceCleanup.snapshots_deleted r ++ map snapshot_entry l;
     ResourceCleanup.volumes_deleted := ResourceCleanup.volumes_deleted r;
     ResourceCleanup.eips_released := ResourceCleanup.eips_released r;
     ResourceCleanup.total_savings := ResourceCleanup.total_savings r |}.

Definition with_volumes (r : ResourceCleanup.CleanupReport)
    (l : list VolumeDesc) : ResourceCleanup.CleanupReport :=
  {| ResourceCleanup.snapshots_deleted := ResourceCleanup.snapshots_deleted r;
     ResourceCleanup.volumes_deleted :=
       ResourceCleanup.volumes_deleted r ++ map volume_entry l;
     ResourceCleanup.eips_released := ResourceCleanup.eips_released r;
     ResourceCleanup.total_savings := ResourceCleanup.total_savings r |}.

Definition with_eips (r : ResourceCleanup.CleanupReport)
    (l : list AddressDesc) : ResourceCleanup.CleanupReport :=
  {| ResourceCleanup.snapshots_deleted := ResourceCleanup.snapshots_deleted r;
     ResourceCleanup.volumes_deleted := ResourceCleanup.volumes_deleted r;
     ResourceCleanup.eips_released :=
       ResourceCleanup.eips_released r ++ map eip_entry l;
     ResourceCleanup.total_savings := ResourceCleanup.total_savings r |}.

(** The filters of lines 33 and 91. *)
Definition old_snapshots (now days_old : Z) (l : list SnapshotDesc)
  : list SnapshotDesc :=
  filter (fun s => (StartTime s <? now - days_old * 86400)%Z) l.

Definition unassociated (l : list AddressDesc) : list AddressDesc :=
  filter (fun eip => match AssociationId eip with
                     | Some _ => false | None => true end) l.

(** The allocation ids a live run calls [release_address] on. *)
Definition releasable (l : list AddressDesc) : list string :=
  flat_map (fun eip => match ResourceCleanup.truthy_id (AllocationId eip) with
                       | Some allocation_id => [allocation_id]
                       | None => []
                       end) l.

(** The object after its calls went from [cloud self] to [c] and its
    report became [r]. *)
Definition moved {World} (self : ResourceCleanup.Self World)
    (c : Cloud World) (r : ResourceCleanup.CleanupReport)
  : ResourceCleanup.Self World :=
  {| ResourceCleanup.cloud := c;
     ResourceCleanup.cleanup_report := r;
     ResourceCleanup.report_file := ResourceCleanup.report_file self |}.

(** The account after the calls [new] left the world in [w]. *)
Definition after {World} (c : Cloud World) (w : World) (new : list Event)
  : Cloud World :=
  {| world := w; calls := calls c ++ new |}.

End Ledger.

(** ** Further concrete inputs *)

Module Samples.
Import EC2.

Definition eip1 : CostOptimizer.EipInfo :=
  {| CostOptimizer.ei_PublicIp := "198.51.100.7";
     CostOptimizer.ei_AllocationId := "eipalloc-1";
     CostOptimizer.ei_MonthlyCost := 36 # 10 |}.

Definition classic_address : AddressDesc :=
  {| PublicIp := "203.0.113.5"; AllocationId := None; AssociationId := None |}.

Definition vpc_address : AddressDesc :=
  {| PublicIp := "198.51.100.7"; AllocationId := Some "eipalloc-1";
     AssociationId := None |}.

(** An account with one old snapshot, one volume and two unassociated
    addresses, the first without allocation id. *)
Definition mixed : Script :=
  {| inventory_snapshots := [Scenario.snap1];
     inventory_volumes := [Scenario.vol1];
     inventory_addresses := [classic_address; vpc_address];
     outcomes := [] |}.

(** Decimal digits only, as CloudWatch Logs prints counts. *)
Fixpoint digits (s : string) (acc : Z) : option Z :=
  match s with
  | EmptyString => Some acc
  | String c rest =>
    let n := Ascii.nat_of_ascii c in
    if ((48 <=? n) && (n <=? 57))%nat
    then digits rest (10 * acc + Z.of_nat (n - 48))%Z
    else None
  end.

Definition int_of (s : string) : option Z :=
  match s with
  | EmptyString => None
  | _ => digits s 0%Z
  end.

(** An account in which every call succeeds. *)
Definition reliable : Client unit := {|
  describe_snapshots := fun w => (Ok [], w);
  describe_volumes := fun w => (Ok [], w);
  describe_addresses := fun w => (Ok [], w);
  create_snapshot := fun v w => (Ok ("snap-of-" ++ v)%string, w);
  delete_volume := fun _ w => (Ok tt, w);
  delete_snapshot := fun _ w => (Ok tt, w);
  release_address := fun _ w => (Ok tt, w);
  create_tags := fun _ w => (Ok tt, w);
  describe_instances := fun w => (Ok [], w);
  describe_all_volumes := fun w => (Ok [], w);
  describe_running_instances := fun w => (Ok [], w)
|}.

(** A Logs backend in which every query is complete at the first poll;
    the exfiltration query answers one row whose byte count is printed in
    scientific notation. *)
Definition scientific_count : FlowLogs.LogsClient :=
  {| FlowLogs.start_query := fun query => query;
     FlowLogs.get_query_results := fun query_id _ =>
       if String.eqb query_id (FlowLogs.exfiltration_query 10)
       then {| FlowLogs.status := "Complete";
               FlowLogs.results :=
                 [[("srcAddr", "10.0.0.5"); ("total_bytes", "1.2E10")]] |}
       else {| FlowLogs.status := "Complete"; FlowLogs.results := [] |} |}.

(** An account with three running instances, the first one without any
    tag, and one tagged volume; every call succeeds. *)
Definition fleet : Client unit := {|
  describe_snapshots := fun w => (Ok [Scenario.snap1], w);
  describe_volumes := fun w => (Ok [Scenario.vol1], w);
  describe_addresses := fun w => (Ok [], w);
  create_snapshot := fun v w => (Ok ("snap-of-" ++ v)%string, w);
  delete_volume := fun _ w => (Ok tt, w);
  delete_snapshot := fun _ w => (Ok tt, w);
  release_address := fun _ w => (Ok tt, w);
  create_tags := fun _ w => (Ok tt, w);
  describe_instances := fun w =>
    (Ok [[{| Tagging.resource_id := "i-1"; Tagging.Tags := [] |};
          {| Tagging.resource_id := "i-2";
             Tagging.Tags := [("Environment", "prod"); ("CostCenter", "42");
                              ("Owner", "ops"); ("Project", "x")] |}];
         [{| Tagging.resource_id := "i-3";
             Tagging.Tags := [("Environment", "prod"); ("CostCenter", "42");
                              ("Owner", "ops"); ("Project", "x")] |}]], w);
  describe_all_volumes := fun w =>
    (Ok [{| Tagging.resource_id := "vol-1";
            Tagging.Tags := [("Environment", "prod"); ("CostCenter", "42");
                             ("Owner", "ops"); ("Project", "x")] |}], w);
  describe_running_instances := fun w =>
    (Ok [("i-1", "t3.small"); ("i-2", "t3.small"); ("i-3", "m5.large")], w)
|}.

(** CloudWatch answers two datapoints for every instance but [i-2], for
    which it raises. *)
Definition throttled_metrics (instance_id : string) : Result (list float) :=
  if String.eqb instance_id "i-2" then Raise (ClientError "Throttling")
  else Ok [1; 2]%float.

(** Three rejected-connection rows; the last one has no count. *)
Definition three_rows : list FlowLogs.Row :=
  [[("srcAddr", "10.0.0.9"); ("dstAddr", "10.0.1.5"); ("dstPort", "22");
    ("rejections", "12")];
   [("srcAddr", "10.0.0.7"); ("dstAddr", "10.0.1.5"); ("dstPort", "22");
    ("rejections", "30")];
   [("srcAddr", "10.0.0.9")]].

End Samples.

(** * Properties *)

(** ** Arithmetic helpers *)

Lemma Qlt_bool_iff x y : Qlt_bool x y = true <-> x < y.
Proof.
  unfold Qlt_bool. rewrite negb_true_iff. split.
  - intros H. apply Qnot_le_lt. intros Hle.
    apply Qle_bool_iff in Hle. congruence.
  - intros H. destruct (Qle_bool y x) eqn:E; [|reflexivity].
    apply Qle_bool_iff in E. exfalso. exact (Qlt_not_le _ _ H E).
Qed.

Lemma Qlt_bool_zero_false x : x == 0 -> Qlt_bool 0 x = false.
Proof.
  intros H. unfold Qlt_bool. apply negb_false_iff.
  apply Qle_bool_iff. rewrite H. apply Qle_refl.
Qed.

(** ** The order of binary64 values *)

Lemma SFcompare_le_lt_trans a b c :
  SFleb a b = true -> SFltb b c = true -> SFltb a c = true.
Proof.
  unfold SFleb, SFltb.
  destruct a as [sa|sa| |sa ma ea], b as [sb|sb| |sb mb eb],
           c as [sc|sc| |sc mc ec]; simpl;
    try discriminate; try reflexivity;
    repeat match goal with s : bool |- _ => destruct s end; simpl;
    try discriminate; try reflexivity.
  all: change (Pos.compare_cont Eq) with Pos.compare.
  all: destruct (Z.compare_spec ea eb), (Z.compare_spec eb ec),
         (Z.compare_spec ea ec); subst; simpl;
       try discriminate; try reflexivity; try lia.
  all: destruct (Pos.compare_spec ma mb), (Pos.compare_spec mb mc),
         (Pos.compare_spec ma mc); subst; simpl;
       try discriminate; try reflexivity; try lia.
Qed.

(** [a <= b] and [b < c] give [a < c], for floats as for reals; none of
    the three is then [nan]. *)
Lemma float_le_lt_trans (a b c : float) :
  (a <=? b)%float = true -> (b <? c)%float = true -> (a <? c)%float = true.
Proof.
  rewrite FloatAxioms.leb_spec, !FloatAxioms.ltb_spec.
  apply SFcompare_le_lt_trans.
Qed.

Lemma float_eqb_not_ltb (a b : float) :
  (a =? b)%float = true -> (b <? a)%float = false.
Proof.
  rewrite FloatAxioms.eqb_spec, FloatAxioms.ltb_spec. unfold SFeqb, SFltb.
  destruct (Prim2SF a) as [sa|sa| |sa ma ea],
           (Prim2SF b) as [sb|sb| |sb mb eb];
    simpl; try discriminate; try reflexivity;
    repeat match goal with s : bool |- _ => destruct s end; simpl;
    try discriminate; try reflexivity.
  all: change (Pos.compare_cont Eq) with Pos.compare.
  all: destruct (Z.compare_spec ea eb), (Z.compare_spec eb ea); subst; simpl;
       try discriminate; try reflexivity; try lia.
  all: destruct (Pos.compare_spec ma mb), (Pos.compare_spec mb ma);
       subst; simpl; try discriminate; try reflexivity; try lia.
Qed.

(** A positive divisor is not zero: under the guard [b > 0] the division
    does not raise. *)
Lemma float_div_positive (a b : float) :
  (0 <? b)%float = true -> Binary64.py_div a b = Ok (a / b)%float.
Proof.
  intros H. unfold Binary64.py_div.
  destruct (b =? 0)%float eqn:E; [|reflexivity].
  apply float_eqb_not_ltb in E. congruence.
Qed.

Lemma float_truthy_div (a b : float) :
  Binary64.truthy b = true -> Binary64.py_div a b = Ok (a / b)%float.
Proof.
  unfold Binary64.truthy, Binary64.py_div. intros H.
  apply negb_true_iff in H. now rewrite H.
Qed.

(** ** Report aggregation: the untagged percentage *)

(** The value of line 215 as a function of the two totals: the division
    is evaluated for a total strictly above 0 only, where it does not
    raise. *)
Lemma untagged_percentage_value (round2 : float -> float)
    (untagged_total total_cost : float) :
  CostReport.untagged_percentage round2 untagged_total total_cost =
  Ok (if (0 <? total_cost)%float
      then CostReport.Float (round2 (untagged_total / total_cost * 100)%float)
      else CostReport.Int 0).
Proof.
  unfold CostReport.untagged_percentage.
  destruct (0 <? total_cost)%float eqn:E; [|reflexivity].
  now rewrite (float_div_positive _ _ E).
Qed.

(** C8. When the total cost of the period, as line 179 computes it in
    binary64, is 0, the untagged percentage of the report is the [int] 0:
    the division is not evaluated, so the computation returns and does not
    raise [ZeroDivisionError].  This holds whatever [sum] and [round]
    compute. *)
Theorem untagged_percentage_zero_total :
  forall (py_sum : list float -> float) (round2 : float -> float)
         (cost_data untagged_costs : list float),
    (py_sum cost_data =? 0)%float = true ->
    CostReport.report_untagged_percentage py_sum round2
      cost_data untagged_costs = Ok (CostReport.Int 0).
Proof.
  intros py_sum round2 cost_data untagged_costs Hzero.
  unfold CostReport.report_untagged_percentage.
  rewrite untagged_percentage_value.
  now rewrite (float_eqb_not_ltb _ _ Hzero).
Qed.

Lemma untagged_percentage_zero_total_witness :
  (Binary64.sum_left [12.5; -12.5] =? 0)%float = true /\
  CostReport.report_untagged_percentage Binary64.sum_left Binary64.round_cents
    [12.5; -12.5]%float [5; 3.5]%float = Ok (CostReport.Int 0).
Proof.
  split.
  - vm_compute. reflexivity.
  - apply untagged_percentage_zero_total. vm_compute. reflexivity.
Defined.

(** ** Budget alerts *)

Lemma percentage_zero_limit spend limit :
  limit == 0 -> BudgetAlert.percentage spend limit = Ok 0.
Proof.
  intros H. unfold BudgetAlert.percentage.
  now rewrite (Qlt_bool_zero_false _ H).
Qed.

Lemma check_budget_zero_limit budget :
  BudgetAlert.BudgetLimit budget == 0 ->
  BudgetAlert.check_budget budget = Ok None.
Proof.
  intros H. unfold BudgetAlert.check_budget.
  rewrite !(percentage_zero_limit _ _ H). reflexivity.
Qed.

Lemma lambda_handler_loop_skip budget :
  BudgetAlert.check_budget budget = Ok None ->
  forall before after alerts sent,
    BudgetAlert.lambda_handler_loop (before ++ budget :: after) alerts sent =
    BudgetAlert.lambda_handler_loop (before ++ after) alerts sent.
Proof.
  intros Hnone before. induction before as [|b before IH]; intros; simpl.
  - now rewrite Hnone.
  - destruct (BudgetAlert.check_budget b) as [[a|]|e]; auto.
Qed.

(** C10. For a budget whose limit is 0 the actual and the forecast
    percentage are both the value 0, whatever the spend; no alert is built
    for it, and the handler answers and notifies exactly as if the budget
    were not in the list. *)
Theorem zero_limit_budget_never_alerts :
  forall (budget : BudgetAlert.Budget) (before after : list BudgetAlert.Budget),
    BudgetAlert.BudgetLimit budget == 0 ->
    BudgetAlert.percentage
      (BudgetAlert.amount_or_zero (BudgetAlert.ActualSpend budget))
      (BudgetAlert.BudgetLimit budget) = Ok 0 /\
    BudgetAlert.percentage
      (BudgetAlert.amount_or_zero (BudgetAlert.ForecastedSpend budget))
      (BudgetAlert.BudgetLimit budget) = Ok 0 /\
    BudgetAlert.check_budget budget = Ok None /\
    BudgetAlert.lambda_handler (before ++ budget :: after) =
    BudgetAlert.lambda_handler (before ++ after).
Proof.
  intros budget before after H.
  repeat split; try (now apply percentage_zero_limit).
  - now apply check_budget_zero_limit.
  - apply lambda_handler_loop_skip. now apply check_budget_zero_limit.
Qed.

Lemma zero_limit_budget_never_alerts_witness :
  BudgetAlert.BudgetLimit Scenario.overspent == 0 /\
  BudgetAlert.check_budget Scenario.overspent = Ok None /\
  BudgetAlert.lambda_handler
    ([Scenario.capped] ++ Scenario.overspent :: [Scenario.capped]) =
  BudgetAlert.lambda_handler ([Scenario.capped] ++ [Scenario.capped]).
Proof.
  split; [vm_compute; reflexivity|].
  destruct (zero_limit_budget_never_alerts Scenario.overspent
              [Scenario.capped] [Scenario.capped])
    as (_ & _ & Hcheck & Hrun).
  - vm_compute. reflexivity.
  - split; assumption.
Defined.

(** ** Right-sizing *)

(** C5 (the code departs from the claim). An instance whose look-back
    window holds no datapoint, or whose metric query raised, gets the
    statistics (0, 0, 0) and is recommended for DOWNSIZE with priority
    HIGH: [get_metric_stats] turns "no data" into "0% CPU". *)
Theorem no_datapoints_recommends_downsize :
  forall (id type : string) (e : Exn),
    RightSizing.generate_ec2_recommendation id type
      (RightSizing.get_instance_metrics (fun _ _ => Ok []) id) =
    Some {| RightSizing.instance_id := id;
            RightSizing.current_type := type;
            RightSizing.action := RightSizing.DOWNSIZE;
            RightSizing.priority := RightSizing.HIGH |} /\
    RightSizing.generate_ec2_recommendation id type
      (RightSizing.get_instance_metrics (fun _ _ => Raise e) id) =
    Some {| RightSizing.instance_id := id;
            RightSizing.current_type := type;
            RightSizing.action := RightSizing.DOWNSIZE;
            RightSizing.priority := RightSizing.HIGH |} /\
    RightSizing.analyze_ec2_instances (fun _ _ => Ok []) [(id, type)] =
    [{| RightSizing.instance_id := id;
        RightSizing.current_type := type;
        RightSizing.action := RightSizing.DOWNSIZE;
        RightSizing.priority := RightSizing.HIGH |}].
Proof.
  intros id type e. repeat split; reflexivity.
Qed.

(** ** Cost anomalies (delta mode) *)

Lemma has_baseline_some p :
  CostAnomaly.has_baseline (Some p) =
  if Binary64.truthy p then Some p else None.
Proof. reflexivity. Qed.

(** The loop never raises: it appends, pair by pair, what [flag_pair]
    gives. *)
Lemma detect_loop_pairs thr :
  forall results previous anomalies,
    CostAnomaly.detect_loop thr
      (Some (CostAnomaly.amount previous)) anomalies results =
    Ok (anomalies ++
        flat_map (fun pc => CostAnomaly.flag_pair thr (fst pc) (snd pc))
          (combine (previous :: results) results)).
Proof.
  induction results as [|r rest IH]; intros previous anomalies.
  - simpl. now rewrite app_nil_r.
  - cbn [CostAnomaly.detect_loop combine flat_map fst snd].
    rewrite has_baseline_some.
    unfold CostAnomaly.flag_pair, CostAnomaly.anomaly_for.
    destruct (Binary64.truthy (CostAnomaly.amount previous)) eqn:Ht.
    + rewrite (float_truthy_div _ _ Ht). fold (CostAnomaly.pct
        (CostAnomaly.amount previous) (CostAnomaly.amount r)).
      rewrite IH.
      destruct (PrimFloat.ltb thr _); simpl; now rewrite <- ?app_assoc.
    + rewrite IH. reflexivity.
Qed.

Lemma detect_cost_anomalies_pairs results thr :
  CostAnomaly.detect_cost_anomalies results thr =
  Ok (flat_map (fun pc => CostAnomaly.flag_pair thr (fst pc) (snd pc))
        (combine results (tl results))).
Proof.
  unfold CostAnomaly.detect_cost_anomalies.
  destruct results as [|r rest]; [reflexivity|].
  cbn [CostAnomaly.detect_loop CostAnomaly.has_baseline tl].
  now rewrite detect_loop_pairs.
Qed.

(** The pairs that are flagged, kept in order: a filter followed by a
    map. *)
Lemma flag_pairs_filter thr (pairs : list (CostAnomaly.CostResult *
                                           CostAnomaly.CostResult)) :
  flat_map (fun pc => CostAnomaly.flag_pair thr (fst pc) (snd pc)) pairs =
  map (fun pc => CostAnomaly.anomaly_for (fst pc) (snd pc))
    (filter
       (fun pc =>
          negb (CostAnomaly.amount (fst pc) =? 0)%float &&
          (thr <? abs (CostAnomaly.pct (CostAnomaly.amount (fst pc))
                         (CostAnomaly.amount (snd pc))))%float)
       pairs).
Proof.
  induction pairs as [|[p c] pairs IH]; [reflexivity|].
  cbn [flat_map filter fst snd]. rewrite IH.
  unfold CostAnomaly.flag_pair, Binary64.truthy.
  destruct (negb _); [|reflexivity].
  cbn [andb]. destruct (PrimFloat.ltb thr _); reflexivity.
Qed.

Lemma in_consecutive {A} (l : list A) (p c : A) :
  In (p, c) (combine l (tl l)) <->
  exists i, nth_error l i = Some p /\ nth_error l (S i) = Some c.
Proof.
  induction l as [|x l IH]; simpl.
  - split; [tauto|]. intros (i & H & _). now destruct i.
  - destruct l as [|y l].
    + simpl. split; [tauto|]. intros (i & _ & H).
      destruct i; simpl in H; [discriminate|now destruct i].
    + cbn [combine In]. split.
      * intros [H|H].
        -- injection H as <- <-. now exists 0%nat.
        -- apply IH in H. destruct H as (i & H1 & H2). now exists (S i).
      * intros ([|i] & H1 & H2).
        -- simpl in H1, H2. left. congruence.
        -- right. apply IH. now exists i.
Qed.

(** C4 (amended). [detect_cost_anomalies] always returns, and what it
    returns is, in the order of the series, one anomaly for each pair of
    consecutive results whose first cost is not zero and whose absolute
    percentage change, computed in binary64 as line 84 does, is strictly
    above the threshold: the first observation and a pair with a zero
    baseline are never flagged, a pair is never flagged twice.  The
    anomaly carries the date and cost of the second result and the
    computed change; its severity is HIGH iff the absolute change is
    strictly above the constant 50, else MEDIUM.  [100, 100, 160] with
    threshold 20 yields one anomaly, at the third point, HIGH, change 60;
    [100, 105] yields none.  The rounding of the change counts: [100, 107]
    is flagged at threshold 7, the computed change being above 7, and
    [0.7, 1.05] is HIGH, the computed change being above 50. *)
Theorem detect_cost_anomalies_strict_thresholds :
  (forall (results : list CostAnomaly.CostResult) (thr : float),
     CostAnomaly.detect_cost_anomalies results thr =
     Ok (map (fun pc => CostAnomaly.anomaly_for (fst pc) (snd pc))
           (filter
              (fun pc =>
                 negb (CostAnomaly.amount (fst pc) =? 0)%float &&
                 (thr <? abs (CostAnomaly.pct (CostAnomaly.amount (fst pc))
                                (CostAnomaly.amount (snd pc))))%float)
              (combine results (tl results))))) /\
  (forall (results : list CostAnomaly.CostResult) (thr : float),
     exists anomalies,
       CostAnomaly.detect_cost_anomalies results thr = Ok anomalies /\
       forall a, In a anomalies <->
         exists i previous current,
           nth_error results i = Some previous /\
           nth_error results (S i) = Some current /\
           (CostAnomaly.amount previous =? 0)%float = false /\
           (thr <? abs (CostAnomaly.pct (CostAnomaly.amount previous)
                          (CostAnomaly.amount current)))%float = true /\
           a = CostAnomaly.anomaly_for previous current) /\
  (forall previous current,
     CostAnomaly.date (CostAnomaly.anomaly_for previous current) =
       CostAnomaly.period_start current /\
     CostAnomaly.current_cost (CostAnomaly.anomaly_for previous current) =
       CostAnomaly.amount current /\
     CostAnomaly.previous_cost (CostAnomaly.anomaly_for previous current) =
       CostAnomaly.amount previous /\
     CostAnomaly.change_percentage (CostAnomaly.anomaly_for previous current) =
       ((CostAnomaly.amount current - CostAnomaly.amount previous)
        / CostAnomaly.amount previous * 100)%float /\
     (CostAnomaly.severity (CostAnomaly.anomaly_for previous current) =
        CostAnomaly.HIGH <->
      (50 <? abs (CostAnomaly.pct (CostAnomaly.amount previous)
                    (CostAnomaly.amount current)))%float = true) /\
     (CostAnomaly.severity (CostAnomaly.anomaly_for previous current) =
        CostAnomaly.MEDIUM <->
      (50 <? abs (CostAnomaly.pct (CostAnomaly.amount previous)
                    (CostAnomaly.amount current)))%float = false)) /\
  (forall r thr, CostAnomaly.detect_cost_anomalies [r] thr = Ok []) /\
  (exists a,
     CostAnomaly.detect_cost_anomalies Scenario.three_days 20 = Ok [a] /\
     CostAnomaly.date a = "2024-01-03" /\
     CostAnomaly.severity a = CostAnomaly.HIGH /\
     CostAnomaly.change_percentage a = 60%float) /\
  CostAnomaly.detect_cost_anomalies Scenario.two_days 20 = Ok [] /\
  (exists a,
     CostAnomaly.detect_cost_anomalies (Scenario.daily [100; 107]%float) 7
       = Ok [a] /\
     CostAnomaly.change_percentage a = 7.000000000000001%float /\
     (7 <? CostAnomaly.change_percentage a)%float = true /\
     CostAnomaly.severity a = CostAnomaly.MEDIUM) /\
  (exists a,
     CostAnomaly.detect_cost_anomalies (Scenario.daily [0.7; 1.05]%float) 20
       = Ok [a] /\
     CostAnomaly.change_percentage a = 50.000000000000014%float /\
     (50 <? CostAnomaly.change_percentage a)%float = true /\
     CostAnomaly.severity a = CostAnomaly.HIGH).
Proof.
  split; [|split; [|split; [|split; [|split; [|split; [|split]]]]]].
  - intros results thr.
    rewrite detect_cost_anomalies_pairs. now rewrite flag_pairs_filter.
  - intros results thr. eexists. split.
    + apply detect_cost_anomalies_pairs.
    + intros a. rewrite in_flat_map. split.
      * intros ([p c] & Hin & Ha). apply in_consecutive in Hin.
        destruct Hin as (i & Hp & Hc). simpl in Ha.
        unfold CostAnomaly.flag_pair, Binary64.truthy in Ha.
        destruct (CostAnomaly.amount p =? 0)%float eqn:Ht; [contradiction|].
        cbn [negb] in Ha.
        destruct (PrimFloat.ltb thr _) eqn:Hthr; [|contradiction].
        destruct Ha as [<-|[]].
        exists i, p, c. repeat split; auto.
      * intros (i & p & c & Hp & Hc & Hnz & Hthr & ->).
        exists (p, c). split.
        -- apply in_consecutive. now exists i.
        -- simpl. unfold CostAnomaly.flag_pair, Binary64.truthy.
           rewrite Hnz. cbn [negb]. rewrite Hthr. now left.
  - intros previous current. unfold CostAnomaly.anomaly_for.
    cbn [CostAnomaly.date CostAnomaly.current_cost CostAnomaly.previous_cost
         CostAnomaly.change_percentage CostAnomaly.severity].
    repeat split; try reflexivity;
      destruct (PrimFloat.ltb 50 _); congruence.
  - reflexivity.
  - eexists. split; [vm_compute; reflexivity|].
    repeat split.
  - vm_compute. reflexivity.
  - eexists. split; [vm_compute; reflexivity|].
    repeat split; vm_compute; reflexivity.
  - eexists. split; [vm_compute; reflexivity|].
    repeat split; vm_compute; reflexivity.
Qed.

Lemma detect_cost_anomalies_strict_thresholds_witness :
  exists a,
    CostAnomaly.detect_cost_anomalies Scenario.three_days 20 = Ok [a] /\
    CostAnomaly.date a = "2024-01-03" /\
    CostAnomaly.severity a = CostAnomaly.HIGH /\
    CostAnomaly.change_percentage a = 60%float.
Proof.
  exact (proj1 (proj2 (proj2 (proj2 (proj2
           detect_cost_anomalies_strict_thresholds))))).
Defined.

(** C4, as stated, fails on the code: "flagged iff |pct| >= medium" is
    false at a change of exactly the threshold ([4, 5] with threshold 25:
    the code flags nothing), and "High when |pct| >= high" is false at a
    change of exactly 50 ([100, 150]: the code says MEDIUM).  Both changes
    are exact in binary64. *)
Lemma delta_mode_inclusive_thresholds_counterexample :
  ~ (forall (thr : float) (previous current : CostAnomaly.CostResult),
       (CostAnomaly.amount previous =? 0)%float = false ->
       (CostAnomaly.detect_cost_anomalies [previous; current] thr <> Ok [] <->
        (thr <=? abs (CostAnomaly.pct (CostAnomaly.amount previous)
                        (CostAnomaly.amount current)))%float = true)) /\
  CostAnomaly.pct 4 5 = 25%float /\
  CostAnomaly.spec_severity 25 50 4 5 = Some CostAnomaly.MEDIUM /\
  CostAnomaly.detect_cost_anomalies (Scenario.daily [4; 5]%float) 25 = Ok [] /\
  CostAnomaly.pct 100 150 = 50%float /\
  CostAnomaly.spec_severity 20 50 100 150 = Some CostAnomaly.HIGH /\
  (exists a,
     CostAnomaly.detect_cost_anomalies (Scenario.daily [100; 150]%float) 20 =
       Ok [a] /\
     CostAnomaly.severity a = CostAnomaly.MEDIUM).
Proof.
  split.
  - intros H.
    specialize (H 25%float
      {| CostAnomaly.period_start := "day"; CostAnomaly.amount := 4%float |}
      {| CostAnomaly.period_start := "day"; CostAnomaly.amount := 5%float |}).
    destruct H as [_ H].
    + vm_compute. reflexivity.
    + apply H; vm_compute; reflexivity.
  - repeat split; try (vm_compute; reflexivity).
    eexists. split; vm_compute; reflexivity.
Qed.

(** ** Flow-log queries: the poll loop *)

Lemma poll_loop_sound logs q :
  forall fuel polls rows n,
    FlowLogs.poll_loop logs q fuel polls = Some (rows, n) ->
    (polls <= n < polls + fuel)%nat /\
    FlowLogs.status (FlowLogs.get_query_results logs q n) = "Complete" /\
    (forall k, (polls <= k < n)%nat ->
       FlowLogs.status (FlowLogs.get_query_results logs q k) <> "Complete") /\
    rows = FlowLogs.results (FlowLogs.get_query_results logs q n).
Proof.
  induction fuel as [|fuel IH]; intros polls rows n H; simpl in H.
  - discriminate.
  - destruct (String.eqb _ "Complete") eqn:E.
    + injection H as <- <-. apply String.eqb_eq in E.
      repeat split; auto; lia.
    + apply IH in H. destruct H as (Hn & Hc & Hbefore & Hrows).
      apply String.eqb_neq in E.
      repeat split; auto; try lia.
      intros k Hk. destruct (Nat.eq_dec k polls) as [->|Hne]; [exact E|].
      apply Hbefore. lia.
Qed.

Lemma poll_loop_complete logs q :
  forall fuel polls n,
    (polls <= n < polls + fuel)%nat ->
    FlowLogs.status (FlowLogs.get_query_results logs q n) = "Complete" ->
    (forall k, (polls <= k < n)%nat ->
       FlowLogs.status (FlowLogs.get_query_results logs q k) <> "Complete") ->
    FlowLogs.poll_loop logs q fuel polls =
    Some (FlowLogs.results (FlowLogs.get_query_results logs q n), n).
Proof.
  induction fuel as [|fuel IH]; intros polls n Hn Hc Hbefore; [lia|].
  simpl. destruct (Nat.eq_dec n polls) as [->|Hne].
  - apply String.eqb_eq in Hc. now rewrite Hc.
  - assert (E : FlowLogs.status (FlowLogs.get_query_results logs q polls)
                <> "Complete") by (apply Hbefore; lia).
    apply String.eqb_neq in E. rewrite E.
    apply IH; auto; try lia. intros k Hk. apply Hbefore. lia.
Qed.

(** Among finitely many polls there is a first "Complete" one if there is
    any. *)
Lemma first_complete_exists logs q n :
  FlowLogs.status (FlowLogs.get_query_results logs q n) = "Complete" ->
  exists m, (m <= n)%nat /\ FlowLogs.first_complete logs q m.
Proof.
  intros Hc.
  destruct (FlowLogs.poll_loop logs q (S n) 0) as [[rows m]|] eqn:E.
  - apply poll_loop_sound in E. destruct E as (Hm & Hcm & Hbefore & _).
    exists m. split; [lia|]. split; [exact Hcm|].
    intros k Hk. apply Hbefore. lia.
  - exfalso.
    assert (G : forall fuel polls, (polls <= n < polls + fuel)%nat ->
                FlowLogs.poll_loop logs q fuel polls <> None).
    { induction fuel as [|fuel IHf]; intros polls Hp; [lia|]. simpl.
      destruct (String.eqb _ "Complete") eqn:E'; [discriminate|].
      apply IHf. apply String.eqb_neq in E'.
      destruct (Nat.eq_dec n polls) as [->|Hne]; [contradiction|lia]. }
    apply (G (S n) 0%nat); [lia|exact E].
Qed.

(** C6 (amended). The poll loop has no timeout.  With [fuel] iterations
    allowed it has returned iff the first "Complete" answer came at a poll
    [n < fuel]; it then returns the results of that poll after sleeping [n]
    seconds.  So a query returns, for some number of iterations, iff some
    poll answers "Complete"; when none does, the loop never returns. *)
Theorem poll_loop_returns_iff_complete :
  forall (logs : FlowLogs.LogsClient) (query_id : string),
    (forall fuel rows n,
       FlowLogs.poll_loop logs query_id fuel 0 = Some (rows, n) <->
       (n < fuel)%nat /\
       FlowLogs.first_complete logs query_id n /\
       rows = FlowLogs.results (FlowLogs.get_query_results logs query_id n)) /\
    ((exists fuel r, FlowLogs.poll_loop logs query_id fuel 0 = Some r) <->
     (exists n,
        FlowLogs.status (FlowLogs.get_query_results logs query_id n)
        = "Complete")).
Proof.
  intros logs q.
  assert (Hchar : forall fuel rows n,
    FlowLogs.poll_loop logs q fuel 0 = Some (rows, n) <->
    (n < fuel)%nat /\ FlowLogs.first_complete logs q n /\
    rows = FlowLogs.results (FlowLogs.get_query_results logs q n)).
  { intros fuel rows n. split.
    - intros H. apply poll_loop_sound in H.
      destruct H as (Hn & Hc & Hbefore & Hrows).
      repeat split; auto; try lia. intros k Hk. apply Hbefore. lia.
    - intros (Hn & (Hc & Hbefore) & ->).
      apply poll_loop_complete; auto; try lia.
      intros k Hk. apply Hbefore. lia. }
  split; [exact Hchar|]. split.
  - intros (fuel & [rows n] & H). apply Hchar in H.
    destruct H as (_ & (Hc & _) & _). now exists n.
  - intros (n & Hc). apply first_complete_exists in Hc.
    destruct Hc as (m & _ & Hm).
    exists (S m), (FlowLogs.results (FlowLogs.get_query_results logs q m), m).
    apply Hchar. repeat split; auto; apply Hm.
Qed.

Lemma poll_loop_returns_iff_complete_witness :
  FlowLogs.first_complete Scenario.third_poll FlowLogs.port_scan_query 2 /\
  FlowLogs.detect_port_scanning Scenario.third_poll 3 =
    Some ([[("srcAddr", "10.0.0.9")]], 2%nat).
Proof.
  assert (Hfirst : FlowLogs.first_complete Scenario.third_poll
                     FlowLogs.port_scan_query 2).
  { split; [reflexivity|].
    intros k Hk. destruct k as [|[|k]]; [discriminate|discriminate|lia]. }
  split; [exact Hfirst|].
  apply (proj1 (poll_loop_returns_iff_complete Scenario.third_poll
                  FlowLogs.port_scan_query)).
  split; [lia|]. split; [exact Hfirst|reflexivity].
Defined.

(** C6, as stated, fails on the code: when the port-scan query never
    reaches "Complete", [detect_port_scanning] returns for no number of
    iterations, and neither does [generate_report], which neither returns
    a report nor raises, although every other query of the run is complete
    at its first poll. *)
Lemma poll_loop_without_timeout_counterexample :
  (forall k,
     FlowLogs.status
       (FlowLogs.get_query_results Scenario.stuck_port_scan
          FlowLogs.port_scan_query k) = "Running") /\
  ~ (exists fuel r,
       FlowLogs.detect_port_scanning Scenario.stuck_port_scan fuel = Some r) /\
  ~ (exists py_int fuel outcome,
       FlowReport.generate_report py_int Scenario.stuck_port_scan fuel
       = Some outcome) /\
  FlowLogs.detect_data_exfiltration Scenario.stuck_port_scan 1 = Some ([], 0%nat).
Proof.
  assert (Hstuck : forall fuel,
    FlowLogs.detect_port_scanning Scenario.stuck_port_scan fuel = None).
  { intros fuel. unfold FlowLogs.detect_port_scanning.
    destruct (FlowLogs.poll_loop _ _ fuel 0) as [[rows n]|] eqn:E; [|reflexivity].
    apply poll_loop_sound in E. destruct E as (_ & Hc & _).
    vm_compute in Hc. discriminate. }
  repeat split.
  - intros (fuel & r & H). rewrite Hstuck in H. discriminate.
  - intros (py_int & fuel & outcome & H).
    unfold FlowReport.generate_report in H.
    rewrite Hstuck in H. discriminate.
Qed.

(** ** Resource clean-up: the empty snapshot inventory *)

(** C9. When [describe_snapshots] answers with an empty list,
    [cleanup_old_snapshots] raises [IndexError] at [snapshots[0]], and so
    does [run_cleanup], in dry-run and in live mode alike: the only call
    made is that [describe_snapshots], no volume or address is listed or
    touched, the report is unchanged and no report file is written. *)
Theorem run_cleanup_empty_snapshots_raises :
  forall (World : Type) (ec2 : EC2.Client World) (dry_run : bool) (now : Z)
         (self : ResourceCleanup.Self World) (w : World),
    EC2.describe_snapshots ec2 (EC2.world (ResourceCleanup.cloud self))
      = (Ok [], w) ->
    let after :=
      {| ResourceCleanup.cloud :=
           {| EC2.world := w;
              EC2.calls := EC2.calls (ResourceCleanup.cloud self) ++
                [{| EC2.call := EC2.DescribeSnapshots;
                    EC2.succeeded := true |}] |};
         ResourceCleanup.cleanup_report := ResourceCleanup.cleanup_report self;
         ResourceCleanup.report_file := ResourceCleanup.report_file self |} in
    ResourceCleanup.cleanup_old_snapshots ec2 dry_run now 90 self
      = (Raise IndexError, after) /\
    ResourceCleanup.run_cleanup ec2 dry_run now self
      = (Raise IndexError, after).
Proof.
  intros World ec2 dry_run now self w H after.
  assert (Hc : ResourceCleanup.cleanup_old_snapshots ec2 dry_run now 90 self
               = (Raise IndexError, after)).
  { unfold ResourceCleanup.cleanup_old_snapshots, EC2.bind,
      ResourceCleanup.on_ec2, EC2.invoke.
    rewrite H. reflexivity. }
  split; [exact Hc|].
  unfold ResourceCleanup.run_cleanup, EC2.bind at 1. now rewrite Hc.
Qed.

Lemma run_cleanup_empty_snapshots_raises_witness :
  EC2.describe_snapshots EC2.scripted
    (EC2.world (ResourceCleanup.cloud
                  (ResourceCleanup.fresh Scenario.no_snapshots)))
    = (Ok [], Scenario.no_snapshots) /\
  ResourceCleanup.run_cleanup EC2.scripted false Scenario.day200
    (ResourceCleanup.fresh Scenario.no_snapshots)
  = (Raise IndexError,
     {| ResourceCleanup.cloud :=
          {| EC2.world := Scenario.no_snapshots;
             EC2.calls := [{| EC2.call := EC2.DescribeSnapshots;
                              EC2.succeeded := true |}] |};
        ResourceCleanup.cleanup_report := ResourceCleanup.empty_report;
        ResourceCleanup.report_file := None |}).
Proof.
  split; [reflexivity|].
  apply (run_cleanup_empty_snapshots_raises EC2.Script EC2.scripted false
           Scenario.day200 (ResourceCleanup.fresh Scenario.no_snapshots)
           Scenario.no_snapshots).
  reflexivity.
Defined.

(** ** Cost optimizer: the safety snapshot before a volume is deleted *)

Section CostOptimizerFacts.
Context {World : Type} (ec2 : EC2.Client World).

(** The three ways the live branch of the loop body can go. *)
Lemma delete_volume_step_live volume results st :
  CostOptimizer.delete_volume_step ec2 false volume results st =
  let v := CostOptimizer.vi_VolumeId volume in
  let failed_with e :=
    {| CostOptimizer.deleted := CostOptimizer.deleted results;
       CostOptimizer.failed := CostOptimizer.failed results ++
         [{| CostOptimizer.resource := v;
             CostOptimizer.Error := str_exn e |}];
       CostOptimizer.total_savings := CostOptimizer.total_savings results |} in
  match EC2.create_snapshot ec2 v (EC2.world st) with
  | (Raise e, w) =>
    (Ok (failed_with e),
     {| EC2.world := w;
        EC2.calls := EC2.calls st ++ [EC2.ev (EC2.CreateSnapshot v) false] |})
  | (Ok _, w) =>
    match EC2.delete_volume ec2 v w with
    | (Raise e, w') =>
      (Ok (failed_with e),
       {| EC2.world := w';
          EC2.calls := EC2.calls st ++
            [EC2.ev (EC2.CreateSnapshot v) true; EC2.ev (EC2.DeleteVolume v) false] |})
    | (Ok _, w') =>
      (Ok {| CostOptimizer.deleted := CostOptimizer.deleted results ++ [v];
             CostOptimizer.failed := CostOptimizer.failed results;
             CostOptimizer.total_savings :=
               CostOptimizer.total_savings results +
               CostOptimizer.vi_MonthlyCost volume |},
       {| EC2.world := w';
          EC2.calls := EC2.calls st ++
            [EC2.ev (EC2.CreateSnapshot v) true; EC2.ev (EC2.DeleteVolume v) true] |})
    end
  end.
Proof.
  unfold CostOptimizer.delete_volume_step, EC2.try_except, EC2.bind,
    EC2.invoke, EC2.ret, EC2.ev.
  cbn [EC2.world EC2.calls].
  destruct (EC2.create_snapshot ec2 _ (EC2.world st)) as [[s|e] w];
    cbn [EC2.is_ok EC2.world EC2.calls]; [|reflexivity].
  destruct (EC2.delete_volume ec2 _ w) as [[u|e] w'];
    cbn [EC2.is_ok]; rewrite <- app_assoc; reflexivity.
Qed.

Lemma guarded_after_snapshot previous v ok rest :
  EC2.snapshot_guarded_after previous (EC2.ev (EC2.CreateSnapshot v) ok :: rest) =
  EC2.snapshot_guarded_after (Some (EC2.ev (EC2.CreateSnapshot v) ok)) rest.
Proof. reflexivity. Qed.

Lemma guarded_after_pair previous v ok rest :
  EC2.snapshot_guarded_after previous
    (EC2.ev (EC2.CreateSnapshot v) true :: EC2.ev (EC2.DeleteVolume v) ok :: rest) =
  EC2.snapshot_guarded_after (Some (EC2.ev (EC2.DeleteVolume v) ok)) rest.
Proof.
  cbn [EC2.snapshot_guarded_after EC2.call EC2.succeeded EC2.ev EC2.call_eqb andb].
  now rewrite String.eqb_refl.
Qed.

(** The live loop from any accumulator and any state: it returns, and the
    calls it adds keep the snapshot discipline whatever came before. *)
Lemma live_loop_guarded :
  forall volumes results st,
    exists results' w new,
      EC2.for_each volumes (CostOptimizer.delete_volume_step ec2 false)
        results st
      = (Ok results', {| EC2.world := w; EC2.calls := EC2.calls st ++ new |}) /\
      (forall previous, EC2.snapshot_guarded_after previous new = true) /\
      exists ds,
        CostOptimizer.deleted results' = CostOptimizer.deleted results ++ ds /\
        forall v, In v ds ->
          exists l1 l2,
            new = l1 ++ EC2.ev (EC2.CreateSnapshot v) true ::
                        EC2.ev (EC2.DeleteVolume v) true :: l2.
Proof.
  induction volumes as [|volume rest IH]; intros results st.
  - exists results, (EC2.world st), []. repeat split.
    + simpl. unfold EC2.ret. rewrite app_nil_r. now destruct st.
    + exists []. split; [now rewrite app_nil_r|]. intros v [].
  - cbn [EC2.for_each]. unfold EC2.bind.
    rewrite delete_volume_step_live. cbv zeta.
    destruct (EC2.create_snapshot ec2 _ (EC2.world st)) as [[s|e] w].
    + destruct (EC2.delete_volume ec2 _ w) as [[u|e] w'].
      * match goal with |- context [EC2.for_each rest _ ?r ?s] =>
          destruct (IH r s) as (results' & w2 & new & Hrun & Hg & ds & Hds & Hin)
        end.
        rewrite Hrun. cbn [EC2.calls].
        eexists results', w2, (_ :: _ :: new). repeat split.
        -- now rewrite <- app_assoc.
        -- intros previous. rewrite guarded_after_pair. apply Hg.
        -- exists (CostOptimizer.vi_VolumeId volume :: ds). split.
           ++ rewrite Hds. cbn [CostOptimizer.deleted].
              now rewrite <- app_assoc.
           ++ intros v [<-|Hv].
              ** now exists [], new.
              ** destruct (Hin v Hv) as (l1 & l2 & ->).
                 now exists (EC2.ev (EC2.CreateSnapshot
                                   (CostOptimizer.vi_VolumeId volume)) true ::
                             EC2.ev (EC2.DeleteVolume
                                   (CostOptimizer.vi_VolumeId volume)) true ::
                             l1), l2.
      * match goal with |- context [EC2.for_each rest _ ?r ?s] =>
          destruct (IH r s) as (results' & w2 & new & Hrun & Hg & ds & Hds & Hin)
        end.
        rewrite Hrun. cbn [EC2.calls].
        eexists results', w2, (_ :: _ :: new). repeat split.
        -- now rewrite <- app_assoc.
        -- intros previous. rewrite guarded_after_pair. apply Hg.
        -- exists ds. split; [exact Hds|].
           intros v Hv. destruct (Hin v Hv) as (l1 & l2 & ->).
           now exists (EC2.ev (EC2.CreateSnapshot
                             (CostOptimizer.vi_VolumeId volume)) true ::
                       EC2.ev (EC2.DeleteVolume
                             (CostOptimizer.vi_VolumeId volume)) false ::
                       l1), l2.
    + match goal with |- context [EC2.for_each rest _ ?r ?s] =>
        destruct (IH r s) as (results' & w2 & new & Hrun & Hg & ds & Hds & Hin)
      end.
      rewrite Hrun. cbn [EC2.calls].
      eexists results', w2, (_ :: new). repeat split.
      * now rewrite <- app_assoc.
      * intros previous. rewrite guarded_after_snapshot. apply Hg.
      * exists ds. split; [exact Hds|].
        intros v Hv. destruct (Hin v Hv) as (l1 & l2 & ->).
        now exists (EC2.ev (EC2.CreateSnapshot
                          (CostOptimizer.vi_VolumeId volume)) false :: l1), l2.
Qed.

End CostOptimizerFacts.

(** X31. In live mode [delete_unattached_volumes] of the cost optimizer
    always returns, and in the calls it makes every [delete_volume] comes
    directly after a successful [create_snapshot] of the same volume: a
    volume is reported deleted only with such a pair in the log, and after
    a failed [create_snapshot] the volume is recorded as failed with no
    [delete_volume] call. *)
Theorem delete_unattached_volumes_snapshot_first :
  forall (World : Type) (ec2 : EC2.Client World)
         (volumes : list CostOptimizer.VolumeInfo) (st : EC2.Cloud World),
    (exists results w new,
       CostOptimizer.delete_unattached_volumes ec2 false volumes st
       = (Ok results,
          {| EC2.world := w; EC2.calls := EC2.calls st ++ new |}) /\
       EC2.snapshot_guarded new = true /\
       forall v, In v (CostOptimizer.deleted results) ->
         exists l1 l2,
           new = l1 ++ EC2.ev (EC2.CreateSnapshot v) true ::
                       EC2.ev (EC2.DeleteVolume v) true :: l2) /\
    (forall volume results,
       match EC2.create_snapshot ec2 (CostOptimizer.vi_VolumeId volume)
               (EC2.world st) with
       | (Raise e, w) =>
         CostOptimizer.delete_volume_step ec2 false volume results st =
         (Ok {| CostOptimizer.deleted := CostOptimizer.deleted results;
                CostOptimizer.failed := CostOptimizer.failed results ++
                  [{| CostOptimizer.resource :=
                        CostOptimizer.vi_VolumeId volume;
                      CostOptimizer.Error := str_exn e |}];
                CostOptimizer.total_savings :=
                  CostOptimizer.total_savings results |},
          {| EC2.world := w;
             EC2.calls := EC2.calls st ++
               [EC2.ev (EC2.CreateSnapshot (CostOptimizer.vi_VolumeId volume))
                  false] |})
       | (Ok _, _) => True
       end).
Proof.
  intros World ec2 volumes st. split.
  - unfold CostOptimizer.delete_unattached_volumes.
    destruct (live_loop_guarded ec2 volumes
                {| CostOptimizer.deleted := []; CostOptimizer.failed := [];
                   CostOptimizer.total_savings := 0 |} st)
      as (results & w & new & Hrun & Hg & ds & Hds & Hin).
    exists results, w, new. split; [exact Hrun|]. split; [apply Hg|].
    intros v Hv. apply Hin. now rewrite Hds in Hv.
  - intros volume results. rewrite delete_volume_step_live. cbv zeta.
    destruct (EC2.create_snapshot ec2 _ (EC2.world st)) as [[s|e] w];
      [exact I|reflexivity].
Qed.

Lemma delete_unattached_volumes_snapshot_first_witness :
  exists results w new,
    CostOptimizer.delete_unattached_volumes EC2.scripted false
      [Scenario.vol1_info] (EC2.start (Scenario.account [Some "Throttled"]))
    = (Ok results, {| EC2.world := w; EC2.calls := [] ++ new |}) /\
    EC2.snapshot_guarded new = true.
Proof.
  destruct (delete_unattached_volumes_snapshot_first EC2.Script EC2.scripted
              [Scenario.vol1_info]
              (EC2.start (Scenario.account [Some "Throttled"])))
    as [(results & w & new & Hrun & Hg & _) _].
  exists results, w, new. split; [exact Hrun|exact Hg].
Defined.

(** C1 (the code departs from the claim). In live mode
    [ResourceCleanup.cleanup_unattached_volumes] calls [delete_volume] on
    [vol-1] and reports it deleted without any [create_snapshot] call: the
    clean-up script has no safety snapshot.  On the same account
    [delete_unattached_volumes] of the cost optimizer snapshots [vol-1]
    first. *)
Theorem cleanup_deletes_volume_without_snapshot :
  (exists self,
     ResourceCleanup.cleanup_unattached_volumes EC2.scripted false
       (ResourceCleanup.fresh (Scenario.account [])) = (Ok 1%nat, self) /\
     EC2.calls (ResourceCleanup.cloud self) =
       [EC2.ev EC2.DescribeVolumes true;
        EC2.ev (EC2.DeleteVolume "vol-1") true] /\
     EC2.snapshot_guarded (EC2.calls (ResourceCleanup.cloud self)) = false /\
     map ResourceCleanup.volume_id
       (ResourceCleanup.volumes_deleted (ResourceCleanup.cleanup_report self))
     = ["vol-1"]) /\
  (exists results st,
     CostOptimizer.delete_unattached_volumes EC2.scripted false
       [Scenario.vol1_info] (EC2.start (Scenario.account []))
     = (Ok results, st) /\
     EC2.calls st =
       [EC2.ev (EC2.CreateSnapshot "vol-1") true;
        EC2.ev (EC2.DeleteVolume "vol-1") true] /\
     EC2.snapshot_guarded (EC2.calls st) = true /\
     CostOptimizer.deleted results = ["vol-1"]).
Proof.
  split.
  - eexists. split; [vm_compute; reflexivity|]. repeat split.
  - eexists. eexists. split; [vm_compute; reflexivity|]. repeat split.
Qed.

(** ** Cost optimizer: a delete call that raises *)

(** C7 (amended). The scripts have no "already gone" outcome.  In the cost
    optimizer a [delete_volume] that raises after the safety snapshot
    succeeded, with "not found" as with any other error, puts the volume in
    the failed list with the error text, leaves the deleted list and the
    savings as they were, and so raises the failure count by one. *)
Theorem delete_error_is_recorded_failed :
  forall (World : Type) (ec2 : EC2.Client World)
         (volume : CostOptimizer.VolumeInfo)
         (results : CostOptimizer.VolumeResults) (st : EC2.Cloud World)
         (snapshot_id : string) (e : Exn) (w1 w2 : World),
    EC2.create_snapshot ec2 (CostOptimizer.vi_VolumeId volume) (EC2.world st)
      = (Ok snapshot_id, w1) ->
    EC2.delete_volume ec2 (CostOptimizer.vi_VolumeId volume) w1
      = (Raise e, w2) ->
    exists results',
      CostOptimizer.delete_volume_step ec2 false volume results st =
      (Ok results',
       {| EC2.world := w2;
          EC2.calls := EC2.calls st ++
            [EC2.ev (EC2.CreateSnapshot (CostOptimizer.vi_VolumeId volume)) true;
             EC2.ev (EC2.DeleteVolume (CostOptimizer.vi_VolumeId volume))
               false] |}) /\
      CostOptimizer.deleted results' = CostOptimizer.deleted results /\
      CostOptimizer.failed results' =
        CostOptimizer.failed results ++
          [{| CostOptimizer.resource := CostOptimizer.vi_VolumeId volume;
              CostOptimizer.Error := str_exn e |}] /\
      List.length (CostOptimizer.failed results') =
        S (List.length (CostOptimizer.failed results)) /\
      CostOptimizer.total_savings results' =
        CostOptimizer.total_savings results.
Proof.
  intros World ec2 volume results st snapshot_id e w1 w2 Hsnap Hdel.
  rewrite delete_volume_step_live. cbv zeta. rewrite Hsnap, Hdel.
  eexists. split; [reflexivity|]. cbn.
  repeat split. rewrite length_app. simpl. lia.
Qed.

Lemma delete_error_is_recorded_failed_witness :
  EC2.create_snapshot EC2.scripted "vol-1"
      (EC2.world (EC2.start Scenario.vanishing))
    = (Ok "snap-of-vol-1", Scenario.account [Some "InvalidVolume.NotFound"]) /\
  EC2.delete_volume EC2.scripted "vol-1"
      (Scenario.account [Some "InvalidVolume.NotFound"])
    = (Raise (ClientError "InvalidVolume.NotFound"), Scenario.account []) /\
  exists results',
    CostOptimizer.delete_volume_step EC2.scripted false Scenario.vol1_info
      {| CostOptimizer.deleted := []; CostOptimizer.failed := [];
         CostOptimizer.total_savings := 0 |}
      (EC2.start Scenario.vanishing) =
    (Ok results',
     {| EC2.world := Scenario.account [];
        EC2.calls := [EC2.ev (EC2.CreateSnapshot "vol-1") true;
                      EC2.ev (EC2.DeleteVolume "vol-1") false] |}) /\
    List.length (CostOptimizer.failed results') = 1%nat.
Proof.
  split; [reflexivity|]. split; [reflexivity|].
  destruct (delete_error_is_recorded_failed EC2.Script EC2.scripted
              Scenario.vol1_info
              {| CostOptimizer.deleted := []; CostOptimizer.failed := [];
                 CostOptimizer.total_savings := 0 |}
              (EC2.start Scenario.vanishing)
              "snap-of-vol-1" (ClientError "InvalidVolume.NotFound")
              (Scenario.account [Some "InvalidVolume.NotFound"])
              (Scenario.account []))
    as (results' & Hrun & _ & _ & Hlen & _).
  - reflexivity.
  - reflexivity.
  - exists results'. split; [exact Hrun|exact Hlen].
Defined.

(** C7, as stated, fails on the code: when [delete_volume] answers "not
    found" for [vol-1], the batch ends with [vol-1] in the failed list and
    a failure count of 1. *)
Lemma not_found_counts_as_failure_counterexample :
  exists results st,
    CostOptimizer.delete_unattached_volumes EC2.scripted false
      [Scenario.vol1_info] (EC2.start Scenario.vanishing)
    = (Ok results, st) /\
    EC2.calls st = [EC2.ev (EC2.CreateSnapshot "vol-1") true;
                    EC2.ev (EC2.DeleteVolume "vol-1") false] /\
    CostOptimizer.failed results =
      [{| CostOptimizer.resource := "vol-1";
          CostOptimizer.Error := "InvalidVolume.NotFound" |}] /\
    List.length (CostOptimizer.failed results) = 1%nat /\
    CostOptimizer.deleted results = [].
Proof.
  eexists. eexists. split; [vm_compute; reflexivity|]. repeat split.
Qed.

(** ** Savings totals *)

(** In dry-run mode [delete_unattached_volumes] makes no call: every
    volume is listed as deleted and the total is the running sum of the
    monthly costs. *)
Lemma dry_run_loop_is_silent {World} (ec2 : EC2.Client World) :
  forall volumes results st,
    EC2.for_each volumes (CostOptimizer.delete_volume_step ec2 true) results st
    = (Ok {| CostOptimizer.deleted :=
               CostOptimizer.deleted results ++
               map CostOptimizer.vi_VolumeId volumes;
             CostOptimizer.failed := CostOptimizer.failed results;
             CostOptimizer.total_savings :=
               fold_left Qplus (map CostOptimizer.vi_MonthlyCost volumes)
                 (CostOptimizer.total_savings results) |}, st).
Proof.
  induction volumes as [|volume rest IH]; intros results st.
  - simpl. rewrite app_nil_r. now destruct results.
  - cbn [EC2.for_each]. unfold EC2.bind.
    cbn [CostOptimizer.delete_volume_step EC2.ret].
    rewrite IH. cbn. now rewrite <- app_assoc.
Qed.

(** When every snapshot and delete call succeeds, the live loop reports
    what the dry-run loop reports for the same volumes. *)
Lemma live_matches_dry_run_when_calls_succeed {World} (ec2 : EC2.Client World) :
  (forall v w, exists s w', EC2.create_snapshot ec2 v w = (Ok s, w')) ->
  (forall v w, exists u w', EC2.delete_volume ec2 v w = (Ok u, w')) ->
  forall volumes results st st0,
    fst (EC2.for_each volumes (CostOptimizer.delete_volume_step ec2 false)
           results st) =
    fst (EC2.for_each volumes (CostOptimizer.delete_volume_step ec2 true)
           results st0).
Proof.
  intros Hsnap Hdel.
  induction volumes as [|volume rest IH]; intros results st st0.
  - reflexivity.
  - cbn [EC2.for_each]. unfold EC2.bind.
    rewrite delete_volume_step_live. cbv zeta.
    destruct (Hsnap (CostOptimizer.vi_VolumeId volume) (EC2.world st))
      as (s & w & ->).
    destruct (Hdel (CostOptimizer.vi_VolumeId volume) w) as (u & w' & ->).
    cbn [CostOptimizer.delete_volume_step EC2.ret]. apply IH.
Qed.

(** C2 (the code departs from the claim). In a live run of the clean-up
    script where [delete_snapshot] raises for the 100 GB snapshot [snap-1],
    the snapshot is still listed under [snapshots_deleted] with savings 5,
    and the total savings written to the report is 5, not 0. *)
Theorem failed_snapshot_delete_counts_as_savings :
  exists self,
    ResourceCleanup.run_cleanup EC2.scripted false Scenario.day200
      (ResourceCleanup.fresh (Scenario.account [Some "RequestLimitExceeded"]))
    = (Ok tt, self) /\
    In (EC2.ev (EC2.DeleteSnapshot "snap-1") false)
       (EC2.calls (ResourceCleanup.cloud self)) /\
    map ResourceCleanup.id
      (ResourceCleanup.snapshots_deleted (ResourceCleanup.cleanup_report self))
    = ["snap-1"] /\
    ResourceCleanup.total_savings (ResourceCleanup.cleanup_report self) == 5 /\
    ResourceCleanup.report_file self =
      Some (ResourceCleanup.cleanup_report self).
Proof.
  eexists. split; [vm_compute; reflexivity|].
  repeat split. cbn. right. left. reflexivity.
Qed.

(** C3 (the code departs from the claim). With [DRY_RUN] set, the
    reclamation steps of [lambda_handler] (lines 481-490) still call
    [create_tags] on the old snapshot [snap-1]: [archive_old_snapshots]
    does not read [DRY_RUN].  The volume is reported as (would-be) deleted
    with its savings and no deleting call is made. *)
Theorem dry_run_still_tags_snapshots :
  exists reclaimed st,
    CostOptimizer.reclaim EC2.scripted true 7 Scenario.day200
      (EC2.start (Scenario.account [])) = (Ok reclaimed, st) /\
    EC2.calls st =
      [EC2.ev EC2.DescribeVolumes true;
       EC2.ev EC2.DescribeAddresses true;
       EC2.ev EC2.DescribeSnapshots true;
       EC2.ev (EC2.CreateTags "snap-1") true] /\
    existsb EC2.mutating (map EC2.call (EC2.calls st)) = true /\
    List.length
      (CostOptimizer.deleted (CostOptimizer.volume_results reclaimed))
      = 1%nat /\
    CostOptimizer.total_savings (CostOptimizer.volume_results reclaimed) +
    CostOptimizer.eip_total_savings (CostOptimizer.eip_results reclaimed)
      == 8.
Proof.
  eexists. eexists. split; [vm_compute; reflexivity|]. repeat split.
Qed.

(** * Further properties of the scripts *)

(** ** Budget alerts: the handler as a whole *)

Lemma percentage_returns spend limit :
  exists p, BudgetAlert.percentage spend limit = Ok p.
Proof.
  unfold BudgetAlert.percentage, py_div.
  destruct (Qlt_bool 0 limit) eqn:E; [|now exists 0].
  apply Qlt_bool_iff in E.
  destruct (Qeq_bool limit 0) eqn:Z0.
  - apply Qeq_bool_iff in Z0. rewrite Z0 in E. now apply Qlt_irrefl in E.
  - eexists. reflexivity.
Qed.

Lemma check_budget_returns budget :
  exists r, BudgetAlert.check_budget budget = Ok r.
Proof.
  unfold BudgetAlert.check_budget.
  destruct (percentage_returns
              (BudgetAlert.amount_or_zero (BudgetAlert.ActualSpend budget))
              (BudgetAlert.BudgetLimit budget)) as (p1 & ->).
  destruct (percentage_returns
              (BudgetAlert.amount_or_zero (BudgetAlert.ForecastedSpend budget))
              (BudgetAlert.BudgetLimit budget)) as (p2 & ->).
  destruct (BudgetAlert.threshold_level p1 p2); eexists; reflexivity.
Qed.

Lemma lambda_handler_loop_spec :
  forall budgets alerts sent,
    exists new,
      BudgetAlert.lambda_handler_loop budgets alerts sent =
      Ok (alerts ++ new,
          sent ++ flat_map
            (fun a => [BudgetAlert.SnsPublish a;
                       BudgetAlert.PutMetricData (BudgetAlert.budget_name a)
                         (BudgetAlert.actual_percentage a)]) new) /\
      (List.length new <= List.length budgets)%nat /\
      forall a, In a new <->
        exists b, In b budgets /\ BudgetAlert.check_budget b = Ok (Some a).
Proof.
  induction budgets as [|b rest IH]; intros alerts sent.
  - exists []. simpl. rewrite !app_nil_r. repeat split; auto.
    + intros []. + intros (b & [] & _).
  - cbn [BudgetAlert.lambda_handler_loop].
    destruct (check_budget_returns b) as ([a|] & Hb); rewrite Hb.
    + destruct (IH (alerts ++ [a])
                  (sent ++ [BudgetAlert.SnsPublish a;
                            BudgetAlert.PutMetricData
                              (BudgetAlert.budget_name a)
                              (BudgetAlert.actual_percentage a)]))
        as (new & Hrun & Hlen & Hin).
      exists (a :: new). rewrite Hrun. repeat split.
      * cbn [flat_map]. now rewrite <- !app_assoc.
      * simpl. lia.
      * intros [<-|Hx].
        -- exists b. split; [now left|exact Hb].
        -- apply Hin in Hx. destruct Hx as (b' & Hb' & Hc).
           exists b'. split; [now right|exact Hc].
      * intros (b' & [<-|Hb'] & Hc).
        -- left. congruence.
        -- right. apply Hin. now exists b'.
    + destruct (IH alerts sent) as (new & Hrun & Hlen & Hin).
      exists new. rewrite Hrun. repeat split; auto.
      * simpl. lia.
      * intros Hx. apply Hin in Hx. destruct Hx as (b' & Hb' & Hc).
        exists b'. split; [now right|exact Hc].
      * intros (b' & [<-|Hb'] & Hc); [congruence|].
        apply Hin. now exists b'.
Qed.

(** X1. The budget handler never raises, whatever the budgets (a zero or
    negative limit included).  Its alerts are exactly the alerts of the
    budgets that reach a threshold, at most one per budget, and every
    alert is followed by one SNS publication and one metric, in that
    order. *)
Theorem budget_handler_alerts_and_notifications :
  forall budgets : list BudgetAlert.Budget,
    exists alerts,
      BudgetAlert.lambda_handler budgets =
      Ok (alerts,
          flat_map
            (fun a => [BudgetAlert.SnsPublish a;
                       BudgetAlert.PutMetricData (BudgetAlert.budget_name a)
                         (BudgetAlert.actual_percentage a)]) alerts) /\
      (List.length alerts <= List.length budgets)%nat /\
      forall a, In a alerts <->
        exists b, In b budgets /\ BudgetAlert.check_budget b = Ok (Some a).
Proof.
  intros budgets. unfold BudgetAlert.lambda_handler.
  destruct (lambda_handler_loop_spec budgets [] []) as (new & Hrun & H).
  exists new. split; [exact Hrun|exact H].
Qed.

Lemma percentage_at_least_100 spend limit :
  0 < limit -> limit <= spend ->
  exists p, BudgetAlert.percentage spend limit = Ok p /\
            Qle_bool 100 p = true.
Proof.
  intros Hpos Hle. unfold BudgetAlert.percentage, py_div.
  assert (E : Qlt_bool 0 limit = true) by now apply Qlt_bool_iff.
  rewrite E.
  destruct (Qeq_bool limit 0) eqn:Z0.
  - apply Qeq_bool_iff in Z0. rewrite Z0 in Hpos.
    now apply Qlt_irrefl in Hpos.
  - eexists. split; [reflexivity|]. apply Qle_bool_iff.
    apply Qle_trans with (1 * 100); [discriminate|].
    apply Qmult_le_compat_r; [|discriminate].
    apply Qle_shift_div_l; [exact Hpos|]. now rewrite Qmult_1_l.
Qed.

(** X2. A budget with a positive limit whose actual or forecast spend has
    reached the limit always gets an alert, and the alert is CRITICAL as
    soon as the actual spend has reached the limit, whatever the
    forecast. *)
Theorem spend_at_limit_alerts :
  forall budget : BudgetAlert.Budget,
    0 < BudgetAlert.BudgetLimit budget ->
    BudgetAlert.BudgetLimit budget <=
      BudgetAlert.amount_or_zero (BudgetAlert.ActualSpend budget) \/
    BudgetAlert.BudgetLimit budget <=
      BudgetAlert.amount_or_zero (BudgetAlert.ForecastedSpend budget) ->
    exists alert,
      BudgetAlert.check_budget budget = Ok (Some alert) /\
      (BudgetAlert.BudgetLimit budget <=
         BudgetAlert.amount_or_zero (BudgetAlert.ActualSpend budget) ->
       BudgetAlert.alert_level alert = BudgetAlert.CRITICAL).
Proof.
  intros budget Hpos Hreach. unfold BudgetAlert.check_budget.
  destruct Hreach as [Hact|Hfor].
  - destruct (percentage_at_least_100 _ _ Hpos Hact) as (p1 & -> & H1).
    destruct (percentage_returns
                (BudgetAlert.amount_or_zero
                   (BudgetAlert.ForecastedSpend budget))
                (BudgetAlert.BudgetLimit budget)) as (p2 & ->).
    unfold BudgetAlert.threshold_level. rewrite H1.
    eexists. split; [reflexivity|]. reflexivity.
  - destruct (percentage_at_least_100 _ _ Hpos Hfor) as (p2 & Hp2 & H2).
    destruct (Qlt_le_dec
                (BudgetAlert.amount_or_zero (BudgetAlert.ActualSpend budget))
                (BudgetAlert.BudgetLimit budget)) as [Hlow|Hact].
    + destruct (percentage_returns
                  (BudgetAlert.amount_or_zero (BudgetAlert.ActualSpend budget))
                  (BudgetAlert.BudgetLimit budget)) as (p1 & ->).
      rewrite Hp2. unfold BudgetAlert.threshold_level. rewrite H2.
      destruct (Qle_bool 100 p1), (Qle_bool 90 p1), (Qle_bool 80 p1);
        eexists; (split; [reflexivity|]); intros Habs;
        exfalso; exact (Qlt_not_le _ _ Hlow Habs).
    + destruct (percentage_at_least_100 _ _ Hpos Hact) as (p1 & -> & H1).
      rewrite Hp2. unfold BudgetAlert.threshold_level. rewrite H1.
      eexists. split; reflexivity.
Qed.

Lemma spend_at_limit_alerts_witness :
  0 < BudgetAlert.BudgetLimit Scenario.capped /\
  BudgetAlert.BudgetLimit Scenario.capped <=
    BudgetAlert.amount_or_zero (BudgetAlert.ForecastedSpend Scenario.capped) /\
  exists alert,
    BudgetAlert.check_budget Scenario.capped = Ok (Some alert).
Proof.
  split; [reflexivity|]. split; [discriminate|].
  destruct (spend_at_limit_alerts Scenario.capped) as (alert & H & _).
  - reflexivity.
  - right. discriminate.
  - now exists alert.
Defined.

(** ** Cost anomalies: size of the answer and the effect of the threshold *)

Lemma flag_pair_short thr p c :
  (List.length (CostAnomaly.flag_pair thr p c) <= 1)%nat.
Proof.
  unfold CostAnomaly.flag_pair.
  destruct (Binary64.truthy _); [destruct (PrimFloat.ltb thr _)|];
    simpl; lia.
Qed.

Lemma flat_map_short {A B} (f : A -> list B) (l : list A) :
  (forall x, List.length (f x) <= 1)%nat ->
  (List.length (flat_map f l) <= List.length l)%nat.
Proof.
  intros H. induction l as [|x l IH]; simpl; [lia|].
  rewrite length_app. specialize (H x). lia.
Qed.

Lemma flag_pair_antitone thr1 thr2 p c a :
  (thr1 <=? thr2)%float = true ->
  In a (CostAnomaly.flag_pair thr2 p c) ->
  In a (CostAnomaly.flag_pair thr1 p c).
Proof.
  intros Hle. unfold CostAnomaly.flag_pair.
  destruct (Binary64.truthy _); [|auto].
  destruct (PrimFloat.ltb thr2 _) eqn:E2; [|intros []].
  now rewrite (float_le_lt_trans _ _ _ Hle E2).
Qed.

(** X3. Whatever the threshold, a series of [n] daily results yields at
    most [n - 1] anomalies; and raising the threshold only removes
    anomalies: every anomaly reported at a threshold is reported, with the
    same content, at every lower threshold. *)
Theorem anomalies_shrink_with_threshold :
  forall (results : list CostAnomaly.CostResult) (thr1 thr2 : float),
    (thr1 <=? thr2)%float = true ->
    exists low high,
      CostAnomaly.detect_cost_anomalies results thr1 = Ok low /\
      CostAnomaly.detect_cost_anomalies results thr2 = Ok high /\
      incl high low /\
      (List.length low <= List.length results - 1)%nat.
Proof.
  intros results thr1 thr2 Hle. eexists. eexists.
  split; [apply detect_cost_anomalies_pairs|].
  split; [apply detect_cost_anomalies_pairs|]. split.
  - intros a Ha. apply in_flat_map in Ha. destruct Ha as (pc & Hpc & Ha).
    apply in_flat_map. exists pc. split; [exact Hpc|].
    now apply flag_pair_antitone with thr2.
  - eapply Nat.le_trans.
    + apply flat_map_short. intros x. apply flag_pair_short.
    + rewrite length_combine.
      destruct results as [|r rest]; [simpl; lia|].
      cbn [tl List.length]. lia.
Qed.

Lemma anomalies_shrink_with_threshold_witness :
  (20 <=? 55)%float = true /\
  exists low high,
    CostAnomaly.detect_cost_anomalies Scenario.three_days 20 = Ok low /\
    CostAnomaly.detect_cost_anomalies Scenario.three_days 55 = Ok high /\
    incl high low.
Proof.
  split; [reflexivity|].
  destruct (anomalies_shrink_with_threshold Scenario.three_days 20 55)
    as (low & high & H1 & H2 & H3 & _).
  - reflexivity.
  - now exists low, high.
Defined.

(** ** Flow logs: when the whole report is produced *)

Lemma poll_loop_from_zero logs q fuel rows n :
  FlowLogs.poll_loop logs q fuel 0 = Some (rows, n) <->
  (n < fuel)%nat /\ FlowLogs.first_complete logs q n /\
  rows = FlowLogs.results (FlowLogs.get_query_results logs q n).
Proof.
  split.
  - intros H. apply poll_loop_sound in H.
    destruct H as (Hn & Hc & Hbefore & Hrows).
    repeat split; auto; try lia. intros k Hk. apply Hbefore. lia.
  - intros (Hn & (Hc & Hbefore) & ->).
    apply poll_loop_complete; auto; try lia.
    intros k Hk. apply Hbefore. lia.
Qed.

Lemma print_exfiltration_ok py_int instances :
  FlowReport.print_exfiltration py_int instances = Ok tt <->
  forall instance, In instance instances ->
    FlowReport.bytes_gb py_int instance = Ok tt.
Proof.
  induction instances as [|i rest IH]; simpl.
  - split; [intros _ x []|reflexivity].
  - destruct (FlowReport.bytes_gb py_int i) as [[]|e] eqn:E.
    + rewrite IH. split.
      * intros H x [<-|Hx]; [exact E|now apply H].
      * intros H x Hx. apply H. now right.
    + split; [discriminate|]. intros H.
      specialize (H i (or_introl eq_refl)). congruence.
Qed.

Lemma print_exfiltration_raises py_int instances e :
  FlowReport.print_exfiltration py_int instances = Raise e ->
  e = ValueError \/ e = OverflowError.
Proof.
  induction instances as [|i rest IH]; simpl; [discriminate|].
  destruct (FlowReport.bytes_gb py_int i) as [[]|e'] eqn:E; [exact IH|].
  intros H. injection H as <-. unfold FlowReport.bytes_gb in E.
  destruct (Denials.field i "total_bytes"); [|discriminate].
  destruct (py_int s); [|injection E as <-; now left].
  destruct (_ <? _)%Z; [discriminate|]. injection E as <-. now right.
Qed.

(** X4. [generate_report] runs its three queries one after the other, so
    within a given number of iterations per query it returns its report
    iff each of the three queries has its first "Complete" answer within
    that number of polls, every byte count among the first five
    exfiltration rows is an integer below the overflow bound of the
    division, and every rejection count is an integer; the report then
    counts the rows of the first two answers and carries the analysis of
    the third.  The only exceptions are [ValueError] and [OverflowError],
    and a byte count that does not parse makes the run raise before the
    third query is started. *)
Theorem flow_report_needs_all_three_queries :
  forall (py_int : string -> option Z) (logs : FlowLogs.LogsClient)
         (fuel : nat),
    (forall report : FlowReport.Report,
       FlowReport.generate_report py_int logs fuel = Some (Ok report) <->
       exists n1 n2 n3 analysis,
         (n1 < fuel)%nat /\ (n2 < fuel)%nat /\ (n3 < fuel)%nat /\
         FlowLogs.first_complete logs
           (FlowLogs.start_query logs FlowLogs.port_scan_query) n1 /\
         FlowLogs.first_complete logs
           (FlowLogs.start_query logs (FlowLogs.exfiltration_query 10)) n2 /\
         FlowLogs.first_complete logs
           (FlowLogs.start_query logs FlowLogs.rejected_query) n3 /\
         (forall instance,
            In instance
              (firstn 5 (FlowLogs.results (FlowLogs.get_query_results logs
                 (FlowLogs.start_query logs (FlowLogs.exfiltration_query 10))
                 n2))) ->
            FlowReport.bytes_gb py_int instance = Ok tt) /\
         Denials.analyze_security_group_denials py_int
           (FlowLogs.results (FlowLogs.get_query_results logs
              (FlowLogs.start_query logs FlowLogs.rejected_query) n3))
         = Some analysis /\
         report =
           {| FlowReport.port_scans :=
                List.length (FlowLogs.results (FlowLogs.get_query_results logs
                  (FlowLogs.start_query logs FlowLogs.port_scan_query) n1));
              FlowReport.data_exfiltration :=
                List.length (FlowLogs.results (FlowLogs.get_query_results logs
                  (FlowLogs.start_query logs (FlowLogs.exfiltration_query 10))
                  n2));
              FlowReport.security_group_analysis := analysis |}) /\
    (forall e,
       FlowReport.generate_report py_int logs fuel = Some (Raise e) ->
       e = ValueError \/ e = OverflowError) /\
    (forall n1 n2 instance,
       (n1 < fuel)%nat -> (n2 < fuel)%nat ->
       FlowLogs.first_complete logs
         (FlowLogs.start_query logs FlowLogs.port_scan_query) n1 ->
       FlowLogs.first_complete logs
         (FlowLogs.start_query logs (FlowLogs.exfiltration_query 10)) n2 ->
       In instance
         (firstn 5 (FlowLogs.results (FlowLogs.get_query_results logs
            (FlowLogs.start_query logs (FlowLogs.exfiltration_query 10))
            n2))) ->
       FlowReport.bytes_gb py_int instance <> Ok tt ->
       exists e, FlowReport.generate_report py_int logs fuel = Some (Raise e)).
Proof.
  intros py_int logs fuel.
  unfold FlowReport.generate_report, FlowLogs.detect_port_scanning,
    FlowLogs.detect_data_exfiltration, FlowLogs.query_flow_logs.
  split; [|split].
  - intros report. split.
    + destruct (FlowLogs.poll_loop logs _ fuel 0) as [[r1 n1]|] eqn:E1;
        [|discriminate].
      destruct (FlowLogs.poll_loop logs
                  (FlowLogs.start_query logs (FlowLogs.exfiltration_query 10))
                  fuel 0) as [[r2 n2]|] eqn:E2; [|discriminate].
      destruct (FlowReport.print_exfiltration py_int (firstn 5 r2))
        as [[]|e] eqn:Ep; [|discriminate].
      destruct (FlowLogs.poll_loop logs
                  (FlowLogs.start_query logs FlowLogs.rejected_query)
                  fuel 0) as [[r3 n3]|] eqn:E3; [|discriminate].
      destruct (Denials.analyze_security_group_denials py_int r3)
        as [analysis|] eqn:Ea; [|discriminate].
      intros H. injection H as <-.
      apply poll_loop_from_zero in E1, E2, E3.
      destruct E1 as (L1 & F1 & ->), E2 as (L2 & F2 & ->),
        E3 as (L3 & F3 & ->).
      exists n1, n2, n3, analysis.
      split; [exact L1|]. split; [exact L2|]. split; [exact L3|].
      split; [exact F1|]. split; [exact F2|]. split; [exact F3|].
      split; [now apply print_exfiltration_ok|].
      split; [exact Ea|reflexivity].
    + intros (n1 & n2 & n3 & analysis
              & H1 & H2 & H3 & F1 & F2 & F3 & Hp & Ha & ->).
      rewrite (proj2 (poll_loop_from_zero logs _ fuel _ n1)
                 (conj H1 (conj F1 eq_refl))).
      rewrite (proj2 (poll_loop_from_zero logs _ fuel _ n2)
                 (conj H2 (conj F2 eq_refl))).
      rewrite (proj2 (print_exfiltration_ok py_int _) Hp).
      rewrite (proj2 (poll_loop_from_zero logs _ fuel _ n3)
                 (conj H3 (conj F3 eq_refl))).
      rewrite Ha. reflexivity.
  - intros e.
    destruct (FlowLogs.poll_loop logs _ fuel 0) as [[r1 n1]|];
      [|discriminate].
    destruct (FlowLogs.poll_loop logs
                (FlowLogs.start_query logs (FlowLogs.exfiltration_query 10))
                fuel 0) as [[r2 n2]|]; [|discriminate].
    destruct (FlowReport.print_exfiltration py_int (firstn 5 r2))
      as [[]|e'] eqn:Ep.
    + destruct (FlowLogs.poll_loop logs
                  (FlowLogs.start_query logs FlowLogs.rejected_query)
                  fuel 0) as [[r3 n3]|]; [|discriminate].
      destruct (Denials.analyze_security_group_denials py_int r3);
        [discriminate|].
      intros H. injection H as <-. now left.
    + intros H. injection H as <-.
      now apply print_exfiltration_raises in Ep.
  - intros n1 n2 instance H1 H2 F1 F2 Hin Hbad.
    rewrite (proj2 (poll_loop_from_zero logs _ fuel _ n1)
               (conj H1 (conj F1 eq_refl))).
    rewrite (proj2 (poll_loop_from_zero logs _ fuel _ n2)
               (conj H2 (conj F2 eq_refl))).
    destruct (FlowReport.print_exfiltration py_int _) as [[]|e] eqn:Ep.
    + exfalso. apply Hbad.
      now apply (proj1 (print_exfiltration_ok py_int _) Ep).
    + now exists e.
Qed.

(** A byte count printed as "1.2E10" is not an integer for [int]: the run
    raises [ValueError] although all three queries are complete. *)
Lemma flow_report_needs_all_three_queries_witness :
  FlowReport.generate_report Samples.int_of Samples.scientific_count 1
  = Some (Raise ValueError).
Proof.
  destruct (proj2 (proj2 (flow_report_needs_all_three_queries
              Samples.int_of Samples.scientific_count 1))
              0%nat 0%nat
              [("srcAddr", "10.0.0.5"); ("total_bytes", "1.2E10")])
    as (e & He).
  - lia.
  - lia.
  - split; [reflexivity|]. intros k Hk. lia.
  - split; [reflexivity|]. intros k Hk. lia.
  - now left.
  - vm_compute. discriminate.
  - rewrite He. vm_compute in He. injection He as <-. reflexivity.
Defined.

(** ** Counters and descending sort *)

Section CounterFacts.
Context {V : Type} (zero : V) (add : V -> V -> V).

Lemma bump_lookup key v d key' :
  Counter.lookup zero key' (Counter.bump zero add key v d) =
  if String.eqb key key'
  then add (Counter.lookup zero key' d) v
  else Counter.lookup zero key' d.
Proof.
  induction d as [|[k old] rest IH]; simpl.
  - rewrite String.eqb_sym. destruct (String.eqb key' key); reflexivity.
  - destruct (String.eqb k key) eqn:Ek; simpl.
    + apply String.eqb_eq in Ek. subst k.
      destruct (String.eqb key key'); reflexivity.
    + destruct (String.eqb k key') eqn:Ek'.
      * apply String.eqb_eq in Ek'. subst k.
        rewrite String.eqb_sym, Ek. reflexivity.
      * exact IH.
Qed.

Lemma bump_keys key v d s :
  In s (map fst (Counter.bump zero add key v d)) <->
  In s (map fst d) \/ s = key.
Proof.
  induction d as [|[k old] rest IH]; simpl.
  - intuition.
  - destruct (String.eqb k key) eqn:Ek; simpl.
    + apply String.eqb_eq in Ek. subst k. intuition.
    + rewrite IH. intuition.
Qed.

Lemma bump_nodup key v d :
  NoDup (map fst d) -> NoDup (map fst (Counter.bump zero add key v d)).
Proof.
  induction d as [|[k old] rest IH]; simpl; intros H.
  - constructor; [intros []|constructor].
  - inversion H as [|? ? Hnotin Hrest]; subst.
    destruct (String.eqb k key) eqn:Ek; simpl.
    + constructor; assumption.
    + constructor; [|now apply IH].
      rewrite bump_keys. intros [Hin | ->]; [contradiction|].
      now rewrite String.eqb_refl in Ek.
Qed.

Lemma lookup_in d s c :
  NoDup (map fst d) -> In (s, c) d -> c = Counter.lookup zero s d.
Proof.
  induction d as [|[k old] rest IH]; simpl; intros Hnd Hin; [contradiction|].
  inversion Hnd as [|? ? Hnotin Hrest]; subst.
  destruct Hin as [Heq | Hin].
  - injection Heq as H1 H2. subst k old. now rewrite String.eqb_refl.
  - destruct (String.eqb k s) eqn:Ek.
    + apply String.eqb_eq in Ek. subst k. exfalso. apply Hnotin.
      change s with (fst (s, c)). now apply in_map.
    + now apply IH.
Qed.

End CounterFacts.

Section SortFacts.
Context {V : Type} (gtb : V -> V -> bool).
Hypothesis gtb_asym : forall a b, gtb a b = true -> gtb b a = false.

Lemma insert_desc_perm x l :
  Permutation (Counter.insert_desc gtb x l) (x :: l).
Proof.
  induction l as [|y ys IH]; simpl; [reflexivity|].
  destruct (gtb (snd y) (snd x)); [|reflexivity].
  rewrite IH. apply perm_swap.
Qed.

Lemma sorted_desc_perm l : Permutation (Counter.sorted_desc gtb l) l.
Proof.
  induction l as [|x l IH]; simpl; [reflexivity|].
  rewrite insert_desc_perm. now constructor.
Qed.

Lemma insert_desc_sorted x l :
  Sorted (fun x y => gtb (snd y) (snd x) = false) l -> Sorted (fun x y => gtb (snd y) (snd x) = false) (Counter.insert_desc gtb x l).
Proof.
  induction l as [|y ys IH]; simpl; intros Hs.
  - repeat constructor.
  - destruct (gtb (snd y) (snd x)) eqn:E.
    + inversion Hs as [|? ? Hys Hhd]; subst. constructor; [now apply IH|].
      destruct ys as [|z zs]; simpl.
      * constructor. cbv beta. now apply gtb_asym.
      * destruct (gtb (snd z) (snd x)).
        -- inversion Hhd; subst. now constructor.
        -- constructor. cbv beta. now apply gtb_asym.
    + constructor; [exact Hs|]. constructor. exact E.
Qed.

Lemma sorted_desc_sorted l : Sorted (fun x y => gtb (snd y) (snd x) = false) (Counter.sorted_desc gtb l).
Proof.
  induction l as [|x l IH]; simpl; [constructor|].
  now apply insert_desc_sorted.
Qed.

End SortFacts.

Lemma firstn_in {A} n (l : list A) x : In x (firstn n l) -> In x l.
Proof.
  revert l. induction n as [|n IH]; intros [|y l]; simpl; try tauto.
  intros [->|H]; [now left|right; now apply IH].
Qed.

Lemma firstn_nodup {A} n (l : list A) : NoDup l -> NoDup (firstn n l).
Proof.
  revert l. induction n as [|n IH]; intros [|y l] H; simpl;
    try constructor.
  - inversion H; subst. intros Hin. apply firstn_in in Hin. contradiction.
  - inversion H; subst. now apply IH.
Qed.

Lemma firstn_strongly_sorted {A} (R : A -> A -> Prop) n (l : list A) :
  StronglySorted R l -> StronglySorted R (firstn n l).
Proof.
  revert l. induction n as [|n IH]; intros [|y l] H; simpl;
    try constructor.
  - inversion H; subst. now apply IH.
  - inversion H as [|? ? ? Hall]; subst.
    rewrite Forall_forall in *. intros x Hx. apply Hall.
    now apply firstn_in in Hx.
Qed.

(** ** Cost analysis: the top services *)

Lemma service_costs_flat results :
  CostAnalysis.service_costs results =
  fold_left (fun d group => Counter.bump 0 Qplus (fst group) (snd group) d)
    (List.concat results) [].
Proof.
  unfold CostAnalysis.service_costs. generalize (@nil (string * Q)).
  induction results as [|period rest IH]; intros d; simpl; [reflexivity|].
  now rewrite fold_left_app, IH.
Qed.

Lemma bumps_lookup s groups :
  forall d,
    Counter.lookup 0 s
      (fold_left (fun d group =>
                    Counter.bump 0 Qplus (fst group) (snd group) d) groups d) =
    fold_left Qplus
      (map snd (filter (fun group => String.eqb (fst group) s) groups))
      (Counter.lookup 0 s d).
Proof.
  induction groups as [|g rest IH]; intros d; simpl; [reflexivity|].
  rewrite IH, bump_lookup.
  destruct (String.eqb (fst g) s); reflexivity.
Qed.

Lemma bumps_nodup groups :
  forall d,
    NoDup (map fst d) ->
    NoDup (map fst
      (fold_left (fun d group =>
                    Counter.bump 0 Qplus (fst group) (snd group) d) groups d)).
Proof.
  induction groups as [|g rest IH]; intros d H; simpl; [exact H|].
  apply IH. now apply bump_nodup.
Qed.

Lemma bumps_keys s groups :
  forall d,
    In s (map fst
      (fold_left (fun d group =>
                    Counter.bump 0 Qplus (fst group) (snd group) d) groups d))
    <-> In s (map fst d) \/ In s (map fst groups).
Proof.
  induction groups as [|g rest IH]; intros d; simpl; [tauto|].
  rewrite IH, bump_keys. intuition.
Qed.

Lemma Qlt_bool_asym a b : Qlt_bool b a = true -> Qlt_bool a b = false.
Proof.
  intros H. apply Qlt_bool_iff in H.
  destruct (Qlt_bool a b) eqn:E; [|reflexivity].
  apply Qlt_bool_iff in E. exfalso.
  exact (Qlt_irrefl _ (Qlt_trans _ _ _ H E)).
Qed.

(** X5. [get_top_cost_services] returns at most [top_n] entries, one per
    service at most, in descending order of cost.  The cost given for a
    service is the sum, in order of appearance, of the costs of all the
    groups of that service over all the periods, and every service listed
    does occur in some group. *)
Theorem top_services_are_aggregated_and_sorted :
  forall (results : list (list (string * Q))) (top_n : nat),
    let top := CostAnalysis.get_top_cost_services results top_n in
    (List.length top <= top_n)%nat /\
    NoDup (map fst top) /\
    StronglySorted (fun x y => snd y <= snd x) top /\
    forall service cost,
      In (service, cost) top ->
      cost = py_sum (map snd (filter (fun group => String.eqb (fst group) service)
                                (List.concat results))) /\
      In service (map fst (List.concat results)).
Proof.
  intros results top_n top. subst top.
  unfold CostAnalysis.get_top_cost_services.
  set (d := CostAnalysis.service_costs results).
  set (sorted := Counter.sorted_desc (fun a b => Qlt_bool b a) d).
  assert (Hperm : Permutation sorted d) by apply sorted_desc_perm.
  assert (Hnd : NoDup (map fst d)).
  { subst d. rewrite service_costs_flat. apply bumps_nodup. constructor. }
  split; [apply firstn_le_length|]. split; [|split].
  - rewrite <- firstn_map. apply firstn_nodup.
    apply Permutation_NoDup with (map fst d); [|exact Hnd].
    apply Permutation_map. now symmetry.
  - apply firstn_strongly_sorted. apply Sorted_StronglySorted.
    + intros x y z Hxy Hyz. eapply Qle_trans; eauto.
    + assert (Hs := sorted_desc_sorted (fun a b : Q => Qlt_bool b a)
                      (fun a b => Qlt_bool_asym a b) d).
      fold sorted in Hs. revert Hs. apply Sorted_ind.
      * constructor.
      * intros a l Hl IH Hhd. constructor; [exact IH|].
        destruct Hhd as [|b l' Hab]; constructor.
        cbv beta in Hab. apply Qnot_lt_le. intros Hlt.
        apply Qlt_bool_iff in Hlt. congruence.
  - intros service cost Hin. apply firstn_in in Hin.
    apply (Permutation_in _ Hperm) in Hin. split.
    + rewrite (lookup_in 0 d service cost Hnd Hin).
      subst d. rewrite service_costs_flat, bumps_lookup. reflexivity.
    + assert (Hk : In service (map fst d)).
      { change service with (fst (service, cost)). now apply in_map. }
      subst d. rewrite service_costs_flat in Hk.
      apply bumps_keys in Hk. destruct Hk as [[]|Hk]. exact Hk.
Qed.

(** ** Cost analysis: the recommendations *)

Lemma length_not_zero {A} (x : A) (xs : list A) :
  Qeq_bool (inject_Z (Z.of_nat (List.length (x :: xs)))) 0 = false.
Proof.
  destruct (Qeq_bool _ 0) eqn:E; [|reflexivity].
  apply Qeq_bool_iff in E. unfold Qeq in E. simpl in E. lia.
Qed.

Lemma ri_recommendation_returns coverage :
  exists ri,
    CostAnalysis.ri_recommendation coverage = Ok ri /\
    (List.length ri <= 1)%nat /\
    (forall avg, In (CostAnalysis.ReservedInstances avg) ri ->
                 avg < 70 /\ coverage <> []) /\
    (forall p, ~ In (CostAnalysis.ResourceTagging p) ri) /\
    (forall n, ~ In (CostAnalysis.CostAnomalies n) ri).
Proof.
  destruct coverage as [|c cs].
  - exists []. simpl. split; [reflexivity|]. split; [lia|].
    split; [intros ? []|]. split; intros ? [].
  - unfold CostAnalysis.ri_recommendation, py_div.
    rewrite length_not_zero.
    destruct (Qlt_bool _ 70) eqn:E; eexists; (split; [reflexivity|]);
      (split; [simpl; lia|]).
    + split; [|split].
      * intros avg [H|[]]. injection H as <-.
        split; [now apply Qlt_bool_iff|discriminate].
      * intros p [H|[]]. discriminate.
      * intros n [H|[]]. discriminate.
    + split; [intros ? []|]. split; intros ? [].
Qed.

Lemma generate_recommendations_spec :
  forall analysis : CostAnalysis.Analysis,
    exists recs,
      CostAnalysis._generate_recommendations analysis = Ok recs /\
      (List.length recs <= 3)%nat /\
      (forall p, In (CostAnalysis.ResourceTagging p) recs <->
         p = CostAnalysis.untagged_percentage analysis /\ 20 < p) /\
      (forall n, In (CostAnalysis.CostAnomalies n) recs <->
         n = List.length (filter CostAnalysis.is_high
                            (CostAnalysis.anomalies analysis)) /\
         (0 < n)%nat) /\
      (forall avg, In (CostAnalysis.ReservedInstances avg) recs ->
         avg < 70 /\ CostAnalysis.ri_coverage analysis <> []).
Proof.
  intros analysis. unfold CostAnalysis._generate_recommendations.
  destruct (ri_recommendation_returns (CostAnalysis.ri_coverage analysis))
    as (ri & -> & Hlen & Hri & Hnotag & Hnoanom).
  eexists. split; [reflexivity|].
  set (pct := CostAnalysis.untagged_percentage analysis).
  set (high := filter CostAnalysis.is_high (CostAnalysis.anomalies analysis)).
  assert (Htag : forall p,
    In (CostAnalysis.ResourceTagging p)
       (if Qlt_bool 20 pct then [CostAnalysis.ResourceTagging pct] else [])
    <-> p = pct /\ 20 < p).
  { intros p. destruct (Qlt_bool 20 pct) eqn:E; simpl.
    - apply Qlt_bool_iff in E. split.
      + intros [H|[]]. injection H as <-. now split.
      + intros [-> _]. now left.
    - split; [intros []|]. intros [-> H]. apply Qlt_bool_iff in H.
      congruence. }
  assert (Hanom : forall n,
    In (CostAnalysis.CostAnomalies n)
       (match high with
        | [] => []
        | _ => [CostAnalysis.CostAnomalies (List.length high)]
        end)
    <-> n = List.length high /\ (0 < n)%nat).
  { intros n. destruct high as [|h hs]; simpl.
    - split; [intros []|]. intros [-> H]. lia.
    - split.
      + intros [H|[]]. injection H as <-. split; [reflexivity|lia].
      + intros [-> _]. now left. }
  split; [|split; [|split]].
  - rewrite !length_app.
    destruct (Qlt_bool 20 pct); destruct high; simpl; lia.
  - intros p. rewrite !in_app_iff, Htag. split.
    + intros [H|[H|H]]; [now apply Hnotag in H|exact H|].
      destruct high; simpl in H; [contradiction|].
      destruct H as [H|[]]. discriminate.
    + intros H. right. now left.
  - intros n. rewrite !in_app_iff, Hanom. split.
    + intros [H|[H|H]]; [now apply Hnoanom in H| |exact H].
      destruct (Qlt_bool 20 pct); simpl in H; [|contradiction].
      destruct H as [H|[]]. discriminate.
    + intros H. right. now right.
  - intros avg. rewrite !in_app_iff. intros [H|[H|H]].
    + now apply Hri.
    + destruct (Qlt_bool 20 pct); simpl in H; [|contradiction].
      destruct H as [H|[]]. discriminate.
    + destruct high; simpl in H; [contradiction|].
      destruct H as [H|[]]. discriminate.
Qed.

(** X6. [_generate_recommendations] never raises (the average RI coverage
    is only computed for a non-empty list) and gives at most three
    recommendations.  A tagging recommendation is given iff the untagged
    percentage is strictly above 20; a cost-anomaly recommendation is given
    iff some anomaly is HIGH, and it carries the number of HIGH anomalies;
    an RI recommendation is only given for an average coverage below 70. *)
Theorem recommendations_follow_the_analysis :
  forall analysis : CostAnalysis.Analysis,
    exists recs,
      CostAnalysis._generate_recommendations analysis = Ok recs /\
      (List.length recs <= 3)%nat /\
      (forall p, In (CostAnalysis.ResourceTagging p) recs <->
         p = CostAnalysis.untagged_percentage analysis /\ 20 < p) /\
      (forall n, In (CostAnalysis.CostAnomalies n) recs <->
         n = List.length (filter CostAnalysis.is_high
                            (CostAnalysis.anomalies analysis)) /\
         (0 < n)%nat) /\
      (forall avg, In (CostAnalysis.ReservedInstances avg) recs ->
         avg < 70 /\ CostAnalysis.ri_coverage analysis <> []).
Proof. exact generate_recommendations_spec. Qed.

(** ** Right-sizing: statistics of the datapoints *)

Lemma insert_sorted_perm x l :
  Permutation (RightSizing.insert_sorted x l) (x :: l).
Proof.
  induction l as [|y ys IH]; simpl; [reflexivity|].
  destruct (Qle_bool x y); [reflexivity|].
  rewrite IH. apply perm_swap.
Qed.

Lemma sorted_perm l : Permutation (RightSizing.sorted l) l.
Proof.
  induction l as [|x l IH]; simpl; [reflexivity|].
  rewrite insert_sorted_perm. now constructor.
Qed.

Lemma Qle_bool_false x y : Qle_bool x y = false -> y <= x.
Proof.
  intros H. apply Qlt_le_weak. apply Qnot_le_lt. intros Hle.
  apply Qle_bool_iff in Hle. congruence.
Qed.

Lemma insert_sorted_sorted x l :
  Sorted Qle l -> Sorted Qle (RightSizing.insert_sorted x l).
Proof.
  induction l as [|y ys IH]; simpl; intros Hs.
  - repeat constructor.
  - destruct (Qle_bool x y) eqn:E.
    + constructor; [exact Hs|]. constructor. now apply Qle_bool_iff.
    + inversion Hs as [|? ? Hys Hhd]; subst. constructor; [now apply IH|].
      destruct ys as [|z zs]; simpl.
      * constructor. now apply Qle_bool_false.
      * destruct (Qle_bool x z).
        -- constructor. now apply Qle_bool_false.
        -- inversion Hhd; subst. now constructor.
Qed.

Lemma sorted_is_sorted l : StronglySorted Qle (RightSizing.sorted l).
Proof.
  apply Sorted_StronglySorted.
  - intros x y z. apply Qle_trans.
  - induction l as [|x l IH]; simpl; [constructor|].
    now apply insert_sorted_sorted.
Qed.

Lemma py_max_spec xs :
  forall x,
    In (RightSizing.py_max x xs) (x :: xs) /\
    forall y, In y (x :: xs) -> y <= RightSizing.py_max x xs.
Proof.
  unfold RightSizing.py_max.
  induction xs as [|z zs IH]; intros x; simpl.
  - split; [now left|]. intros y [->|[]]. apply Qle_refl.
  - destruct (IH (if Qlt_bool x z then z else x)) as (Hin & Hmax).
    split.
    + destruct Hin as [Hin|Hin]; [|right; now right].
      rewrite <- Hin. destruct (Qlt_bool x z); [right; now left|now left].
    + intros y [->|[->|Hy]].
      * eapply Qle_trans; [|apply Hmax; now left].
        destruct (Qlt_bool y z) eqn:E; [|apply Qle_refl].
        apply Qlt_le_weak. now apply Qlt_bool_iff.
      * eapply Qle_trans; [|apply Hmax; now left].
        destruct (Qlt_bool x y) eqn:E; [apply Qle_refl|].
        apply Qnot_lt_le. intros H. apply Qlt_bool_iff in H. congruence.
      * apply Hmax. now right.
Qed.

Lemma p95_index_in_range (values : list Q) :
  values <> [] -> (RightSizing.p95_index values < List.length values)%nat.
Proof.
  intros Hne. unfold RightSizing.p95_index.
  assert (Hpos : (0 < Z.of_nat (List.length values))%Z).
  { destruct values; [contradiction|simpl; lia]. }
  set (n := Z.of_nat (List.length values)) in *.
  assert (Hfloor : Qfloor (inject_Z n * (95 # 100)) = (n * 95 / 100)%Z).
  { unfold Qfloor, Qmult, inject_Z. simpl. reflexivity. }
  rewrite Hfloor.
  assert ((n * 95 / 100 < n)%Z).
  { apply Z.div_lt_upper_bound; lia. }
  assert ((0 <= n * 95 / 100)%Z) by (apply Z.div_pos; lia).
  subst n. lia.
Qed.

Lemma count_le_prefix (p : Q) (l : list Q) (k : nat) :
  StronglySorted Qle l ->
  nth_error l k = Some p ->
  (k < List.length (filter (fun x => Qle_bool x p) l))%nat.
Proof.
  revert k. induction l as [|x l IH]; intros k Hs Hk.
  - now destruct k.
  - inversion Hs as [|? ? Hl Hall]; subst. destruct k as [|k]; simpl in *.
    + injection Hk as ->.
      assert (E : Qle_bool p p = true) by (apply Qle_bool_iff, Qle_refl).
      rewrite E. simpl. lia.
    + assert (Hp : In p l) by (eapply nth_error_In; eauto).
      rewrite Forall_forall in Hall.
      assert (E : Qle_bool x p = true) by (apply Qle_bool_iff; now apply Hall).
      rewrite E. simpl. specialize (IH k Hl Hk). lia.
Qed.

Lemma filter_length_perm {A} (f : A -> bool) (l l' : list A) :
  Permutation l l' -> List.length (filter f l) = List.length (filter f l').
Proof.
  induction 1; simpl; try congruence.
  - destruct (f x); simpl; congruence.
  - destruct (f x), (f y); reflexivity.
Qed.

(** X8. For a non-empty list of datapoints [get_metric_stats] never takes
    its error path: the average is the sum over the count, the maximum is
    a datapoint that no datapoint exceeds, and the p95 is a datapoint,
    not above the maximum, with more than [int(0.95 n)] of the [n]
    datapoints at or below it. *)
Theorem metric_stats_of_datapoints :
  forall (v : Q) (vs : list Q),
    let values := v :: vs in
    let stats := RightSizing.get_metric_stats (Ok values) in
    RightSizing.average stats =
      py_sum values / inject_Z (Z.of_nat (List.length values)) /\
    In (RightSizing.max stats) values /\
    (forall x, In x values -> x <= RightSizing.max stats) /\
    In (RightSizing.p95 stats) values /\
    RightSizing.p95 stats <= RightSizing.max stats /\
    (RightSizing.p95_index values <
     List.length (filter (fun x => Qle_bool x (RightSizing.p95 stats)) values))%nat.
Proof.
  intros v vs values stats. subst stats.
  assert (Hne : values <> []) by discriminate.
  assert (Hidx := p95_index_in_range values Hne).
  assert (Hperm := sorted_perm values).
  destruct (nth_error (RightSizing.sorted values)
              (RightSizing.p95_index values)) as [p|] eqn:Hp.
  2:{ apply nth_error_None in Hp.
      rewrite (Permutation_length Hperm) in Hp. lia. }
  assert (Hstats : RightSizing.get_metric_stats (Ok values) =
    {| RightSizing.average :=
         py_sum values / inject_Z (Z.of_nat (List.length values));
       RightSizing.max := RightSizing.py_max v vs;
       RightSizing.p95 := p |}).
  { unfold RightSizing.get_metric_stats, py_div, py_index. subst values.
    rewrite length_not_zero, Hp. reflexivity. }
  rewrite Hstats. cbn [RightSizing.average RightSizing.max RightSizing.p95].
  destruct (py_max_spec vs v) as (Hmin & Hmax).
  assert (Hpin : In p values).
  { apply (Permutation_in _ Hperm). eapply nth_error_In; eauto. }
  repeat split; auto.
  rewrite <- (filter_length_perm _ _ _ Hperm).
  apply count_le_prefix; [apply sorted_is_sorted|exact Hp].
Qed.

(** ** Right-sizing: what the datapoints imply for the recommendation *)

Lemma inject_length_succ {A} (x : A) (xs : list A) :
  inject_Z (Z.of_nat (List.length (x :: xs))) ==
  inject_Z (Z.of_nat (List.length xs)) + 1.
Proof.
  cbn [List.length]. rewrite Nat2Z.inj_succ. unfold Z.succ.
  now rewrite inject_Z_plus.
Qed.

Lemma sum_at_least (c : Q) (l : list Q) :
  (forall x, In x l -> c <= x) ->
  forall a, a + c * inject_Z (Z.of_nat (List.length l)) <= fold_left Qplus l a.
Proof.
  induction l as [|x l IH]; intros Hall a.
  - simpl. rewrite Qmult_0_r, Qplus_0_r. apply Qle_refl.
  - cbn [fold_left]. eapply Qle_trans; [|apply IH].
    + rewrite inject_length_succ.
      assert (Hx : c <= x) by (apply Hall; now left).
      setoid_replace (a + c * (inject_Z (Z.of_nat (List.length l)) + 1))
        with ((a + c) + c * inject_Z (Z.of_nat (List.length l))) by ring.
      apply Qplus_le_compat; [|apply Qle_refl].
      apply Qplus_le_compat; [apply Qle_refl|exact Hx].
    + intros y Hy. apply Hall. now right.
Qed.

Lemma length_positive {A} (x : A) (xs : list A) :
  0 < inject_Z (Z.of_nat (List.length (x :: xs))).
Proof.
  unfold Qlt. simpl. lia.
Qed.

Lemma average_at_least (c v : Q) (vs : list Q) :
  (forall x, In x (v :: vs) -> c <= x) ->
  c <= py_sum (v :: vs) / inject_Z (Z.of_nat (List.length (v :: vs))).
Proof.
  intros Hall. apply Qle_shift_div_l; [apply length_positive|].
  eapply Qle_trans; [|apply (sum_at_least c (v :: vs) Hall 0)].
  rewrite Qplus_0_l. apply Qle_refl.
Qed.

Lemma average_above (c v : Q) (vs : list Q) :
  (forall x, In x (v :: vs) -> c < x) ->
  c < py_sum (v :: vs) / inject_Z (Z.of_nat (List.length (v :: vs))).
Proof.
  intros Hall. apply Qlt_shift_div_l; [apply length_positive|].
  unfold py_sum. cbn [fold_left].
  eapply Qlt_le_trans;
    [|apply (sum_at_least c vs (fun x Hx =>
               Qlt_le_weak _ _ (Hall x (or_intror Hx))) (0 + v))].
  rewrite inject_length_succ.
  setoid_replace (c * (inject_Z (Z.of_nat (List.length vs)) + 1))
    with (c + c * inject_Z (Z.of_nat (List.length vs))) by ring.
  apply Qplus_lt_le_compat; [|apply Qle_refl].
  rewrite Qplus_0_l. apply Hall. now left.
Qed.

Lemma average_of_stats v vs :
  RightSizing.average (RightSizing.get_metric_stats (Ok (v :: vs))) =
  py_sum (v :: vs) / inject_Z (Z.of_nat (List.length (v :: vs))).
Proof.
  assert (Hidx := p95_index_in_range (v :: vs) ltac:(discriminate)).
  destruct (nth_error (RightSizing.sorted (v :: vs))
              (RightSizing.p95_index (v :: vs))) as [p|] eqn:Hp.
  - unfold RightSizing.get_metric_stats, py_div, py_index.
    rewrite length_not_zero, Hp. reflexivity.
  - apply nth_error_None in Hp.
    rewrite (Permutation_length (sorted_perm (v :: vs))) in Hp. lia.
Qed.

(** X9. When CloudWatch returns CPU datapoints for an instance: if every
    datapoint is at least 10 the instance is never recommended for
    DOWNSIZE, and if every datapoint is above 90 it is recommended for
    UPSIZE with priority HIGH. *)
Theorem datapoints_decide_the_action :
  forall (cloudwatch : RightSizing.CloudWatch) (id type : string)
         (v : Q) (vs : list Q),
    cloudwatch id "CPUUtilization" = Ok (v :: vs) ->
    ((forall x, In x (v :: vs) -> 10 <= x) ->
     forall r,
       RightSizing.generate_ec2_recommendation id type
         (RightSizing.get_instance_metrics cloudwatch id) = Some r ->
       RightSizing.action r = RightSizing.UPSIZE) /\
    ((forall x, In x (v :: vs) -> 90 < x) ->
     RightSizing.generate_ec2_recommendation id type
       (RightSizing.get_instance_metrics cloudwatch id) =
     Some {| RightSizing.instance_id := id;
             RightSizing.current_type := type;
             RightSizing.action := RightSizing.UPSIZE;
             RightSizing.priority := RightSizing.HIGH |}).
Proof.
  intros cloudwatch id type v vs Hcpu.
  unfold RightSizing.generate_ec2_recommendation,
    RightSizing.get_instance_metrics.
  cbn [RightSizing.cpu_utilization]. rewrite Hcpu, average_of_stats.
  split; intros Hall.
  - assert (Havg := average_at_least 10 v vs Hall).
    assert (E : Qlt_bool
                  (py_sum (v :: vs) /
                   inject_Z (Z.of_nat (List.length (v :: vs)))) 10 = false).
    { destruct (Qlt_bool _ 10) eqn:E; [|reflexivity].
      apply Qlt_bool_iff in E. exfalso. exact (Qlt_not_le _ _ E Havg). }
    rewrite E. cbn [andb]. intros r.
    destruct (_ || _); [|discriminate]. intros H. now injection H as <-.
  - assert (Havg := average_above 90 v vs Hall).
    assert (E1 : Qlt_bool
                   (py_sum (v :: vs) /
                    inject_Z (Z.of_nat (List.length (v :: vs)))) 10 = false).
    { destruct (Qlt_bool _ 10) eqn:E; [|reflexivity].
      apply Qlt_bool_iff in E. exfalso.
      apply (Qlt_irrefl 90). eapply Qlt_trans; [exact Havg|].
      eapply Qlt_trans; [exact E|reflexivity]. }
    assert (E2 : Qlt_bool 80
                   (py_sum (v :: vs) /
                    inject_Z (Z.of_nat (List.length (v :: vs)))) = true).
    { apply Qlt_bool_iff. eapply Qlt_trans; [|exact Havg]. reflexivity. }
    rewrite E1, E2. reflexivity.
Qed.

Lemma datapoints_decide_the_action_witness :
  (fun _ _ => Ok [95; 91; 99]) "i-0abc" "CPUUtilization"
    = (Ok [95; 91; 99] : Result (list Q)) /\
  RightSizing.generate_ec2_recommendation "i-0abc" "m5.large"
    (RightSizing.get_instance_metrics (fun _ _ => Ok [95; 91; 99]) "i-0abc") =
  Some {| RightSizing.instance_id := "i-0abc";
          RightSizing.current_type := "m5.large";
          RightSizing.action := RightSizing.UPSIZE;
          RightSizing.priority := RightSizing.HIGH |}.
Proof.
  split; [reflexivity|].
  apply (proj2 (datapoints_decide_the_action (fun _ _ => Ok [95; 91; 99])
                  "i-0abc" "m5.large" 95 [91; 99] eq_refl)).
  intros x [<-|[<-|[<-|[]]]]; reflexivity.
Defined.

(** ** Right-sizing: the suggested instance type *)

Lemma prefix_before_separator (sep : Ascii.ascii) (tail : string) :
  forall (family old : string),
    PyStr.lacks sep old = true ->
    old <> EmptyString ->
    String.prefix old (family ++ String sep tail) = String.prefix old family.
Proof.
  induction family as [|a family IH]; intros old Hlacks Hne.
  - destruct old as [|c old]; [contradiction|]. simpl in *.
    apply andb_true_iff in Hlacks. destruct Hlacks as (Hc & _).
    apply negb_true_iff in Hc.
    destruct (Ascii.ascii_dec c sep) as [->|Hd]; [|reflexivity].
    now rewrite Ascii.eqb_refl in Hc.
  - destruct old as [|c old]; [contradiction|]. simpl in *.
    apply andb_true_iff in Hlacks. destruct Hlacks as (_ & Hold).
    destruct (Ascii.ascii_dec c a); [|reflexivity].
    destruct old as [|c' old].
    + now destruct family.
    + apply IH; [exact Hold|discriminate].
Qed.

Lemma contains_before_separator (sep : Ascii.ascii) (tail old : string) :
  PyStr.lacks sep old = true ->
  old <> EmptyString ->
  forall family,
    PyStr.contains old (family ++ String sep tail) =
    PyStr.contains old family || PyStr.contains old (String sep tail).
Proof.
  intros Hlacks Hne. induction family as [|a family IH].
  - destruct old; [contradiction|]. reflexivity.
  - change (String a family ++ String sep tail)%string
      with (String a (family ++ String sep tail)).
    cbn [PyStr.contains]. rewrite IH.
    change (String a (family ++ String sep tail))
      with (String a family ++ String sep tail)%string.
    rewrite (prefix_before_separator sep tail (String a family) old Hlacks Hne).
    now rewrite orb_assoc.
Qed.

Lemma replace_before_separator (sep : Ascii.ascii) (tail old new : string) :
  PyStr.lacks sep old = true ->
  old <> EmptyString ->
  forall family,
    PyStr.contains old family = false ->
    PyStr.replace old new (family ++ String sep tail) =
    (family ++ PyStr.replace old new (String sep tail))%string.
Proof.
  intros Hlacks Hne. unfold PyStr.replace.
  induction family as [|a family IH]; intros Hno; [reflexivity|].
  cbn [PyStr.contains] in Hno. apply orb_false_iff in Hno.
  destruct Hno as (Hpre & Hrest).
  change (String a family ++ String sep tail)%string
    with (String a (family ++ String sep tail)).
  cbn [PyStr.replace_from].
  change (String a (family ++ String sep tail))
    with (String a family ++ String sep tail)%string.
  rewrite (prefix_before_separator sep tail (String a family) old Hlacks Hne).
  rewrite Hpre. cbn [append]. now rewrite IH.
Qed.

Lemma prefix_contains sub s :
  String.prefix sub s = true -> PyStr.contains sub s = true.
Proof.
  destruct s as [|a s]; cbn [PyStr.contains]; intros H; [exact H|].
  now rewrite H.
Qed.

Lemma contains_tail c sub s :
  PyStr.contains (String c sub) s = true -> PyStr.contains sub s = true.
Proof.
  induction s as [|a s IH]; cbn [PyStr.contains].
  - simpl. discriminate.
  - intros H. apply orb_true_iff in H. apply orb_true_iff. right.
    destruct H as [H|H]; [|now apply IH].
    simpl in H. destruct (Ascii.ascii_dec c a); [|discriminate].
    now apply prefix_contains.
Qed.

(** X10. For an instance type [<family>.xlarge] whose family part contains
    none of the words "small", "medium", "large":
    [suggest_smaller_instance] gives [<family>.large], but
    [suggest_larger_instance] gives [<family>.xxlarge], which is not an
    instance size: "large" is tried before "xlarge" and matches inside
    it.  A type in which none of the size words occurs is returned
    unchanged by both. *)
Theorem suggested_type_for_xlarge :
  forall family : string,
    PyStr.contains "small" family = false ->
    PyStr.contains "medium" family = false ->
    PyStr.contains "large" family = false ->
    InstanceTypes.suggest_smaller_instance (family ++ ".xlarge") =
      (family ++ ".large")%string /\
    InstanceTypes.suggest_larger_instance (family ++ ".xlarge") =
      (family ++ ".xxlarge")%string /\
    InstanceTypes.suggest_smaller_instance family = family /\
    InstanceTypes.suggest_larger_instance family = family.
Proof.
  intros family Hs Hm Hl.
  assert (Hx : PyStr.contains "xlarge" family = false).
  { destruct (PyStr.contains "xlarge" family) eqn:E; [|reflexivity].
    apply contains_tail in E. congruence. }
  assert (H2 : PyStr.contains "2xlarge" family = false).
  { destruct (PyStr.contains "2xlarge" family) eqn:E; [|reflexivity].
    apply contains_tail in E. congruence. }
  unfold InstanceTypes.suggest_smaller_instance,
    InstanceTypes.suggest_larger_instance.
  cbn [InstanceTypes.suggest].
  rewrite Hs, Hm, Hl, Hx, H2.
  change ".xlarge" with (String "."%char "xlarge").
  rewrite !contains_before_separator by (reflexivity || discriminate).
  rewrite Hs, Hm, Hl, Hx, H2. cbn [orb].
  change (PyStr.contains "2xlarge" (String "." "xlarge")) with false.
  change (PyStr.contains "xlarge" (String "." "xlarge")) with true.
  change (PyStr.contains "small" (String "." "xlarge")) with false.
  change (PyStr.contains "medium" (String "." "xlarge")) with false.
  change (PyStr.contains "large" (String "." "xlarge")) with true.
  cbv iota.
  rewrite !replace_before_separator by (reflexivity || discriminate || assumption).
  repeat split.
Qed.

Lemma suggested_type_for_xlarge_witness :
  PyStr.contains "small" "m5" = false /\
  PyStr.contains "medium" "m5" = false /\
  PyStr.contains "large" "m5" = false /\
  InstanceTypes.suggest_larger_instance "m5.xlarge" = "m5.xxlarge".
Proof.
  repeat (split; [reflexivity|]).
  apply (suggested_type_for_xlarge "m5"); reflexivity.
Defined.

(** ** Right-sizing: the summary of the report *)

Lemma analyze_length cloudwatch instances :
  (List.length (RightSizing.analyze_ec2_instances cloudwatch instances)
   <= List.length instances)%nat.
Proof.
  induction instances as [|[id type] rest IH]; simpl; [lia|].
  destruct (RightSizing.generate_ec2_recommendation _ _ _); simpl; lia.
Qed.

Lemma actions_partition (recs : list RightSizing.Recommendation) :
  (List.length (filter InstanceTypes.is_downsize recs) +
   List.length (filter InstanceTypes.is_upsize recs))%nat = List.length recs.
Proof.
  induction recs as [|r recs IH]; simpl; [reflexivity|].
  unfold InstanceTypes.is_downsize, InstanceTypes.is_upsize in *.
  destruct (RightSizing.action r); simpl; lia.
Qed.

Lemma analyze_none cloudwatch instances :
  (forall id type, In (id, type) instances ->
     RightSizing.generate_ec2_recommendation id type
       (RightSizing.get_instance_metrics cloudwatch id) = None) ->
  RightSizing.analyze_ec2_instances cloudwatch instances = [].
Proof.
  induction instances as [|[id type] rest IH]; intros H; simpl; [reflexivity|].
  rewrite (H id type) by now left.
  apply IH. intros id' type' Hin. apply H. now right.
Qed.

(** X11. In the right-sizing report, [total_analyzed] is the number of
    recommendations, not of instances examined: it equals the downsize
    count plus the upsize count, never exceeds the number of running
    instances, and is 0 when no instance gets a recommendation, however
    many were examined.  The estimated savings are 50 per downsize. *)
Theorem summary_counts_recommendations :
  forall (cloudwatch : RightSizing.CloudWatch)
         (instances : list (string * string)),
    let summary := snd (InstanceTypes.generate_report cloudwatch instances) in
    InstanceTypes.total_analyzed summary =
      List.length (fst (InstanceTypes.generate_report cloudwatch instances)) /\
    InstanceTypes.total_analyzed summary =
      (InstanceTypes.downsize_opportunities summary +
       InstanceTypes.upsize_needed summary)%nat /\
    (InstanceTypes.total_analyzed summary <= List.length instances)%nat /\
    InstanceTypes.estimated_savings summary =
      (50 * InstanceTypes.downsize_opportunities summary)%nat /\
    ((forall id type, In (id, type) instances ->
        RightSizing.generate_ec2_recommendation id type
          (RightSizing.get_instance_metrics cloudwatch id) = None) ->
     InstanceTypes.total_analyzed summary = 0%nat).
Proof.
  intros cloudwatch instances summary. subst summary.
  unfold InstanceTypes.generate_report.
  cbn [fst snd InstanceTypes.total_analyzed
       InstanceTypes.downsize_opportunities InstanceTypes.upsize_needed
       InstanceTypes.estimated_savings].
  split; [reflexivity|]. split; [now rewrite actions_partition|].
  split; [apply analyze_length|]. split; [lia|].
  intros H. now rewrite (analyze_none _ _ H).
Qed.

Lemma summary_counts_recommendations_witness :
  (forall id type, In (id, type) [("i-1", "m5.large"); ("i-2", "t3.small")] ->
     RightSizing.generate_ec2_recommendation id type
       (RightSizing.get_instance_metrics (fun _ _ => Ok [50]) id) = None) /\
  InstanceTypes.total_analyzed
    (snd (InstanceTypes.generate_report (fun _ _ => Ok [50])
            [("i-1", "m5.large"); ("i-2", "t3.small")])) = 0%nat.
Proof.
  assert (H : forall id type,
    In (id, type) [("i-1", "m5.large"); ("i-2", "t3.small")] ->
    RightSizing.generate_ec2_recommendation id type
      (RightSizing.get_instance_metrics (fun _ _ => Ok [50]) id) = None).
  { intros id type _. reflexivity. }
  split; [exact H|].
  apply (summary_counts_recommendations (fun _ _ => Ok [50])
           [("i-1", "m5.large"); ("i-2", "t3.small")]).
  exact H.
Defined.

(** ** Cost optimizer: listing, releasing and tagging *)

Section CostOptimizerMore.
Context {World : Type} (ec2 : EC2.Client World).

Lemma find_unattached_volumes_run now min st :
  CostOptimizer.find_unattached_volumes ec2 now min st =
  let (response, w) := EC2.describe_volumes ec2 (EC2.world st) in
  (Ok match response with
      | Raise _ => []
      | Ok volumes =>
        flat_map
          (fun volume =>
             if (min <=? CostOptimizer.days (now - EC2.CreateTime volume))%Z
             then [{| CostOptimizer.vi_VolumeId := EC2.VolumeId volume;
                      CostOptimizer.vi_Size := EC2.Size volume;
                      CostOptimizer.vi_AgeDays :=
                        CostOptimizer.days (now - EC2.CreateTime volume);
                      CostOptimizer.vi_MonthlyCost :=
                        round2 (inject_Z (EC2.Size volume) * (8 # 100)) |}]
             else []) volumes
      end,
   {| EC2.world := w;
      EC2.calls := EC2.calls st ++
        [EC2.ev EC2.DescribeVolumes (EC2.is_ok response)] |}).
Proof.
  unfold CostOptimizer.find_unattached_volumes, EC2.try_except, EC2.bind,
    EC2.invoke, EC2.ret, EC2.ev.
  destruct (EC2.describe_volumes ec2 (EC2.world st)) as [[l|e] w];
    reflexivity.
Qed.

Lemma find_orphaned_eips_run st :
  CostOptimizer.find_orphaned_eips ec2 st =
  let (response, w) := EC2.describe_addresses ec2 (EC2.world st) in
  (Ok match response with
      | Raise _ => []
      | Ok addresses => CostOptimizer.collect_orphaned addresses []
      end,
   {| EC2.world := w;
      EC2.calls := EC2.calls st ++
        [EC2.ev EC2.DescribeAddresses (EC2.is_ok response)] |}).
Proof.
  unfold CostOptimizer.find_orphaned_eips, EC2.try_except, EC2.bind,
    EC2.invoke, EC2.ret, EC2.ev.
  destruct (EC2.describe_addresses ec2 (EC2.world st)) as [[l|e] w];
    reflexivity.
Qed.

Lemma find_old_snapshots_run now days_old st :
  CostOptimizer.find_old_snapshots ec2 now days_old st =
  let (response, w) := EC2.describe_snapshots ec2 (EC2.world st) in
  (Ok match response with
      | Raise _ => []
      | Ok snapshots =>
        flat_map
          (fun snapshot =>
             if (EC2.StartTime snapshot <? now - days_old * 86400)%Z
             then [{| CostOptimizer.si_SnapshotId := EC2.SnapshotId snapshot;
                      CostOptimizer.si_VolumeSize := EC2.VolumeSize snapshot;
                      CostOptimizer.si_MonthlyCost :=
                        round2 (inject_Z (EC2.VolumeSize snapshot) * (5 # 100)) |}]
             else []) snapshots
      end,
   {| EC2.world := w;
      EC2.calls := EC2.calls st ++
        [EC2.ev EC2.DescribeSnapshots (EC2.is_ok response)] |}).
Proof.
  unfold CostOptimizer.find_old_snapshots, EC2.try_except, EC2.bind,
    EC2.invoke, EC2.ret, EC2.ev.
  destruct (EC2.describe_snapshots ec2 (EC2.world st)) as [[l|e] w];
    reflexivity.
Qed.

(** One live step of the release loop. *)
Lemma release_eip_step_live eip results st :
  CostOptimizer.release_eip_step ec2 false eip results st =
  let (response, w) :=
    EC2.release_address ec2 (CostOptimizer.ei_AllocationId eip) (EC2.world st) in
  (Ok match response with
      | Ok _ =>
        {| CostOptimizer.released :=
             CostOptimizer.released results ++ [CostOptimizer.ei_PublicIp eip];
           CostOptimizer.eip_failed := CostOptimizer.eip_failed results;
           CostOptimizer.eip_total_savings :=
             CostOptimizer.eip_total_savings results +
             CostOptimizer.ei_MonthlyCost eip |}
      | Raise e =>
        {| CostOptimizer.released := CostOptimizer.released results;
           CostOptimizer.eip_failed := CostOptimizer.eip_failed results ++
             [{| CostOptimizer.resource := CostOptimizer.ei_PublicIp eip;
                 CostOptimizer.Error := str_exn e |}];
           CostOptimizer.eip_total_savings :=
             CostOptimizer.eip_total_savings results |}
      end,
   {| EC2.world := w;
      EC2.calls := EC2.calls st ++
        [EC2.ev (EC2.ReleaseAddress (CostOptimizer.ei_AllocationId eip))
           (EC2.is_ok response)] |}).
Proof.
  unfold CostOptimizer.release_eip_step, EC2.try_except, EC2.bind,
    EC2.invoke, EC2.ret, EC2.ev.
  destruct (EC2.release_address ec2 _ (EC2.world st)) as [[u|e] w];
    reflexivity.
Qed.

Lemma archive_step_run snapshot results st :
  CostOptimizer.archive_step ec2 snapshot results st =
  let (response, w) :=
    EC2.create_tags ec2 (CostOptimizer.si_SnapshotId snapshot) (EC2.world st) in
  (Ok match response with
      | Ok _ =>
        {| CostOptimizer.tagged :=
             CostOptimizer.tagged results ++
             [CostOptimizer.si_SnapshotId snapshot];
           CostOptimizer.snapshot_failed :=
             CostOptimizer.snapshot_failed results |}
      | Raise e =>
        {| CostOptimizer.tagged := CostOptimizer.tagged results;
           CostOptimizer.snapshot_failed :=
             CostOptimizer.snapshot_failed results ++
             [{| CostOptimizer.resource := CostOptimizer.si_SnapshotId snapshot;
                 CostOptimizer.Error := str_exn e |}] |}
      end,
   {| EC2.world := w;
      EC2.calls := EC2.calls st ++
        [EC2.ev (EC2.CreateTags (CostOptimizer.si_SnapshotId snapshot))
           (EC2.is_ok response)] |}).
Proof.
  unfold CostOptimizer.archive_step, EC2.try_except, EC2.bind,
    EC2.invoke, EC2.ret, EC2.ev.
  destruct (EC2.create_tags ec2 _ (EC2.world st)) as [[u|e] w];
    reflexivity.
Qed.

(** The live release loop: one call per address; the addresses whose call
    succeeded are the released ones. *)
Lemma release_loop_live :
  forall eips results st,
    exists results' w new,
      EC2.for_each eips (CostOptimizer.release_eip_step ec2 false) results st
      = (Ok results', {| EC2.world := w; EC2.calls := EC2.calls st ++ new |}) /\
      map EC2.call new =
        map (fun eip => EC2.ReleaseAddress (CostOptimizer.ei_AllocationId eip))
          eips /\
      CostOptimizer.released results' =
        CostOptimizer.released results ++
        map (fun p => CostOptimizer.ei_PublicIp (fst p))
          (filter (fun p => EC2.succeeded (snd p)) (combine eips new)) /\
      CostOptimizer.eip_total_savings results' =
        fold_left Qplus
          (map (fun p => CostOptimizer.ei_MonthlyCost (fst p))
             (filter (fun p => EC2.succeeded (snd p)) (combine eips new)))
          (CostOptimizer.eip_total_savings results) /\
      (List.length (CostOptimizer.released results') +
       List.length (CostOptimizer.eip_failed results') =
       List.length (CostOptimizer.released results) +
       List.length (CostOptimizer.eip_failed results) +
       List.length eips)%nat.
Proof.
  induction eips as [|eip rest IH]; intros results st.
  - exists results, (EC2.world st), []. simpl. rewrite !app_nil_r.
    repeat split; auto. now destruct st.
  - cbn [EC2.for_each]. unfold EC2.bind. rewrite release_eip_step_live.
    destruct (EC2.release_address ec2 _ (EC2.world st)) as [[u|e] w];
      match goal with |- context [EC2.for_each rest _ ?r ?s] =>
        destruct (IH r s)
          as (results' & w' & new & Hrun & Hcalls & Hrel & Htot & Hlen)
      end; rewrite Hrun; cbn [EC2.calls EC2.is_ok] in *;
      cbn [CostOptimizer.released CostOptimizer.eip_failed
           CostOptimizer.eip_total_savings] in *.
    + eexists results', w', (_ :: new). split; [now rewrite <- app_assoc|].
      cbn [map combine filter EC2.succeeded EC2.ev snd fst EC2.call].
      split; [now rewrite Hcalls|]. split; [|split].
      * rewrite Hrel, <- app_assoc. reflexivity.
      * exact Htot.
      * rewrite length_app in Hlen. simpl in Hlen. simpl. lia.
    + eexists results', w', (_ :: new). split; [now rewrite <- app_assoc|].
      cbn [map combine filter EC2.succeeded EC2.ev snd fst EC2.call].
      split; [now rewrite Hcalls|]. split; [|split].
      * exact Hrel.
      * exact Htot.
      * rewrite length_app in Hlen. simpl in Hlen. simpl. lia.
Qed.

Lemma release_loop_dry :
  forall eips results st,
    EC2.for_each eips (CostOptimizer.release_eip_step ec2 true) results st
    = (Ok {| CostOptimizer.released :=
               CostOptimizer.released results ++
               map CostOptimizer.ei_PublicIp eips;
             CostOptimizer.eip_failed := CostOptimizer.eip_failed results;
             CostOptimizer.eip_total_savings :=
               fold_left Qplus (map CostOptimizer.ei_MonthlyCost eips)
                 (CostOptimizer.eip_total_savings results) |}, st).
Proof.
  induction eips as [|eip rest IH]; intros results st.
  - simpl. rewrite app_nil_r. now destruct results.
  - cbn [EC2.for_each]. unfold EC2.bind.
    cbn [CostOptimizer.release_eip_step EC2.ret].
    rewrite IH. cbn. now rewrite <- app_assoc.
Qed.

Lemma archive_loop :
  forall snapshots results st,
    exists results' w new,
      EC2.for_each snapshots (CostOptimizer.archive_step ec2) results st
      = (Ok results', {| EC2.world := w; EC2.calls := EC2.calls st ++ new |}) /\
      map EC2.call new =
        map (fun s => EC2.CreateTags (CostOptimizer.si_SnapshotId s))
          snapshots /\
      CostOptimizer.tagged results' =
        CostOptimizer.tagged results ++
        map (fun p => CostOptimizer.si_SnapshotId (fst p))
          (filter (fun p => EC2.succeeded (snd p)) (combine snapshots new)) /\
      (List.length (CostOptimizer.tagged results') +
       List.length (CostOptimizer.snapshot_failed results') =
       List.length (CostOptimizer.tagged results) +
       List.length (CostOptimizer.snapshot_failed results) +
       List.length snapshots)%nat.
Proof.
  induction snapshots as [|snapshot rest IH]; intros results st.
  - exists results, (EC2.world st), []. simpl. rewrite !app_nil_r.
    repeat split; auto. now destruct st.
  - cbn [EC2.for_each]. unfold EC2.bind. rewrite archive_step_run.
    destruct (EC2.create_tags ec2 _ (EC2.world st)) as [[u|e] w];
      match goal with |- context [EC2.for_each rest _ ?r ?s] =>
        destruct (IH r s) as (results' & w' & new & Hrun & Hcalls & Htag & Hlen)
      end; rewrite Hrun; cbn [EC2.calls EC2.is_ok] in *;
      cbn [CostOptimizer.tagged CostOptimizer.snapshot_failed] in *.
    + eexists results', w', (_ :: new). split; [now rewrite <- app_assoc|].
      cbn [map combine filter EC2.succeeded EC2.ev snd fst EC2.call].
      split; [now rewrite Hcalls|]. split.
      * rewrite Htag, <- app_assoc. reflexivity.
      * rewrite length_app in Hlen. simpl in Hlen. simpl. lia.
    + eexists results', w', (_ :: new). split; [now rewrite <- app_assoc|].
      cbn [map combine filter EC2.succeeded EC2.ev snd fst EC2.call].
      split; [now rewrite Hcalls|]. split.
      * exact Htag.
      * rewrite length_app in Hlen. simpl in Hlen. simpl. lia.
Qed.

End CostOptimizerMore.

Lemma guarded_after_app l1 :
  forall previous l2,
    EC2.snapshot_guarded_after previous l1 = true ->
    (forall p, EC2.snapshot_guarded_after p l2 = true) ->
    EC2.snapshot_guarded_after previous (l1 ++ l2) = true.
Proof.
  induction l1 as [|e l1 IH]; intros previous l2 H1 H2; [apply H2|].
  cbn [app EC2.snapshot_guarded_after] in *.
  apply andb_true_iff in H1. destruct H1 as (He & Hrest).
  rewrite He. cbn [andb]. now apply IH.
Qed.

Lemma guarded_everywhere_app l1 l2 :
  (forall p, EC2.snapshot_guarded_after p l1 = true) ->
  (forall p, EC2.snapshot_guarded_after p l2 = true) ->
  forall p, EC2.snapshot_guarded_after p (l1 ++ l2) = true.
Proof.
  intros H1 H2 p. apply guarded_after_app; auto.
Qed.

Lemma guarded_without_delete l :
  (forall e v, In e l -> EC2.call e <> EC2.DeleteVolume v) ->
  forall p, EC2.snapshot_guarded_after p l = true.
Proof.
  induction l as [|e l IH]; intros H p; [reflexivity|].
  cbn [EC2.snapshot_guarded_after].
  rewrite IH by (intros e' v Hin; apply H; now right).
  rewrite andb_true_r.
  destruct (EC2.call e) eqn:E; try reflexivity.
  exfalso. apply (H e volume_id); [now left|exact E].
Qed.

Lemma calls_from_map (f : string -> EC2.Call) {A} (g : A -> string)
    (xs : list A) (new : list EC2.Event) :
  map EC2.call new = map (fun x => f (g x)) xs ->
  forall e, In e new -> exists a, EC2.call e = f a.
Proof.
  revert xs. induction new as [|e0 new IH]; intros xs H e Hin; [contradiction|].
  destruct xs as [|x xs]; [discriminate|]. simpl in H.
  injection H as H0 Hrest. destruct Hin as [<-|Hin].
  - now exists (g x).
  - now apply (IH xs).
Qed.

Section HandlerFacts.
Context {World : Type} (ec2 : EC2.Client World).

Lemma delete_volumes_any_mode DRY_RUN volumes st :
  exists results w new,
    CostOptimizer.delete_unattached_volumes ec2 DRY_RUN volumes st
    = (Ok results, {| EC2.world := w; EC2.calls := EC2.calls st ++ new |}) /\
    (forall p, EC2.snapshot_guarded_after p new = true) /\
    (DRY_RUN = true -> new = []).
Proof.
  unfold CostOptimizer.delete_unattached_volumes. destruct DRY_RUN.
  - rewrite dry_run_loop_is_silent. eexists. exists (EC2.world st), [].
    rewrite app_nil_r. destruct st. repeat split; auto.
  - destruct (live_loop_guarded ec2 volumes
                {| CostOptimizer.deleted := []; CostOptimizer.failed := [];
                   CostOptimizer.total_savings := 0 |} st)
      as (results & w & new & Hrun & Hg & _).
    exists results, w, new. repeat split; auto. discriminate.
Qed.

Lemma release_eips_any_mode DRY_RUN eips st :
  exists results w new,
    CostOptimizer.release_orphaned_eips ec2 DRY_RUN eips st
    = (Ok results, {| EC2.world := w; EC2.calls := EC2.calls st ++ new |}) /\
    (forall e, In e new -> exists a, EC2.call e = EC2.ReleaseAddress a) /\
    (DRY_RUN = true -> new = []).
Proof.
  unfold CostOptimizer.release_orphaned_eips. destruct DRY_RUN.
  - rewrite release_loop_dry. eexists. exists (EC2.world st), [].
    rewrite app_nil_r. destruct st. repeat split; auto. intros e [].
  - destruct (release_loop_live ec2 eips
                {| CostOptimizer.released := [];
                   CostOptimizer.eip_failed := [];
                   CostOptimizer.eip_total_savings := 0 |} st)
      as (results & w & new & Hrun & Hcalls & _).
    exists results, w, new. repeat split; auto; [|discriminate].
    exact (calls_from_map EC2.ReleaseAddress _ _ _ Hcalls).
Qed.

Lemma archive_any snapshots st :
  exists results w new,
    CostOptimizer.archive_old_snapshots ec2 snapshots st
    = (Ok results, {| EC2.world := w; EC2.calls := EC2.calls st ++ new |}) /\
    (forall e, In e new -> exists s, EC2.call e = EC2.CreateTags s).
Proof.
  unfold CostOptimizer.archive_old_snapshots.
  destruct (archive_loop ec2 snapshots
              {| CostOptimizer.tagged := [];
                 CostOptimizer.snapshot_failed := [] |} st)
    as (results & w & new & Hrun & Hcalls & _).
  exists results, w, new. split; [exact Hrun|].
  exact (calls_from_map EC2.CreateTags _ _ _ Hcalls).
Qed.

(** The shape of the log of the reclamation steps. *)
Lemma reclaim_log DRY_RUN min now st :
  exists reclaimed w ok1 n1 ok2 n2 ok3 n3,
    CostOptimizer.reclaim ec2 DRY_RUN min now st =
    (Ok reclaimed,
     {| EC2.world := w;
        EC2.calls := EC2.calls st ++
          (EC2.ev EC2.DescribeVolumes ok1 :: n1) ++
          (EC2.ev EC2.DescribeAddresses ok2 :: n2) ++
          (EC2.ev EC2.DescribeSnapshots ok3 :: n3) |}) /\
    (forall p, EC2.snapshot_guarded_after p n1 = true) /\
    (DRY_RUN = true -> n1 = []) /\
    (forall e, In e n2 -> exists a, EC2.call e = EC2.ReleaseAddress a) /\
    (DRY_RUN = true -> n2 = []) /\
    (forall e, In e n3 -> exists s, EC2.call e = EC2.CreateTags s).
Proof.
  unfold CostOptimizer.reclaim.
  unfold EC2.bind at 1. rewrite find_unattached_volumes_run.
  destruct (EC2.describe_volumes ec2 (EC2.world st)) as [r1 w1].
  unfold EC2.bind at 1.
  match goal with |- context [CostOptimizer.delete_unattached_volumes _ _ ?v ?s] =>
    destruct (delete_volumes_any_mode DRY_RUN v s)
      as (vr & w2 & n1 & -> & Hg1 & Hd1)
  end.
  unfold EC2.bind at 1. rewrite find_orphaned_eips_run. cbn [EC2.world].
  destruct (EC2.describe_addresses ec2 w2) as [r2 w3].
  unfold EC2.bind at 1.
  match goal with |- context [CostOptimizer.release_orphaned_eips _ _ ?v ?s] =>
    destruct (release_eips_any_mode DRY_RUN v s)
      as (er & w4 & n2 & -> & Hc2 & Hd2)
  end.
  unfold EC2.bind at 1. rewrite find_old_snapshots_run. cbn [EC2.world].
  destruct (EC2.describe_snapshots ec2 w4) as [r3 w5].
  unfold EC2.bind at 1.
  match goal with |- context [CostOptimizer.archive_old_snapshots _ ?v ?s] =>
    destruct (archive_any v s) as (sr & w6 & n3 & -> & Hc3)
  end.
  unfold EC2.ret. cbn [EC2.calls].
  eexists _, w6, (EC2.is_ok r1), n1, (EC2.is_ok r2), n2, (EC2.is_ok r3), n3.
  split; [|repeat split; assumption].
  f_equal. f_equal. rewrite <- !app_assoc. reflexivity.
Qed.

(** [find_untagged_resources] lists the instances and, if that listing
    succeeded, the volumes; it never raises. *)
Lemma find_untagged_resources_log st :
  exists untagged w ok4 volumes,
    CostOptimizer.find_untagged_resources ec2 st =
    (Ok untagged,
     {| EC2.world := w;
        EC2.calls := EC2.calls st ++
          EC2.ev EC2.DescribeInstances ok4 :: volumes |}) /\
    (ok4 = true -> exists ok, volumes = [EC2.ev EC2.DescribeAllVolumes ok]) /\
    (ok4 = false -> volumes = []).
Proof.
  unfold CostOptimizer.find_untagged_resources, EC2.invoke, EC2.ev.
  destruct (EC2.describe_instances ec2 (EC2.world st)) as [[rs|e] w1];
    cbn [EC2.is_ok EC2.world EC2.calls].
  - destruct (EC2.describe_all_volumes ec2 w1) as [r2 w2].
    eexists _, w2, true, [_]. split.
    + rewrite <- app_assoc. reflexivity.
    + split; [|discriminate]. intros _. now exists (EC2.is_ok r2).
  - eexists _, w1, false, []. split; [reflexivity|].
    split; [discriminate|reflexivity].
Qed.

Section WithServices.
Variable py_sum : list float -> float.
Variable round2 : float -> float.
Variable cloudwatch_client : string -> Result (list float).
Variable sns_client : CostOptimizer.Report -> Result unit.

(** The loop over the instances never raises and leaves the account as it
    is; it only queries CloudWatch; what it adds to the list are instances
    of its input for which CloudWatch answered datapoints with an average
    below 10. *)
Lemma utilization_loop_run instances :
  forall found (st : EC2.Cloud World),
    exists found' metrics,
      CostOptimizer.utilization_loop py_sum round2 cloudwatch_client
        instances found st =
      (Ok found',
       {| EC2.world := EC2.world st;
          EC2.calls := EC2.calls st ++ metrics |}) /\
      (forall e, In e metrics ->
         exists i, EC2.call e = EC2.GetMetricStatistics i) /\
      (forall u, In u found' ->
         In u found \/
         In (CostOptimizer.InstanceId u, CostOptimizer.InstanceType u)
            instances /\
         exists datapoints,
           cloudwatch_client (CostOptimizer.InstanceId u) = Ok datapoints /\
           datapoints <> [] /\
           (py_sum datapoints / Binary64.of_nat (List.length datapoints)
              <? 10)%float = true /\
           CostOptimizer.AvgCpuUtilization u =
             round2 (py_sum datapoints /
                     Binary64.of_nat (List.length datapoints))%float).
Proof.
  induction instances as [|[id type] rest IH]; intros found st.
  - exists found, []. cbn. unfold EC2.ret. rewrite app_nil_r.
    split; [now destruct st|]. split; [intros e []|]. intros u Hu. now left.
  - cbn [CostOptimizer.utilization_loop]. unfold EC2.invoke.
    cbn [EC2.world EC2.calls].
    destruct (cloudwatch_client id) as [[|v vs]|e] eqn:Hcpu;
      cbn [EC2.is_ok].
    + match goal with |- context [CostOptimizer.utilization_loop _ _ _ rest ?f ?s] =>
        destruct (IH f s) as (found' & metrics & Hrun & Hcalls & Hsound)
      end.
      rewrite Hrun. cbn [EC2.world EC2.calls].
      exists found', (EC2.ev (EC2.GetMetricStatistics id) true :: metrics).
      split; [now rewrite <- app_assoc|]. split.
      * intros e [<-|He]; [now exists id|now apply Hcalls].
      * intros u Hu. destruct (Hsound u Hu) as [H|(Hin & H)]; [now left|].
        right. split; [now right|exact H].
    + destruct (Binary64.py_div _ _) as [avg|e] eqn:Hdiv.
      * match goal with |- context [CostOptimizer.utilization_loop _ _ _ rest ?f ?s] =>
          destruct (IH f s) as (found' & metrics & Hrun & Hcalls & Hsound)
        end.
        rewrite Hrun. cbn [EC2.world EC2.calls].
        exists found', (EC2.ev (EC2.GetMetricStatistics id) true :: metrics).
        split; [now rewrite <- app_assoc|]. split.
        -- intros e [<-|He]; [now exists id|now apply Hcalls].
        -- intros u Hu. destruct (Hsound u Hu) as [H|(Hin & H)].
           ++ destruct (avg <? 10)%float eqn:Havg; [|now left].
              apply in_app_iff in H. destruct H as [H|[<-|[]]]; [now left|].
              right. cbn [CostOptimizer.InstanceId CostOptimizer.InstanceType
                          CostOptimizer.AvgCpuUtilization].
              split; [now left|]. exists (v :: vs).
              unfold Binary64.py_div in Hdiv.
              destruct (_ =? 0)%float; [discriminate|].
              injection Hdiv as <-.
              split; [exact Hcpu|]. split; [discriminate|].
              split; [exact Havg|reflexivity].
           ++ right. split; [now right|exact H].
      * exists found, [EC2.ev (EC2.GetMetricStatistics id) true].
        split; [reflexivity|]. split.
        -- intros e' [<-|[]]. now exists id.
        -- intros u Hu. now left.
    + exists found, [EC2.ev (EC2.GetMetricStatistics id) false].
      split; [reflexivity|]. split.
      * intros e' [<-|[]]. now exists id.
      * intros u Hu. now left.
Qed.

(** What the loop finds does not depend on the log, and a query that
    raises cuts the loop: the instance and those after it are not
    looked at. *)
Lemma utilization_loop_value instances :
  forall found (st st0 : EC2.Cloud World),
    fst (CostOptimizer.utilization_loop py_sum round2 cloudwatch_client
           instances found st) =
    fst (CostOptimizer.utilization_loop py_sum round2 cloudwatch_client
           instances found st0).
Proof.
  induction instances as [|[id type] rest IH]; intros found st st0;
    [reflexivity|].
  cbn [CostOptimizer.utilization_loop]. unfold EC2.invoke.
  destruct (cloudwatch_client id) as [[|v vs]|e]; cbn [fst];
    [apply IH| |reflexivity].
  destruct (Binary64.py_div _ _); [apply IH|reflexivity].
Qed.

Lemma utilization_loop_cut before :
  forall id type after found (st : EC2.Cloud World) e,
    cloudwatch_client id = Raise e ->
    fst (CostOptimizer.utilization_loop py_sum round2 cloudwatch_client
           (before ++ (id, type) :: after) found st) =
    fst (CostOptimizer.utilization_loop py_sum round2 cloudwatch_client
           before found st).
Proof.
  induction before as [|[i t] before IH]; intros id type after found st e Hcpu.
  - cbn [app CostOptimizer.utilization_loop]. unfold EC2.invoke.
    rewrite Hcpu. reflexivity.
  - cbn [app CostOptimizer.utilization_loop]. unfold EC2.invoke.
    destruct (cloudwatch_client i) as [[|v vs]|e'];
      [now apply IH with e| |reflexivity].
    destruct (Binary64.py_div _ _); [now apply IH with e|reflexivity].
Qed.

Lemma analyze_ec2_utilization_log st :
  exists found w ok5 metrics,
    CostOptimizer.analyze_ec2_utilization ec2 py_sum round2
      cloudwatch_client st =
    (Ok found,
     {| EC2.world := w;
        EC2.calls := EC2.calls st ++
          EC2.ev EC2.DescribeRunningInstances ok5 :: metrics |}) /\
    (forall e, In e metrics ->
       exists i, EC2.call e = EC2.GetMetricStatistics i).
Proof.
  unfold CostOptimizer.analyze_ec2_utilization, EC2.invoke.
  destruct (EC2.describe_running_instances ec2 (EC2.world st))
    as [[instances|e] w1]; cbn [EC2.is_ok].
  - match goal with |- context [CostOptimizer.utilization_loop _ _ _ _ ?f ?s] =>
      destruct (utilization_loop_run instances f s)
        as (found & metrics & Hrun & Hcalls & _)
    end.
    rewrite Hrun. cbn [EC2.world EC2.calls].
    exists found, w1, true, metrics. split; [|exact Hcalls].
    now rewrite <- app_assoc.
  - exists [], w1, false, []. split; [reflexivity|]. intros e' [].
Qed.

Lemma send_notification_log topic report (st : EC2.Cloud World) :
  exists publish,
    CostOptimizer.send_notification sns_client topic report st =
    (Ok tt,
     {| EC2.world := EC2.world st;
        EC2.calls := EC2.calls st ++ publish |}) /\
    (topic = EmptyString -> publish = []) /\
    (topic <> EmptyString -> exists ok, publish = [EC2.ev EC2.Publish ok]).
Proof.
  unfold CostOptimizer.send_notification.
  destruct topic as [|c topic].
  - exists []. unfold EC2.ret. rewrite app_nil_r.
    split; [now destruct st|]. split; [reflexivity|]. intros H. now elim H.
  - unfold EC2.try_except, EC2.invoke, EC2.ret. cbn [EC2.world EC2.calls].
    destruct (sns_client report) as [[]|e]; cbn [EC2.is_ok];
      eexists [_]; (split; [reflexivity|]);
      (split; [discriminate|]); intros _; eexists; reflexivity.
Qed.

(** The shape of the log of one run of the handler: it answers with
    status 200. *)
Lemma lambda_handler_log DRY_RUN min topic now st :
  exists summary w ok1 n1 ok2 n2 ok3 n3 ok4 volumes ok5 metrics publish,
    CostOptimizer.lambda_handler ec2 py_sum round2 cloudwatch_client
      sns_client DRY_RUN min topic now st =
    (Ok {| CostOptimizer.statusCode := 200;
           CostOptimizer.body := CostOptimizer.Completed summary |},
     {| EC2.world := w;
        EC2.calls := EC2.calls st ++
          (EC2.ev EC2.DescribeVolumes ok1 :: n1) ++
          (EC2.ev EC2.DescribeAddresses ok2 :: n2) ++
          (EC2.ev EC2.DescribeSnapshots ok3 :: n3) ++
          (EC2.ev EC2.DescribeInstances ok4 :: volumes) ++
          (EC2.ev EC2.DescribeRunningInstances ok5 :: metrics) ++
          publish |}) /\
    (forall p, EC2.snapshot_guarded_after p n1 = true) /\
    (DRY_RUN = true -> n1 = []) /\
    (forall e, In e n2 -> exists a, EC2.call e = EC2.ReleaseAddress a) /\
    (DRY_RUN = true -> n2 = []) /\
    (forall e, In e n3 -> exists s, EC2.call e = EC2.CreateTags s) /\
    (ok4 = true -> exists ok, volumes = [EC2.ev EC2.DescribeAllVolumes ok]) /\
    (ok4 = false -> volumes = []) /\
    (forall e, In e metrics ->
       exists i, EC2.call e = EC2.GetMetricStatistics i) /\
    (topic = EmptyString -> publish = []) /\
    (topic <> EmptyString -> exists ok, publish = [EC2.ev EC2.Publish ok]).
Proof.
  unfold CostOptimizer.lambda_handler, EC2.try_except.
  unfold EC2.bind at 1.
  destruct (reclaim_log DRY_RUN min now st)
    as (reclaimed & w1 & ok1 & n1 & ok2 & n2 & ok3 & n3
        & -> & Hg1 & Hd1 & Hc2 & Hd2 & Hc3).
  unfold EC2.bind at 1.
  match goal with |- context [CostOptimizer.find_untagged_resources _ ?s] =>
    destruct (find_untagged_resources_log s)
      as (untagged & w2 & ok4 & volumes & -> & Hv1 & Hv2)
  end.
  unfold EC2.bind at 1.
  match goal with |- context [CostOptimizer.analyze_ec2_utilization _ _ _ _ ?s] =>
    destruct (analyze_ec2_utilization_log s)
      as (found & w3 & ok5 & metrics & -> & Hm)
  end.
  cbv zeta. unfold EC2.bind at 1.
  match goal with |- context [CostOptimizer.send_notification _ ?t ?r ?s] =>
    destruct (send_notification_log t r s) as (publish & -> & Hp1 & Hp2)
  end.
  unfold EC2.ret. cbn [EC2.world EC2.calls].
  eexists _, w3, ok1, n1, ok2, n2, ok3, n3, ok4, volumes, ok5, metrics,
    publish.
  split; [|repeat split; assumption].
  f_equal. f_equal. rewrite <- !app_assoc. reflexivity.
Qed.

End WithServices.

End HandlerFacts.

(** X12. [find_unattached_volumes] makes exactly one call,
    [describe_volumes], and never raises.  If the call fails it reports no
    volume.  Otherwise a listed volume is reported iff its age in whole
    days is at least [MIN_DAYS_BEFORE_DELETE], with a monthly cost of 0.08
    per GB rounded to cents. *)
Theorem unattached_volumes_are_the_old_enough_ones :
  forall (World : Type) (ec2 : EC2.Client World) (now min : Z)
         (st : EC2.Cloud World),
    exists found response w,
      EC2.describe_volumes ec2 (EC2.world st) = (response, w) /\
      CostOptimizer.find_unattached_volumes ec2 now min st =
      (Ok found,
       {| EC2.world := w;
          EC2.calls := EC2.calls st ++
            [EC2.ev EC2.DescribeVolumes (EC2.is_ok response)] |}) /\
      match response with
      | Raise _ => found = []
      | Ok volumes =>
        forall info, In info found <->
          exists volume,
            In volume volumes /\
            (min <= (now - EC2.CreateTime volume) / 86400)%Z /\
            info =
              {| CostOptimizer.vi_VolumeId := EC2.VolumeId volume;
                 CostOptimizer.vi_Size := EC2.Size volume;
                 CostOptimizer.vi_AgeDays :=
                   ((now - EC2.CreateTime volume) / 86400)%Z;
                 CostOptimizer.vi_MonthlyCost :=
                   round2 (inject_Z (EC2.Size volume) * (8 # 100)) |}
      end.
Proof.
  intros World ec2 now min st.
  rewrite find_unattached_volumes_run.
  destruct (EC2.describe_volumes ec2 (EC2.world st)) as [[volumes|e] w].
  - eexists _, (Ok volumes), w. split; [reflexivity|].
    split; [reflexivity|]. intros info. rewrite in_flat_map.
    unfold CostOptimizer.days. split.
    + intros (volume & Hin & Hinfo).
      destruct (min <=? _)%Z eqn:E; [|contradiction].
      apply Z.leb_le in E. destruct Hinfo as [<-|[]].
      exists volume. repeat split; auto.
    + intros (volume & Hin & Hage & ->). exists volume. split; [exact Hin|].
      apply Z.leb_le in Hage. rewrite Hage. now left.
  - exists [], (Raise e), w. repeat split.
Qed.

(** X13. [release_orphaned_eips] never raises.  In dry-run mode it makes
    no call and lists every address as released, with the sum of their
    monthly costs.  In live mode it makes exactly one [release_address]
    call per address, in order; the released addresses are those whose
    call succeeded and only they count in the savings; every address ends
    up either released or failed. *)
Theorem eips_released_iff_call_succeeded :
  forall (World : Type) (ec2 : EC2.Client World)
         (eips : list CostOptimizer.EipInfo) (st : EC2.Cloud World),
    CostOptimizer.release_orphaned_eips ec2 true eips st =
      (Ok {| CostOptimizer.released := map CostOptimizer.ei_PublicIp eips;
             CostOptimizer.eip_failed := [];
             CostOptimizer.eip_total_savings :=
               py_sum (map CostOptimizer.ei_MonthlyCost eips) |}, st) /\
    exists results w new,
      CostOptimizer.release_orphaned_eips ec2 false eips st =
        (Ok results,
         {| EC2.world := w; EC2.calls := EC2.calls st ++ new |}) /\
      map EC2.call new =
        map (fun eip => EC2.ReleaseAddress (CostOptimizer.ei_AllocationId eip))
          eips /\
      CostOptimizer.released results =
        map (fun p => CostOptimizer.ei_PublicIp (fst p))
          (filter (fun p => EC2.succeeded (snd p)) (combine eips new)) /\
      CostOptimizer.eip_total_savings results =
        py_sum (map (fun p => CostOptimizer.ei_MonthlyCost (fst p))
                  (filter (fun p => EC2.succeeded (snd p)) (combine eips new))) /\
      (List.length (CostOptimizer.released results) +
       List.length (CostOptimizer.eip_failed results) = List.length eips)%nat.
Proof.
  intros World ec2 eips st. unfold CostOptimizer.release_orphaned_eips. split.
  - rewrite release_loop_dry. reflexivity.
  - destruct (release_loop_live ec2 eips
                {| CostOptimizer.released := [];
                   CostOptimizer.eip_failed := [];
                   CostOptimizer.eip_total_savings := 0 |} st)
      as (results & w & new & Hrun & Hcalls & Hrel & Htot & Hlen).
    exists results, w, new. repeat split; auto.
Qed.

(** X14. [archive_old_snapshots] never raises and, whatever [DRY_RUN] is,
    makes exactly one [create_tags] call per snapshot, in order, and no
    other call: it never deletes.  The tagged snapshots are those whose
    call succeeded; every snapshot ends up either tagged or failed. *)
Theorem snapshots_are_tagged_never_deleted :
  forall (World : Type) (ec2 : EC2.Client World)
         (snapshots : list CostOptimizer.SnapshotInfo) (st : EC2.Cloud World),
    exists results w new,
      CostOptimizer.archive_old_snapshots ec2 snapshots st =
        (Ok results,
         {| EC2.world := w; EC2.calls := EC2.calls st ++ new |}) /\
      map EC2.call new =
        map (fun s => EC2.CreateTags (CostOptimizer.si_SnapshotId s))
          snapshots /\
      CostOptimizer.tagged results =
        map (fun p => CostOptimizer.si_SnapshotId (fst p))
          (filter (fun p => EC2.succeeded (snd p)) (combine snapshots new)) /\
      (List.length (CostOptimizer.tagged results) +
       List.length (CostOptimizer.snapshot_failed results) =
       List.length snapshots)%nat.
Proof.
  intros World ec2 snapshots st. unfold CostOptimizer.archive_old_snapshots.
  destruct (archive_loop ec2 snapshots
              {| CostOptimizer.tagged := [];
                 CostOptimizer.snapshot_failed := [] |} st)
    as (results & w & new & Hrun & Hcalls & Htag & Hlen).
  exists results, w, new. repeat split; auto.
Qed.

Lemma collect_orphaned_cut before :
  forall address after found,
    EC2.AssociationId address = None ->
    EC2.AllocationId address = None ->
    CostOptimizer.collect_orphaned (before ++ address :: after) found =
    CostOptimizer.collect_orphaned before found.
Proof.
  induction before as [|a before IH]; intros address after found Hassoc Halloc.
  - simpl. rewrite Hassoc, Halloc. reflexivity.
  - simpl. destruct (EC2.AssociationId a); [now apply IH|].
    destruct (EC2.AllocationId a); [now apply IH|reflexivity].
Qed.

Lemma collect_orphaned_sound addresses :
  forall found eip,
    In eip (CostOptimizer.collect_orphaned addresses found) ->
    In eip found \/
    exists address,
      In address addresses /\
      EC2.AssociationId address = None /\
      EC2.AllocationId address = Some (CostOptimizer.ei_AllocationId eip) /\
      CostOptimizer.ei_PublicIp eip = EC2.PublicIp address /\
      CostOptimizer.ei_MonthlyCost eip = 36 # 10.
Proof.
  induction addresses as [|a rest IH]; intros found eip Hin; [now left|].
  simpl in Hin. destruct (EC2.AssociationId a) eqn:Hassoc.
  - apply IH in Hin. destruct Hin as [Hin|(address & Ha & H)]; [now left|].
    right. exists address. split; [now right|exact H].
  - destruct (EC2.AllocationId a) eqn:Halloc; [|now left].
    apply IH in Hin. destruct Hin as [Hin|(address & Ha & H)].
    + apply in_app_iff in Hin. destruct Hin as [Hin|[<-|[]]]; [now left|].
      right. exists a. repeat split; auto. now left.
    + right. exists address. split; [now right|exact H].
Qed.

(** X15. [find_orphaned_eips] only reports addresses that have no
    association and do have an allocation id, each at 3.60 a month.  An
    unassociated address without allocation id ends the listing: neither
    it nor any address after it is reported. *)
Theorem orphaned_listing_stops_at_missing_allocation_id :
  forall (before after : list EC2.AddressDesc) (address : EC2.AddressDesc),
    EC2.AssociationId address = None ->
    EC2.AllocationId address = None ->
    CostOptimizer.collect_orphaned (before ++ address :: after) [] =
    CostOptimizer.collect_orphaned before [] /\
    forall eip,
      In eip (CostOptimizer.collect_orphaned (before ++ address :: after) []) ->
      exists listed,
        In listed before /\
        EC2.AssociationId listed = None /\
        EC2.AllocationId listed = Some (CostOptimizer.ei_AllocationId eip) /\
        CostOptimizer.ei_PublicIp eip = EC2.PublicIp listed /\
        CostOptimizer.ei_MonthlyCost eip = 36 # 10.
Proof.
  intros before after address Hassoc Halloc.
  rewrite (collect_orphaned_cut before address after [] Hassoc Halloc).
  split; [reflexivity|]. intros eip Hin.
  apply collect_orphaned_sound in Hin. destruct Hin as [[]|H]. exact H.
Qed.

Lemma orphaned_listing_stops_at_missing_allocation_id_witness :
  EC2.AssociationId Samples.classic_address = None /\
  EC2.AllocationId Samples.classic_address = None /\
  CostOptimizer.collect_orphaned
    ([] ++ Samples.classic_address :: [Samples.vpc_address]) [] = [].
Proof.
  split; [reflexivity|]. split; [reflexivity|].
  apply (orphaned_listing_stops_at_missing_allocation_id []
           [Samples.vpc_address] Samples.classic_address); reflexivity.
Defined.

(** X16. [lambda_handler] of the cost optimizer answers with status 200
    whatever the EC2, CloudWatch and SNS calls answer, in dry-run and in
    live mode: no failure of a call aborts the run or reaches the handler
    of line 523.  Over the whole run every [delete_volume] call comes
    directly after a successful [create_snapshot] of the same volume. *)
Theorem handler_survives_failures_and_guards_deletes :
  forall (World : Type) (ec2 : EC2.Client World)
         (py_sum : list float -> float) (round2 : float -> float)
         (cloudwatch_client : string -> Result (list float))
         (sns_client : CostOptimizer.Report -> Result unit)
         (DRY_RUN : bool) (min : Z) (SNS_TOPIC_ARN : string) (now : Z)
         (st : EC2.Cloud World),
    exists summary w new,
      CostOptimizer.lambda_handler ec2 py_sum round2 cloudwatch_client
        sns_client DRY_RUN min SNS_TOPIC_ARN now st =
        (Ok {| CostOptimizer.statusCode := 200;
               CostOptimizer.body := CostOptimizer.Completed summary |},
         {| EC2.world := w; EC2.calls := EC2.calls st ++ new |}) /\
      EC2.snapshot_guarded new = true.
Proof.
  intros World ec2 py_sum round2 cloudwatch_client sns_client DRY_RUN min
    topic now st.
  destruct (lambda_handler_log ec2 py_sum round2 cloudwatch_client sns_client
              DRY_RUN min topic now st)
    as (summary & w & ok1 & n1 & ok2 & n2 & ok3 & n3 & ok4 & volumes & ok5
        & metrics & publish
        & Hrun & Hg1 & _ & Hc2 & _ & Hc3 & Hv1 & Hv2 & Hm & Hp1 & Hp2).
  eexists summary, w, _. split; [exact Hrun|].
  unfold EC2.snapshot_guarded.
  repeat apply guarded_everywhere_app.
  - intros p. cbn [EC2.snapshot_guarded_after EC2.call EC2.ev]. apply Hg1.
  - intros p. cbn [EC2.snapshot_guarded_after EC2.call EC2.ev].
    apply guarded_without_delete. intros e v Hin Hcall.
    destruct (Hc2 e Hin) as (a & Ha). congruence.
  - intros p. cbn [EC2.snapshot_guarded_after EC2.call EC2.ev].
    apply guarded_without_delete. intros e v Hin Hcall.
    destruct (Hc3 e Hin) as (s & Hs). congruence.
  - intros p. cbn [EC2.snapshot_guarded_after EC2.call EC2.ev].
    apply guarded_without_delete. intros e v Hin Hcall.
    destruct ok4.
    + destruct (Hv1 eq_refl) as (ok & ->). destruct Hin as [<-|[]].
      discriminate.
    + rewrite (Hv2 eq_refl) in Hin. contradiction.
  - intros p. cbn [EC2.snapshot_guarded_after EC2.call EC2.ev].
    apply guarded_without_delete. intros e v Hin Hcall.
    destruct (Hm e Hin) as (i & Hi). congruence.
  - intros p. apply guarded_without_delete. intros e v Hin Hcall.
    destruct topic as [|c topic].
    + rewrite (Hp1 eq_refl) in Hin. contradiction.
    + destruct Hp2 as (ok & ->); [discriminate|].
      destruct Hin as [<-|[]]. discriminate.
Qed.

(** X17. With [DRY_RUN] set, the whole run of [lambda_handler] makes, in
    this order: the listings of the available volumes, of the addresses
    and of the snapshots, one [create_tags] call per old snapshot, the
    listing of the instances and, if it succeeded, of all the volumes, the
    listing of the running instances, CloudWatch queries, and one SNS
    publish when a topic is configured.  It never calls [create_snapshot],
    [delete_volume], [delete_snapshot] or [release_address], whatever the
    account holds and whatever the calls answer; [create_tags] is the only
    call that changes the account. *)
Theorem dry_run_handler_only_lists_and_tags :
  forall (World : Type) (ec2 : EC2.Client World)
         (py_sum : list float -> float) (round2 : float -> float)
         (cloudwatch_client : string -> Result (list float))
         (sns_client : CostOptimizer.Report -> Result unit)
         (min : Z) (SNS_TOPIC_ARN : string) (now : Z)
         (st : EC2.Cloud World),
    exists summary w ok1 ok2 ok3 tags ok4 volumes ok5 metrics publish,
      CostOptimizer.lambda_handler ec2 py_sum round2 cloudwatch_client
        sns_client true min SNS_TOPIC_ARN now st =
        (Ok {| CostOptimizer.statusCode := 200;
               CostOptimizer.body := CostOptimizer.Completed summary |},
         {| EC2.world := w;
            EC2.calls := EC2.calls st ++
              [EC2.ev EC2.DescribeVolumes ok1;
               EC2.ev EC2.DescribeAddresses ok2;
               EC2.ev EC2.DescribeSnapshots ok3] ++
              tags ++
              EC2.ev EC2.DescribeInstances ok4 :: volumes ++
              EC2.ev EC2.DescribeRunningInstances ok5 :: metrics ++
              publish |}) /\
      (forall e, In e tags -> exists s, EC2.call e = EC2.CreateTags s) /\
      (ok4 = true ->
       exists ok, volumes = [EC2.ev EC2.DescribeAllVolumes ok]) /\
      (ok4 = false -> volumes = []) /\
      (forall e, In e metrics ->
         exists i, EC2.call e = EC2.GetMetricStatistics i) /\
      (SNS_TOPIC_ARN = EmptyString -> publish = []) /\
      (SNS_TOPIC_ARN <> EmptyString ->
       exists ok, publish = [EC2.ev EC2.Publish ok]).
Proof.
  intros World ec2 py_sum round2 cloudwatch_client sns_client min topic now
    st.
  destruct (lambda_handler_log ec2 py_sum round2 cloudwatch_client sns_client
              true min topic now st)
    as (summary & w & ok1 & n1 & ok2 & n2 & ok3 & n3 & ok4 & volumes & ok5
        & metrics & publish
        & Hrun & _ & Hd1 & _ & Hd2 & Hc3 & Hv1 & Hv2 & Hm & Hp1 & Hp2).
  rewrite (Hd1 eq_refl), (Hd2 eq_refl) in Hrun.
  exists summary, w, ok1, ok2, ok3, n3, ok4, volumes, ok5, metrics, publish.
  split; [|repeat split; assumption].
  rewrite Hrun. cbn [app]. rewrite <- ?app_assoc. cbn [app]. reflexivity.
Qed.

(** The dry run of the handler on an account with one old snapshot, three
    running instances and a configured topic: eight calls, of which
    [create_tags] is the only one that changes the account. *)
Lemma dry_run_handler_only_lists_and_tags_witness :
  exists summary,
    CostOptimizer.lambda_handler Samples.fleet Binary64.sum_left
      Binary64.round_cents Samples.throttled_metrics (fun _ => Ok tt)
      true 7 "arn:aws:sns:topic" Scenario.day200
      {| EC2.world := tt; EC2.calls := [] |} =
    (Ok {| CostOptimizer.statusCode := 200;
           CostOptimizer.body := CostOptimizer.Completed summary |},
     {| EC2.world := tt;
        EC2.calls :=
          [EC2.ev EC2.DescribeVolumes true;
           EC2.ev EC2.DescribeAddresses true;
           EC2.ev EC2.DescribeSnapshots true;
           EC2.ev (EC2.CreateTags "snap-1") true;
           EC2.ev EC2.DescribeInstances true;
           EC2.ev EC2.DescribeAllVolumes true;
           EC2.ev EC2.DescribeRunningInstances true;
           EC2.ev (EC2.GetMetricStatistics "i-1") true;
           EC2.ev (EC2.GetMetricStatistics "i-2") false;
           EC2.ev EC2.Publish true] |}) /\
    CostOptimizer.volumes_deleted summary = 1%nat /\
    CostOptimizer.snapshots_tagged summary = 1%nat /\
    CostOptimizer.untagged_instances summary = 1%nat /\
    CostOptimizer.underutilized_instances summary = 1%nat.
Proof.
  destruct (dry_run_handler_only_lists_and_tags unit Samples.fleet
              Binary64.sum_left Binary64.round_cents
              Samples.throttled_metrics (fun _ => Ok tt)
              7 "arn:aws:sns:topic" Scenario.day200
              {| EC2.world := tt; EC2.calls := [] |})
    as (summary & w & ok1 & ok2 & ok3 & tags & ok4 & volumes & ok5 & metrics
        & publish & Hrun & _).
  exists summary. vm_compute in Hrun. injection Hrun as Hs _.
  subst summary. repeat split.
Defined.

(** ** Resource clean-up: what each pass calls and records *)

Section CleanupFacts.
Context {World : Type} (ec2 : EC2.Client World).

Lemma after_after (c : EC2.Cloud World) w1 n1 w2 n2 :
  Ledger.after (Ledger.after c w1 n1) w2 n2 = Ledger.after c w2 (n1 ++ n2).
Proof. unfold Ledger.after. cbn [EC2.calls]. now rewrite app_assoc. Qed.

Lemma after_nothing (c : EC2.Cloud World) :
  Ledger.after c (EC2.world c) [] = c.
Proof. unfold Ledger.after. rewrite app_nil_r. now destruct c. Qed.

Lemma snapshot_step_run dry_run s self :
  ResourceCleanup.snapshot_step ec2 dry_run s tt self =
  (Ok tt,
   Ledger.moved self
     (if dry_run then ResourceCleanup.cloud self
      else
        let (r, w) := EC2.delete_snapshot ec2 (EC2.SnapshotId s)
                        (EC2.world (ResourceCleanup.cloud self)) in
        Ledger.after (ResourceCleanup.cloud self) w
          [EC2.ev (EC2.DeleteSnapshot (EC2.SnapshotId s)) (EC2.is_ok r)])
     (Ledger.with_snapshots (ResourceCleanup.cleanup_report self) [s])).
Proof.
  unfold ResourceCleanup.snapshot_step, EC2.bind, EC2.try_except,
    ResourceCleanup.on_ec2, EC2.invoke, EC2.ret,
    ResourceCleanup.update_report.
  destruct dry_run; cbn [negb]; [reflexivity|].
  destruct (EC2.delete_snapshot ec2 _ _) as [[u|e] w]; reflexivity.
Qed.

Lemma volume_step_run dry_run v self :
  ResourceCleanup.volume_step ec2 dry_run v tt self =
  (Ok tt,
   Ledger.moved self
     (if dry_run then ResourceCleanup.cloud self
      else
        let (r, w) := EC2.delete_volume ec2 (EC2.VolumeId v)
                        (EC2.world (ResourceCleanup.cloud self)) in
        Ledger.after (ResourceCleanup.cloud self) w
          [EC2.ev (EC2.DeleteVolume (EC2.VolumeId v)) (EC2.is_ok r)])
     (Ledger.with_volumes (ResourceCleanup.cleanup_report self) [v])).
Proof.
  unfold ResourceCleanup.volume_step, EC2.bind, EC2.try_except,
    ResourceCleanup.on_ec2, EC2.invoke, EC2.ret,
    ResourceCleanup.update_report.
  destruct dry_run; cbn [negb]; [reflexivity|].
  destruct (EC2.delete_volume ec2 _ _) as [[u|e] w]; reflexivity.
Qed.

Lemma eip_step_run dry_run a self :
  ResourceCleanup.eip_step ec2 dry_run a tt self =
  (Ok tt,
   Ledger.moved self
     (match (if dry_run then None
             else ResourceCleanup.truthy_id (EC2.AllocationId a)) with
      | None => ResourceCleanup.cloud self
      | Some allocation_id =>
        let (r, w) := EC2.release_address ec2 allocation_id
                        (EC2.world (ResourceCleanup.cloud self)) in
        Ledger.after (ResourceCleanup.cloud self) w
          [EC2.ev (EC2.ReleaseAddress allocation_id) (EC2.is_ok r)]
      end)
     (Ledger.with_eips (ResourceCleanup.cleanup_report self) [a])).
Proof.
  unfold ResourceCleanup.eip_step, EC2.bind, EC2.try_except,
    ResourceCleanup.on_ec2, EC2.invoke, EC2.ret,
    ResourceCleanup.update_report.
  destruct (if dry_run then None
            else ResourceCleanup.truthy_id (EC2.AllocationId a));
    [|reflexivity].
  destruct (EC2.release_address ec2 _ _) as [[u|e] w]; reflexivity.
Qed.

Lemma with_snapshots_cons r s l :
  Ledger.with_snapshots (Ledger.with_snapshots r [s]) l =
  Ledger.with_snapshots r (s :: l).
Proof.
  unfold Ledger.with_snapshots. cbn. now rewrite <- app_assoc.
Qed.

Lemma with_volumes_cons r v l :
  Ledger.with_volumes (Ledger.with_volumes r [v]) l =
  Ledger.with_volumes r (v :: l).
Proof.
  unfold Ledger.with_volumes. cbn. now rewrite <- app_assoc.
Qed.

Lemma with_eips_cons r a l :
  Ledger.with_eips (Ledger.with_eips r [a]) l = Ledger.with_eips r (a :: l).
Proof.
  unfold Ledger.with_eips. cbn. now rewrite <- app_assoc.
Qed.

Lemma with_nothing r :
  Ledger.with_snapshots r [] = r /\ Ledger.with_volumes r [] = r /\
  Ledger.with_eips r [] = r.
Proof.
  unfold Ledger.with_snapshots, Ledger.with_volumes, Ledger.with_eips.
  cbn. rewrite !app_nil_r. now destruct r.
Qed.

Lemma moved_nothing (self : ResourceCleanup.Self World) :
  Ledger.moved self (ResourceCleanup.cloud self)
    (ResourceCleanup.cleanup_report self) = self.
Proof. now destruct self. Qed.

Lemma snapshot_loop dry_run :
  forall snapshots self,
    exists w new,
      EC2.for_each snapshots (ResourceCleanup.snapshot_step ec2 dry_run) tt self
      = (Ok tt,
         Ledger.moved self (Ledger.after (ResourceCleanup.cloud self) w new)
           (Ledger.with_snapshots (ResourceCleanup.cleanup_report self)
              snapshots)) /\
      map EC2.call new =
        (if dry_run then []
         else map (fun s => EC2.DeleteSnapshot (EC2.SnapshotId s)) snapshots) /\
      (dry_run = true -> w = EC2.world (ResourceCleanup.cloud self)).
Proof.
  induction snapshots as [|s rest IH]; intros self.
  - exists (EC2.world (ResourceCleanup.cloud self)), [].
    cbn [EC2.for_each]. unfold EC2.ret.
    rewrite after_nothing, (proj1 (with_nothing _)), moved_nothing.
    repeat split; auto. now destruct dry_run.
  - cbn [EC2.for_each]. unfold EC2.bind. rewrite snapshot_step_run.
    match goal with |- context [EC2.for_each rest _ tt ?s1] =>
      destruct (IH s1) as (w & new & Hrun & Hcalls & Hw)
    end.
    rewrite Hrun. unfold Ledger.moved.
    cbn [ResourceCleanup.cloud ResourceCleanup.cleanup_report
         ResourceCleanup.report_file].
    rewrite with_snapshots_cons. destruct dry_run.
    + exists w, new. repeat split; auto.
    + destruct (EC2.delete_snapshot ec2 _ _) as [r w1].
      rewrite after_after. eexists w, (_ :: new).
      split; [reflexivity|]. split; [|discriminate].
      cbn [app map EC2.call EC2.ev]. now rewrite Hcalls.
Qed.

Lemma volume_loop dry_run :
  forall volumes self,
    exists w new,
      EC2.for_each volumes (ResourceCleanup.volume_step ec2 dry_run) tt self
      = (Ok tt,
         Ledger.moved self (Ledger.after (ResourceCleanup.cloud self) w new)
           (Ledger.with_volumes (ResourceCleanup.cleanup_report self)
              volumes)) /\
      map EC2.call new =
        (if dry_run then []
         else map (fun v => EC2.DeleteVolume (EC2.VolumeId v)) volumes) /\
      (dry_run = true -> w = EC2.world (ResourceCleanup.cloud self)).
Proof.
  induction volumes as [|v rest IH]; intros self.
  - exists (EC2.world (ResourceCleanup.cloud self)), [].
    cbn [EC2.for_each]. unfold EC2.ret.
    rewrite after_nothing, (proj1 (proj2 (with_nothing _))), moved_nothing.
    repeat split; auto. now destruct dry_run.
  - cbn [EC2.for_each]. unfold EC2.bind. rewrite volume_step_run.
    match goal with |- context [EC2.for_each rest _ tt ?s1] =>
      destruct (IH s1) as (w & new & Hrun & Hcalls & Hw)
    end.
    rewrite Hrun. unfold Ledger.moved.
    cbn [ResourceCleanup.cloud ResourceCleanup.cleanup_report
         ResourceCleanup.report_file].
    rewrite with_volumes_cons. destruct dry_run.
    + exists w, new. repeat split; auto.
    + destruct (EC2.delete_volume ec2 _ _) as [r w1].
      rewrite after_after. eexists w, (_ :: new).
      split; [reflexivity|]. split; [|discriminate].
      cbn [app map EC2.call EC2.ev]. now rewrite Hcalls.
Qed.

Lemma eip_loop dry_run :
  forall eips self,
    exists w new,
      EC2.for_each eips (ResourceCleanup.eip_step ec2 dry_run) tt self
      = (Ok tt,
         Ledger.moved self (Ledger.after (ResourceCleanup.cloud self) w new)
           (Ledger.with_eips (ResourceCleanup.cleanup_report self) eips)) /\
      map EC2.call new =
        (if dry_run then []
         else map EC2.ReleaseAddress (Ledger.releasable eips)) /\
      (dry_run = true -> w = EC2.world (ResourceCleanup.cloud self)).
Proof.
  induction eips as [|a rest IH]; intros self.
  - exists (EC2.world (ResourceCleanup.cloud self)), [].
    cbn [EC2.for_each]. unfold EC2.ret.
    rewrite after_nothing, (proj2 (proj2 (with_nothing _))), moved_nothing.
    repeat split; auto. now destruct dry_run.
  - cbn [EC2.for_each]. unfold EC2.bind. rewrite eip_step_run.
    match goal with |- context [EC2.for_each rest _ tt ?s1] =>
      destruct (IH s1) as (w & new & Hrun & Hcalls & Hw)
    end.
    rewrite Hrun. unfold Ledger.moved.
    cbn [ResourceCleanup.cloud ResourceCleanup.cleanup_report
         ResourceCleanup.report_file].
    rewrite with_eips_cons. destruct dry_run.
    + exists w, new. repeat split; auto.
    + unfold Ledger.releasable. cbn [flat_map].
      destruct (ResourceCleanup.truthy_id (EC2.AllocationId a)) as [i|].
      * destruct (EC2.release_address ec2 _ _) as [r w1].
        rewrite after_after. eexists w, (_ :: new).
        split; [reflexivity|]. split; [|discriminate].
        cbn [app map EC2.call EC2.ev]. now rewrite Hcalls.
      * exists w, new. repeat split; auto.
Qed.

End CleanupFacts.

Section CleanupPasses.
Context {World : Type} (ec2 : EC2.Client World).

Lemma cleanup_old_snapshots_run dry_run now days_old self :
  exists r w new report',
    ResourceCleanup.cleanup_old_snapshots ec2 dry_run now days_old self =
    (r, Ledger.moved self
          (Ledger.after (ResourceCleanup.cloud self) w new) report') /\
    match EC2.describe_snapshots ec2
            (EC2.world (ResourceCleanup.cloud self)) with
    | (Raise e, w0) =>
      r = Raise e /\ w = w0 /\ new = [EC2.ev EC2.DescribeSnapshots false] /\
      report' = ResourceCleanup.cleanup_report self
    | (Ok [], w0) =>
      r = Raise IndexError /\ w = w0 /\
      new = [EC2.ev EC2.DescribeSnapshots true] /\
      report' = ResourceCleanup.cleanup_report self
    | (Ok listing, w0) =>
      r = Ok (List.length (Ledger.old_snapshots now days_old listing)) /\
      (dry_run = true -> w = w0) /\
      (exists deletes,
         new = EC2.ev EC2.DescribeSnapshots true :: deletes /\
         map EC2.call deletes =
           if dry_run then []
           else map (fun s => EC2.DeleteSnapshot (EC2.SnapshotId s))
                  (Ledger.old_snapshots now days_old listing)) /\
      report' =
        Ledger.with_snapshots (ResourceCleanup.cleanup_report self)
          (Ledger.old_snapshots now days_old listing)
    end.
Proof.
  unfold ResourceCleanup.cleanup_old_snapshots.
  unfold EC2.bind at 1. unfold ResourceCleanup.on_ec2, EC2.invoke.
  destruct (EC2.describe_snapshots ec2 _) as [[listing|e] w0].
  2:{ eexists _, w0, _, _. split; [reflexivity|]. repeat split. }
  destruct listing as [|s rest].
  { eexists _, w0, _, _. split; [reflexivity|]. repeat split. }
  unfold EC2.bind at 1, EC2.pure_result. cbn [py_index nth_error].
  unfold EC2.bind at 1.
  fold (Ledger.old_snapshots now days_old (s :: rest)).
  match goal with |- context [EC2.for_each ?l _ tt ?s1] =>
    destruct (snapshot_loop ec2 dry_run l s1) as (w & deletes & Hrun & Hc & Hw)
  end.
  rewrite Hrun. unfold EC2.ret.
  eexists _, w, (EC2.ev EC2.DescribeSnapshots true :: deletes), _.
  split.
  - unfold Ledger.moved, Ledger.after.
    cbn [ResourceCleanup.cloud ResourceCleanup.cleanup_report
         ResourceCleanup.report_file EC2.calls EC2.is_ok].
    rewrite <- app_assoc. reflexivity.
  - split; [reflexivity|]. split; [exact Hw|]. split; [|reflexivity].
    exists deletes. split; [reflexivity|exact Hc].
Qed.

Lemma cleanup_unattached_volumes_run dry_run self :
  exists r w new report',
    ResourceCleanup.cleanup_unattached_volumes ec2 dry_run self =
    (r, Ledger.moved self
          (Ledger.after (ResourceCleanup.cloud self) w new) report') /\
    match EC2.describe_volumes ec2
            (EC2.world (ResourceCleanup.cloud self)) with
    | (Raise e, w0) =>
      r = Raise e /\ w = w0 /\ new = [EC2.ev EC2.DescribeVolumes false] /\
      report' = ResourceCleanup.cleanup_report self
    | (Ok listing, w0) =>
      r = Ok (List.length listing) /\
      (dry_run = true -> w = w0) /\
      (exists deletes,
         new = EC2.ev EC2.DescribeVolumes true :: deletes /\
         map EC2.call deletes =
           if dry_run then []
           else map (fun v => EC2.DeleteVolume (EC2.VolumeId v)) listing) /\
      report' =
        Ledger.with_volumes (ResourceCleanup.cleanup_report self) listing
    end.
Proof.
  unfold ResourceCleanup.cleanup_unattached_volumes.
  unfold EC2.bind at 1. unfold ResourceCleanup.on_ec2, EC2.invoke.
  destruct (EC2.describe_volumes ec2 _) as [[listing|e] w0].
  2:{ eexists _, w0, _, _. split; [reflexivity|]. repeat split. }
  unfold EC2.bind at 1.
  match goal with |- context [EC2.for_each ?l _ tt ?s1] =>
    destruct (volume_loop ec2 dry_run l s1) as (w & deletes & Hrun & Hc & Hw)
  end.
  rewrite Hrun. unfold EC2.ret.
  eexists _, w, (EC2.ev EC2.DescribeVolumes true :: deletes), _.
  split.
  - unfold Ledger.moved, Ledger.after.
    cbn [ResourceCleanup.cloud ResourceCleanup.cleanup_report
         ResourceCleanup.report_file EC2.calls EC2.is_ok].
    rewrite <- app_assoc. reflexivity.
  - split; [reflexivity|]. split; [exact Hw|]. split; [|reflexivity].
    exists deletes. split; [reflexivity|exact Hc].
Qed.

Lemma cleanup_unassociated_eips_run dry_run self :
  exists r w new report',
    ResourceCleanup.cleanup_unassociated_eips ec2 dry_run self =
    (r, Ledger.moved self
          (Ledger.after (ResourceCleanup.cloud self) w new) report') /\
    match EC2.describe_addresses ec2
            (EC2.world (ResourceCleanup.cloud self)) with
    | (Raise e, w0) =>
      r = Raise e /\ w = w0 /\ new = [EC2.ev EC2.DescribeAddresses false] /\
      report' = ResourceCleanup.cleanup_report self
    | (Ok listing, w0) =>
      r = Ok (List.length (Ledger.unassociated listing)) /\
      (dry_run = true -> w = w0) /\
      (exists releases,
         new = EC2.ev EC2.DescribeAddresses true :: releases /\
         map EC2.call releases =
           if dry_run then []
           else map EC2.ReleaseAddress
                  (Ledger.releasable (Ledger.unassociated listing))) /\
      report' =
        Ledger.with_eips (ResourceCleanup.cleanup_report self)
          (Ledger.unassociated listing)
    end.
Proof.
  unfold ResourceCleanup.cleanup_unassociated_eips.
  unfold EC2.bind at 1. unfold ResourceCleanup.on_ec2, EC2.invoke.
  destruct (EC2.describe_addresses ec2 _) as [[listing|e] w0].
  2:{ eexists _, w0, _, _. split; [reflexivity|]. repeat split. }
  unfold EC2.bind at 1.
  fold (Ledger.unassociated listing).
  match goal with |- context [EC2.for_each ?l _ tt ?s1] =>
    destruct (eip_loop ec2 dry_run l s1) as (w & releases & Hrun & Hc & Hw)
  end.
  rewrite Hrun. unfold EC2.ret.
  eexists _, w, (EC2.ev EC2.DescribeAddresses true :: releases), _.
  split.
  - unfold Ledger.moved, Ledger.after.
    cbn [ResourceCleanup.cloud ResourceCleanup.cleanup_report
         ResourceCleanup.report_file EC2.calls EC2.is_ok].
    rewrite <- app_assoc. reflexivity.
  - split; [reflexivity|]. split; [exact Hw|]. split; [|reflexivity].
    exists releases. split; [reflexivity|exact Hc].
Qed.

End CleanupPasses.

(** X18. [cleanup_unattached_volumes]: when the listing succeeds, every
    listed volume is written to [volumes_deleted] and counted in the
    return value, in dry-run and in live mode alike and whatever the
    delete calls answer.  A dry run makes no call beyond the listing; a
    live run calls [delete_volume] once per listed volume, in order, and
    nothing else. *)
Theorem cleanup_records_every_listed_volume :
  forall (World : Type) (ec2 : EC2.Client World) (dry_run : bool)
         (self : ResourceCleanup.Self World)
         (listing : list EC2.VolumeDesc) (w0 : World),
    EC2.describe_volumes ec2 (EC2.world (ResourceCleanup.cloud self))
      = (Ok listing, w0) ->
    exists w deletes,
      ResourceCleanup.cleanup_unattached_volumes ec2 dry_run self =
      (Ok (List.length listing),
       Ledger.moved self
         (Ledger.after (ResourceCleanup.cloud self) w
            (EC2.ev EC2.DescribeVolumes true :: deletes))
         (Ledger.with_volumes (ResourceCleanup.cleanup_report self) listing)) /\
      map EC2.call deletes =
        (if dry_run then []
         else map (fun v => EC2.DeleteVolume (EC2.VolumeId v)) listing) /\
      (dry_run = true -> w = w0).
Proof.
  intros World ec2 dry_run self listing w0 Hlist.
  destruct (cleanup_unattached_volumes_run ec2 dry_run self)
    as (r & w & new & report' & Hrun & Hcase).
  rewrite Hlist in Hcase.
  destruct Hcase as (-> & Hw & (deletes & -> & Hc) & ->).
  exists w, deletes. repeat split; auto.
Qed.

Lemma cleanup_records_every_listed_volume_witness :
  EC2.describe_volumes EC2.scripted
    (EC2.world (ResourceCleanup.cloud
                  (ResourceCleanup.fresh (Scenario.account [Some "denied"]))))
    = (Ok [Scenario.vol1], Scenario.account [Some "denied"]) /\
  exists w deletes,
    ResourceCleanup.cleanup_unattached_volumes EC2.scripted false
      (ResourceCleanup.fresh (Scenario.account [Some "denied"])) =
    (Ok 1%nat,
     Ledger.moved (ResourceCleanup.fresh (Scenario.account [Some "denied"]))
       (Ledger.after (EC2.start (Scenario.account [Some "denied"])) w
          (EC2.ev EC2.DescribeVolumes true :: deletes))
       (Ledger.with_volumes ResourceCleanup.empty_report [Scenario.vol1])) /\
    map EC2.call deletes = [EC2.DeleteVolume "vol-1"].
Proof.
  split; [reflexivity|].
  destruct (cleanup_records_every_listed_volume EC2.Script EC2.scripted false
              (ResourceCleanup.fresh (Scenario.account [Some "denied"]))
              [Scenario.vol1] (Scenario.account [Some "denied"]) eq_refl)
    as (w & deletes & Hrun & Hc & _).
  exists w, deletes. split; [exact Hrun|exact Hc].
Defined.

(** X19. [cleanup_unassociated_eips]: when the listing succeeds, the
    addresses without an association are all written to [eips_released]
    and counted, in both modes, and associated addresses are never touched.
    A live run calls [release_address] only for those of them that have a
    non-empty allocation id: an unassociated address without one is
    recorded as released although no call is made for it. *)
Theorem cleanup_records_every_unassociated_address :
  forall (World : Type) (ec2 : EC2.Client World) (dry_run : bool)
         (self : ResourceCleanup.Self World)
         (listing : list EC2.AddressDesc) (w0 : World),
    EC2.describe_addresses ec2 (EC2.world (ResourceCleanup.cloud self))
      = (Ok listing, w0) ->
    exists w releases,
      ResourceCleanup.cleanup_unassociated_eips ec2 dry_run self =
      (Ok (List.length (Ledger.unassociated listing)),
       Ledger.moved self
         (Ledger.after (ResourceCleanup.cloud self) w
            (EC2.ev EC2.DescribeAddresses true :: releases))
         (Ledger.with_eips (ResourceCleanup.cleanup_report self)
            (Ledger.unassociated listing))) /\
      map EC2.call releases =
        (if dry_run then []
         else map EC2.ReleaseAddress
                (Ledger.releasable (Ledger.unassociated listing))) /\
      (dry_run = true -> w = w0).
Proof.
  intros World ec2 dry_run self listing w0 Hlist.
  destruct (cleanup_unassociated_eips_run ec2 dry_run self)
    as (r & w & new & report' & Hrun & Hcase).
  rewrite Hlist in Hcase.
  destruct Hcase as (-> & Hw & (releases & -> & Hc) & ->).
  exists w, releases. repeat split; auto.
Qed.

Lemma cleanup_records_every_unassociated_address_witness :
  EC2.describe_addresses EC2.scripted
    (EC2.world (ResourceCleanup.cloud (ResourceCleanup.fresh Samples.mixed)))
    = (Ok [Samples.classic_address; Samples.vpc_address], Samples.mixed) /\
  exists w releases,
    ResourceCleanup.cleanup_unassociated_eips EC2.scripted false
      (ResourceCleanup.fresh Samples.mixed) =
    (Ok 2%nat,
     Ledger.moved (ResourceCleanup.fresh Samples.mixed)
       (Ledger.after (EC2.start Samples.mixed) w
          (EC2.ev EC2.DescribeAddresses true :: releases))
       (Ledger.with_eips ResourceCleanup.empty_report
          [Samples.classic_address; Samples.vpc_address])) /\
    map EC2.call releases = [EC2.ReleaseAddress "eipalloc-1"].
Proof.
  split; [reflexivity|].
  destruct (cleanup_records_every_unassociated_address EC2.Script EC2.scripted
              false (ResourceCleanup.fresh Samples.mixed)
              [Samples.classic_address; Samples.vpc_address] Samples.mixed
              eq_refl)
    as (w & releases & Hrun & Hc & _).
  exists w, releases. split; [exact Hrun|exact Hc].
Defined.

(** X20. [cleanup_old_snapshots] on a non-empty listing: the snapshots
    started strictly before [now] minus [days_old] days (one started
    exactly then is kept out) are all written to [snapshots_deleted] with
    savings of 0.05 per GB and counted, in both modes and whatever the
    delete calls answer.  A dry run makes no call beyond the listing; a
    live run calls [delete_snapshot] once per such snapshot, in order. *)
Theorem cleanup_records_every_old_snapshot :
  forall (World : Type) (ec2 : EC2.Client World) (dry_run : bool)
         (now days_old : Z) (self : ResourceCleanup.Self World)
         (first : EC2.SnapshotDesc) (rest : list EC2.SnapshotDesc) (w0 : World),
    EC2.describe_snapshots ec2 (EC2.world (ResourceCleanup.cloud self))
      = (Ok (first :: rest), w0) ->
    let old :=
      filter (fun s => (EC2.StartTime s <? now - days_old * 86400)%Z)
        (first :: rest) in
    exists w deletes,
      ResourceCleanup.cleanup_old_snapshots ec2 dry_run now days_old self =
      (Ok (List.length old),
       Ledger.moved self
         (Ledger.after (ResourceCleanup.cloud self) w
            (EC2.ev EC2.DescribeSnapshots true :: deletes))
         (Ledger.with_snapshots (ResourceCleanup.cleanup_report self) old)) /\
      map EC2.call deletes =
        (if dry_run then []
         else map (fun s => EC2.DeleteSnapshot (EC2.SnapshotId s)) old) /\
      (dry_run = true -> w = w0).
Proof.
  intros World ec2 dry_run now days_old self first rest w0 Hlist old.
  destruct (cleanup_old_snapshots_run ec2 dry_run now days_old self)
    as (r & w & new & report' & Hrun & Hcase).
  rewrite Hlist in Hcase.
  destruct Hcase as (-> & Hw & (deletes & -> & Hc) & ->).
  exists w, deletes. repeat split; auto.
Qed.

Lemma cleanup_records_every_old_snapshot_witness :
  EC2.describe_snapshots EC2.scripted
    (EC2.world (ResourceCleanup.cloud
                  (ResourceCleanup.fresh (Scenario.account []))))
    = (Ok [Scenario.snap1], Scenario.account []) /\
  exists w deletes,
    ResourceCleanup.cleanup_old_snapshots EC2.scripted true
      Scenario.day200 90 (ResourceCleanup.fresh (Scenario.account [])) =
    (Ok 1%nat,
     Ledger.moved (ResourceCleanup.fresh (Scenario.account []))
       (Ledger.after (EC2.start (Scenario.account [])) w
          (EC2.ev EC2.DescribeSnapshots true :: deletes))
       (Ledger.with_snapshots ResourceCleanup.empty_report [Scenario.snap1])) /\
    map EC2.call deletes = [].
Proof.
  split; [reflexivity|].
  destruct (cleanup_records_every_old_snapshot EC2.Script EC2.scripted true
              Scenario.day200 90 (ResourceCleanup.fresh (Scenario.account []))
              Scenario.snap1 [] (Scenario.account []) eq_refl)
    as (w & deletes & Hrun & Hc & _).
  exists w, deletes. split; [exact Hrun|exact Hc].
Defined.

Section CleanupRun.
Context {World : Type} (ec2 : EC2.Client World).

Lemma map_nil_inv {A B} (f : A -> B) (l : list A) : map f l = [] -> l = [].
Proof. now destruct l. Qed.

Lemma moved_twice (self : ResourceCleanup.Self World) c1 r1 c2 r2 :
  Ledger.moved (Ledger.moved self c1 r1) c2 r2 = Ledger.moved self c2 r2.
Proof. reflexivity. Qed.

Lemma cloud_moved (self : ResourceCleanup.Self World) c r :
  ResourceCleanup.cloud (Ledger.moved self c r) = c.
Proof. reflexivity. Qed.

Lemma report_moved (self : ResourceCleanup.Self World) c r :
  ResourceCleanup.cleanup_report (Ledger.moved self c r) = r.
Proof. reflexivity. Qed.

Lemma old_snapshots_dry now days_old self :
  exists r w ok report',
    ResourceCleanup.cleanup_old_snapshots ec2 true now days_old self =
    (r, Ledger.moved self
          (Ledger.after (ResourceCleanup.cloud self) w
             [EC2.ev EC2.DescribeSnapshots ok]) report').
Proof.
  destruct (cleanup_old_snapshots_run ec2 true now days_old self)
    as (r & w & new & report' & Hrun & Hcase).
  destruct (EC2.describe_snapshots ec2 _) as [[[|s l]|e] w0].
  - destruct Hcase as (_ & _ & -> & _). now exists r, w, true, report'.
  - destruct Hcase as (_ & _ & (deletes & -> & Hc) & _).
    apply map_nil_inv in Hc. subst deletes. now exists r, w, true, report'.
  - destruct Hcase as (_ & _ & -> & _). now exists r, w, false, report'.
Qed.

Lemma unattached_volumes_dry self :
  exists r w ok report',
    ResourceCleanup.cleanup_unattached_volumes ec2 true self =
    (r, Ledger.moved self
          (Ledger.after (ResourceCleanup.cloud self) w
             [EC2.ev EC2.DescribeVolumes ok]) report').
Proof.
  destruct (cleanup_unattached_volumes_run ec2 true self)
    as (r & w & new & report' & Hrun & Hcase).
  destruct (EC2.describe_volumes ec2 _) as [[l|e] w0].
  - destruct Hcase as (_ & _ & (deletes & -> & Hc) & _).
    apply map_nil_inv in Hc. subst deletes. now exists r, w, true, report'.
  - destruct Hcase as (_ & _ & -> & _). now exists r, w, false, report'.
Qed.

Lemma unassociated_eips_dry self :
  exists r w ok report',
    ResourceCleanup.cleanup_unassociated_eips ec2 true self =
    (r, Ledger.moved self
          (Ledger.after (ResourceCleanup.cloud self) w
             [EC2.ev EC2.DescribeAddresses ok]) report').
Proof.
  destruct (cleanup_unassociated_eips_run ec2 true self)
    as (r & w & new & report' & Hrun & Hcase).
  destruct (EC2.describe_addresses ec2 _) as [[l|e] w0].
  - destruct Hcase as (_ & _ & (releases & -> & Hc) & _).
    apply map_nil_inv in Hc. subst releases. now exists r, w, true, report'.
  - destruct Hcase as (_ & _ & -> & _). now exists r, w, false, report'.
Qed.

End CleanupRun.

(** X21. A dry run of the clean-up script never changes the account:
    whatever the account holds and whatever the listing calls answer,
    whether [run_cleanup] returns or raises, the calls it has made are
    listing calls only. *)
Theorem dry_run_cleanup_only_lists :
  forall (World : Type) (ec2 : EC2.Client World) (now : Z)
         (self : ResourceCleanup.Self World),
    exists r w new report' file',
      ResourceCleanup.run_cleanup ec2 true now self =
      (r, {| ResourceCleanup.cloud :=
               Ledger.after (ResourceCleanup.cloud self) w new;
             ResourceCleanup.cleanup_report := report';
             ResourceCleanup.report_file := file' |}) /\
      (forall e, In e new -> EC2.mutating (EC2.call e) = false) /\
      (List.length new <= 3)%nat.
Proof.
  intros World ec2 now self. unfold ResourceCleanup.run_cleanup.
  unfold EC2.bind at 1.
  destruct (old_snapshots_dry ec2 now 90 self)
    as (r1 & w1 & ok1 & rep1 & ->).
  destruct r1 as [n1|e1].
  2:{ eexists _, w1, _, _, _. split; [reflexivity|]. split.
      - intros e [<-|[]]. reflexivity.
      - simpl. lia. }
  unfold EC2.bind at 1.
  match goal with |- context [ResourceCleanup.cleanup_unattached_volumes _ _ ?s] =>
    destruct (unattached_volumes_dry ec2 s) as (r2 & w2 & ok2 & rep2 & ->)
  end.
  rewrite moved_twice, cloud_moved, after_after.
  destruct r2 as [n2|e2].
  2:{ eexists _, w2, _, _, _. split; [reflexivity|]. split.
      - intros e [<-|[<-|[]]]; reflexivity.
      - simpl. lia. }
  unfold EC2.bind at 1.
  match goal with |- context [ResourceCleanup.cleanup_unassociated_eips _ _ ?s] =>
    destruct (unassociated_eips_dry ec2 s) as (r3 & w3 & ok3 & rep3 & ->)
  end.
  rewrite moved_twice, cloud_moved, after_after.
  destruct r3 as [n3|e3].
  2:{ eexists _, w3, _, _, _. split; [reflexivity|]. split.
      - intros e [<-|[<-|[<-|[]]]]; reflexivity.
      - simpl. lia. }
  unfold EC2.bind, ResourceCleanup.update_report, Ledger.moved.
  cbn [ResourceCleanup.cloud ResourceCleanup.cleanup_report
       ResourceCleanup.report_file].
  eexists _, w3, _, _, _. split; [reflexivity|]. split.
  - intros e [<-|[<-|[<-|[]]]]; reflexivity.
  - simpl. lia.
Qed.

(** X22. A dry run of the clean-up script whose three listings succeed
    (with at least one snapshot listed) returns, makes those three calls
    only, and writes to the report file exactly the report it holds: the
    entries already in the report, then one entry per old snapshot, per
    listed volume and per unassociated address.  The total savings are the
    sum of the snapshot savings plus 3.60 per address entry; volumes add
    nothing to the total. *)
Theorem dry_run_cleanup_report :
  forall (World : Type) (ec2 : EC2.Client World) (now : Z)
         (self : ResourceCleanup.Self World)
         (first : EC2.SnapshotDesc) (rest : list EC2.SnapshotDesc)
         (volumes : list EC2.VolumeDesc) (addresses : list EC2.AddressDesc)
         (w1 w2 w3 : World),
    EC2.describe_snapshots ec2 (EC2.world (ResourceCleanup.cloud self))
      = (Ok (first :: rest), w1) ->
    EC2.describe_volumes ec2 w1 = (Ok volumes, w2) ->
    EC2.describe_addresses ec2 w2 = (Ok addresses, w3) ->
    let listed :=
      Ledger.with_eips
        (Ledger.with_volumes
           (Ledger.with_snapshots (ResourceCleanup.cleanup_report self)
              (Ledger.old_snapshots now 90 (first :: rest)))
           volumes)
        (Ledger.unassociated addresses) in
    let final :=
      {| ResourceCleanup.snapshots_deleted :=
           ResourceCleanup.snapshots_deleted listed;
         ResourceCleanup.volumes_deleted :=
           ResourceCleanup.volumes_deleted listed;
         ResourceCleanup.eips_released := ResourceCleanup.eips_released listed;
         ResourceCleanup.total_savings :=
           py_sum (map ResourceCleanup.savings_per_month
                     (ResourceCleanup.snapshots_deleted listed)) +
           inject_Z (Z.of_nat (List.length
                                 (ResourceCleanup.eips_released listed))) *
           (36 # 10) |} in
    ResourceCleanup.run_cleanup ec2 true now self =
    (Ok tt,
     {| ResourceCleanup.cloud :=
          Ledger.after (ResourceCleanup.cloud self) w3
            [EC2.ev EC2.DescribeSnapshots true;
             EC2.ev EC2.DescribeVolumes true;
             EC2.ev EC2.DescribeAddresses true];
        ResourceCleanup.cleanup_report := final;
        ResourceCleanup.report_file := Some final |}).
Proof.
  intros World ec2 now self first rest volumes addresses w1 w2 w3 H1 H2 H3
    listed final.
  unfold ResourceCleanup.run_cleanup. unfold EC2.bind at 1.
  destruct (cleanup_old_snapshots_run ec2 true now 90 self)
    as (r1 & wa & new1 & rep1 & -> & Hcase1).
  rewrite H1 in Hcase1.
  destruct Hcase1 as (-> & Hwa & (d1 & -> & Hd1) & ->).
  apply map_nil_inv in Hd1. subst d1. rewrite (Hwa eq_refl).
  unfold EC2.bind at 1.
  match goal with |- context [ResourceCleanup.cleanup_unattached_volumes _ _ ?s] =>
    destruct (cleanup_unattached_volumes_run ec2 true s)
      as (r2 & wb & new2 & rep2 & -> & Hcase2)
  end.
  rewrite cloud_moved in Hcase2. cbn [Ledger.after EC2.world] in Hcase2.
  rewrite H2 in Hcase2.
  destruct Hcase2 as (-> & Hwb & (d2 & -> & Hd2) & ->).
  apply map_nil_inv in Hd2. subst d2. rewrite (Hwb eq_refl).
  rewrite moved_twice, cloud_moved, after_after, report_moved.
  unfold EC2.bind at 1.
  match goal with |- context [ResourceCleanup.cleanup_unassociated_eips _ _ ?s] =>
    destruct (cleanup_unassociated_eips_run ec2 true s)
      as (r3 & wc & new3 & rep3 & -> & Hcase3)
  end.
  rewrite cloud_moved in Hcase3. cbn [Ledger.after EC2.world] in Hcase3.
  rewrite H3 in Hcase3.
  destruct Hcase3 as (-> & Hwc & (d3 & -> & Hd3) & ->).
  apply map_nil_inv in Hd3. subst d3. rewrite (Hwc eq_refl).
  rewrite moved_twice, cloud_moved, after_after, report_moved.
  reflexivity.
Qed.

Lemma dry_run_cleanup_report_witness :
  EC2.describe_snapshots EC2.scripted
    (EC2.world (ResourceCleanup.cloud (ResourceCleanup.fresh Samples.mixed)))
    = (Ok [Scenario.snap1], Samples.mixed) /\
  EC2.describe_volumes EC2.scripted Samples.mixed
    = (Ok [Scenario.vol1], Samples.mixed) /\
  EC2.describe_addresses EC2.scripted Samples.mixed
    = (Ok [Samples.classic_address; Samples.vpc_address], Samples.mixed) /\
  exists self,
    ResourceCleanup.run_cleanup EC2.scripted true Scenario.day200
      (ResourceCleanup.fresh Samples.mixed) = (Ok tt, self) /\
    ResourceCleanup.report_file self =
      Some (ResourceCleanup.cleanup_report self).
Proof.
  split; [reflexivity|]. split; [reflexivity|]. split; [reflexivity|].
  eexists. split.
  - apply (dry_run_cleanup_report EC2.Script EC2.scripted Scenario.day200
             (ResourceCleanup.fresh Samples.mixed) Scenario.snap1 []
             [Scenario.vol1] [Samples.classic_address; Samples.vpc_address]
             Samples.mixed Samples.mixed Samples.mixed);
      reflexivity.
  - reflexivity.
Defined.

(** ** Cost optimizer: untagged resources *)

Lemma has_key_iff tag tags :
  Tagging.has_key tag tags = true <-> exists value, In (tag, value) tags.
Proof.
  unfold Tagging.has_key. rewrite existsb_exists. split.
  - intros ([k v] & Hin & Heq). simpl in Heq. apply String.eqb_eq in Heq.
    subst k. now exists v.
  - intros (v & Hin). exists (tag, v). split; [exact Hin|].
    simpl. apply String.eqb_refl.
Qed.

(** X23. [find_untagged_resources] reports a resource iff at least one of
    the four required tag keys is absent from its tags, whatever the
    values (an empty value counts as tagged), and lists exactly the absent
    keys.  If listing the volumes fails the instances found so far are
    still reported; if listing the instances fails nothing is. *)
Theorem untagged_means_a_required_key_is_absent :
  forall (reservations : list (list Tagging.Resource))
         (volumes : list Tagging.Resource) (e : Exn),
    (forall tags tag,
       In tag (Tagging.missing_tags tags) <->
       In tag Tagging.required_tags /\ ~ exists value, In (tag, value) tags) /\
    (forall u,
       In u (fst (Tagging.find_untagged_resources (Ok reservations)
                    (Ok volumes))) <->
       exists r,
         In r (List.concat reservations) /\
         Tagging.missing_tags (Tagging.Tags r) <> [] /\
         u = {| Tagging.untagged_id := Tagging.resource_id r;
                Tagging.MissingTags := Tagging.missing_tags (Tagging.Tags r) |}) /\
    (forall u,
       In u (snd (Tagging.find_untagged_resources (Ok reservations)
                    (Ok volumes))) <->
       exists r,
         In r volumes /\
         Tagging.missing_tags (Tagging.Tags r) <> [] /\
         u = {| Tagging.untagged_id := Tagging.resource_id r;
                Tagging.MissingTags := Tagging.missing_tags (Tagging.Tags r) |}) /\
    Tagging.find_untagged_resources (Ok reservations) (Raise e) =
      (fst (Tagging.find_untagged_resources (Ok reservations) (Ok volumes)),
       []) /\
    Tagging.find_untagged_resources (Raise e) (Ok volumes) = ([], []).
Proof.
  intros reservations volumes e.
  assert (Hof : forall resources u,
    In u (Tagging.untagged_of resources) <->
    exists r,
      In r resources /\
      Tagging.missing_tags (Tagging.Tags r) <> [] /\
      u = {| Tagging.untagged_id := Tagging.resource_id r;
             Tagging.MissingTags := Tagging.missing_tags (Tagging.Tags r) |}).
  { intros resources u. unfold Tagging.untagged_of. rewrite in_flat_map.
    split.
    - intros (r & Hin & Hu). exists r. split; [exact Hin|].
      destruct (Tagging.missing_tags (Tagging.Tags r)) as [|m ms];
        [contradiction|].
      destruct Hu as [<-|[]]. split; [discriminate|reflexivity].
    - intros (r & Hin & Hne & ->). exists r. split; [exact Hin|].
      destruct (Tagging.missing_tags (Tagging.Tags r)) as [|m ms];
        [contradiction|]. now left. }
  split; [|split; [|split; [|split]]].
  - intros tags tag. unfold Tagging.missing_tags. rewrite filter_In.
    rewrite negb_true_iff, <- has_key_iff.
    destruct (Tagging.has_key tag tags); intuition congruence.
  - intros u. apply Hof.
  - intros u. apply Hof.
  - reflexivity.
  - reflexivity.
Qed.

(** ** Cost optimizer: under-utilised instances *)

(** X24. [analyze_ec2_utilization] never raises and only flags instances
    for which CloudWatch returned at least one datapoint and whose
    average, as computed in binary64, is below 10; the flagged entry
    carries that average rounded to two decimals.  An instance without
    datapoints is never flagged.  A metrics call that raises for one
    instance ends the analysis: the result is what the loop finds for the
    instances before it, so that instance and all the instances after it
    are left out.  If the listing of the instances raises, nothing is
    flagged. *)
Theorem utilization_needs_datapoints_and_stops_on_error :
  forall (World : Type) (ec2 : EC2.Client World)
         (py_sum : list float -> float) (round2 : float -> float)
         (cloudwatch_client : string -> Result (list float))
         (st : EC2.Cloud World),
    exists found st',
      CostOptimizer.analyze_ec2_utilization ec2 py_sum round2
        cloudwatch_client st = (Ok found, st') /\
      (forall u, In u found ->
         exists datapoints,
           cloudwatch_client (CostOptimizer.InstanceId u) = Ok datapoints /\
           datapoints <> [] /\
           (py_sum datapoints / Binary64.of_nat (List.length datapoints)
              <? 10)%float = true /\
           CostOptimizer.AvgCpuUtilization u =
             round2 (py_sum datapoints /
                     Binary64.of_nat (List.length datapoints))%float) /\
      (forall before id type after w e,
         EC2.describe_running_instances ec2 (EC2.world st) =
           (Ok (before ++ (id, type) :: after), w) ->
         cloudwatch_client id = Raise e ->
         fst (CostOptimizer.utilization_loop py_sum round2 cloudwatch_client
                before [] st) = Ok found /\
         forall u, In u found ->
           In (CostOptimizer.InstanceId u, CostOptimizer.InstanceType u)
              before) /\
      (forall w e,
         EC2.describe_running_instances ec2 (EC2.world st) = (Raise e, w) ->
         found = []).
Proof.
  intros World ec2 py_sum round2 cloudwatch_client st.
  unfold CostOptimizer.analyze_ec2_utilization, EC2.invoke.
  destruct (EC2.describe_running_instances ec2 (EC2.world st))
    as [[instances|e0] w1] eqn:Hlist; cbn [EC2.is_ok].
  - match goal with |- context [CostOptimizer.utilization_loop _ _ _ _ ?f ?s] =>
      destruct (utilization_loop_run py_sum round2 cloudwatch_client
                  instances f s)
        as (found & metrics & Hrun & _ & Hsound);
      set (st1 := s) in *
    end.
    exists found. eexists. split; [exact Hrun|]. split; [|split].
    + intros u Hu. destruct (Hsound u Hu) as [[]|(_ & H)]. exact H.
    + intros before id type after w e Heq Hcpu.
      injection Heq as -> _.
      assert (Hcut : fst (CostOptimizer.utilization_loop py_sum round2
                            cloudwatch_client before [] st) = Ok found).
      { rewrite (utilization_loop_value py_sum round2 cloudwatch_client
                   before [] st st1).
        rewrite <- (utilization_loop_cut py_sum round2 cloudwatch_client
                      before id type after [] st1 e Hcpu).
        now rewrite Hrun. }
      split; [exact Hcut|]. intros u Hu.
      destruct (utilization_loop_run py_sum round2 cloudwatch_client
                  before [] st)
        as (found0 & metrics0 & Hrun0 & _ & Hsound0).
      rewrite Hrun0 in Hcut. cbn [fst] in Hcut. injection Hcut as ->.
      destruct (Hsound0 u Hu) as [[]|(Hin & _)]. exact Hin.
    + intros w e Heq. discriminate.
  - exists []. eexists. split; [reflexivity|]. split; [intros u []|].
    split; [|reflexivity]. intros before id type after w e Heq.
    discriminate.
Qed.

(** Three running instances; CloudWatch raises for the second: only the
    first is flagged, with its average 1.5. *)
Lemma utilization_needs_datapoints_and_stops_on_error_witness :
  Samples.throttled_metrics "i-2" = Raise (ClientError "Throttling") /\
  exists st',
    CostOptimizer.analyze_ec2_utilization Samples.fleet Binary64.sum_left
      Binary64.round_cents Samples.throttled_metrics
      {| EC2.world := tt; EC2.calls := [] |} =
    (Ok [{| CostOptimizer.InstanceId := "i-1";
            CostOptimizer.InstanceType := "t3.small";
            CostOptimizer.AvgCpuUtilization := 1.5 |}], st').
Proof.
  split; [reflexivity|].
  destruct (utilization_needs_datapoints_and_stops_on_error unit Samples.fleet
              Binary64.sum_left Binary64.round_cents Samples.throttled_metrics
              {| EC2.world := tt; EC2.calls := [] |})
    as (found & st' & Hrun & _).
  exists st'. rewrite Hrun. vm_compute in Hrun. injection Hrun as <- _.
  reflexivity.
Defined.

(** ** Flow logs: the denial counters *)

Lemma fold_add_shift (l : list Z) :
  forall a, fold_left Z.add l a = (a + fold_left Z.add l 0)%Z.
Proof.
  induction l as [|x l IH]; intros a; simpl; [lia|].
  rewrite IH, (IH x). lia.
Qed.

Lemma bump_total key v (d : list (string * Z)) :
  fold_left Z.add (map snd (Counter.bump 0%Z Z.add key v d)) 0%Z =
  (fold_left Z.add (map snd d) 0 + v)%Z.
Proof.
  induction d as [|[k old] rest IH]; simpl; [lia|].
  destruct (String.eqb k key); simpl.
  - rewrite (fold_add_shift _ (old + v)%Z), (fold_add_shift _ old). lia.
  - rewrite (fold_add_shift _ old), IH, (fold_add_shift (map snd rest) old).
    lia.
Qed.

Lemma Zltb_asym a b : (b <? a)%Z = true -> (a <? b)%Z = false.
Proof. intros H. apply Z.ltb_lt in H. apply Z.ltb_ge. lia. Qed.

Lemma top10_spec (d : list (string * Z)) :
  (List.length (Denials.top10 d) <= 10)%nat /\
  StronglySorted (fun x y => (snd y <= snd x)%Z) (Denials.top10 d) /\
  (forall x, In x (Denials.top10 d) -> In x d).
Proof.
  unfold Denials.top10. split; [apply firstn_le_length|]. split.
  - apply firstn_strongly_sorted. apply Sorted_StronglySorted.
    + intros x y z Hxy Hyz. lia.
    + assert (Hs := sorted_desc_sorted (fun a b : Z => (b <? a)%Z)
                      (fun a b => Zltb_asym a b) d).
      revert Hs. apply Sorted_ind.
      * constructor.
      * intros a l Hl IH Hhd. constructor; [exact IH|].
        destruct Hhd as [|b l' Hab]; constructor.
        cbv beta in Hab. apply Z.ltb_ge in Hab. exact Hab.
  - intros x Hx. apply firstn_in in Hx.
    apply (Permutation_in _ (sorted_desc_perm _ d)) in Hx. exact Hx.
Qed.

Section DenialFacts.
Context (py_int : string -> option Z).

Lemma count_loop_total logs :
  forall c c',
    Denials.count_loop py_int logs c = Some c' ->
    exists counts,
      map (Denials.rejections py_int) logs = map Some counts /\
      fold_left Z.add (map snd (Denials.denials c')) 0%Z =
      (fold_left Z.add (map snd (Denials.denials c)) 0 +
       fold_left Z.add counts 0)%Z.
Proof.
  induction logs as [|entry rest IH]; intros c c' H.
  - injection H as <-. exists []. simpl. split; [reflexivity|lia].
  - cbn [Denials.count_loop] in H.
    destruct (Denials.rejections py_int entry) as [count|] eqn:Hc;
      [|discriminate].
    apply IH in H. destruct H as (counts & Hmap & Hsum).
    exists (count :: counts). cbn [map Denials.denials] in *.
    rewrite Hc, Hmap. split; [reflexivity|].
    rewrite Hsum, bump_total. simpl.
    rewrite (fold_add_shift counts count). lia.
Qed.

End DenialFacts.

(** X25. When [analyze_security_group_denials] returns (every rejection
    count parses as an integer), [total_denials] is the sum of the
    rejection counts of all the rows, a row without count adding 0; each
    of the three top lists has at most 10 entries, taken from its counter,
    in descending order of count. *)
Theorem denials_total_and_top_lists :
  forall (py_int : string -> option Z) (rejected_logs : list FlowLogs.Row)
         (analysis : Denials.Analysis),
    Denials.analyze_security_group_denials py_int rejected_logs
      = Some analysis ->
    (exists counts,
       map (Denials.rejections py_int) rejected_logs = map Some counts /\
       Denials.total_denials analysis = fold_left Z.add counts 0%Z) /\
    (List.length (Denials.top_denied_endpoints analysis) <= 10)%nat /\
    (List.length (Denials.top_10_sources analysis) <= 10)%nat /\
    (List.length (Denials.top_10_destinations analysis) <= 10)%nat /\
    StronglySorted (fun x y => (snd y <= snd x)%Z)
      (Denials.top_denied_endpoints analysis) /\
    StronglySorted (fun x y => (snd y <= snd x)%Z)
      (Denials.top_10_sources analysis) /\
    StronglySorted (fun x y => (snd y <= snd x)%Z)
      (Denials.top_10_destinations analysis).
Proof.
  intros py_int rejected_logs analysis H.
  unfold Denials.analyze_security_group_denials in H.
  destruct (Denials.count_loop py_int rejected_logs _) as [c|] eqn:Hc;
    [|discriminate].
  injection H as <-.
  cbn [Denials.total_denials Denials.top_denied_endpoints
       Denials.top_10_sources Denials.top_10_destinations].
  apply count_loop_total in Hc. destruct Hc as (counts & Hmap & Hsum).
  split.
  - exists counts. split; [exact Hmap|]. rewrite Hsum. simpl. lia.
  - repeat split; apply top10_spec.
Qed.

Lemma denials_total_and_top_lists_witness :
  exists analysis,
    Denials.analyze_security_group_denials Samples.int_of Samples.three_rows
      = Some analysis /\
    (List.length (Denials.top_10_sources analysis) <= 10)%nat.
Proof.
  destruct (Denials.analyze_security_group_denials Samples.int_of
              Samples.three_rows) as [analysis|] eqn:E;
    [|vm_compute in E; discriminate].
  exists analysis. split; [reflexivity|].
  apply (denials_total_and_top_lists Samples.int_of Samples.three_rows
           analysis E).
Defined.

(** ** Cost optimizer: what counts as savings *)

Lemma length_combine_same {A B} (l : list A) (l' : list B) :
  List.length l = List.length l' ->
  List.length (combine l l') = List.length l.
Proof. intros H. rewrite length_combine, <- H. apply Nat.min_id. Qed.

Lemma filter_partition_length {A} (f : A -> bool) (l : list A) :
  (List.length (filter f l) + List.length (filter (fun x => negb (f x)) l)
   = List.length l)%nat.
Proof.
  induction l as [|x l IH]; [reflexivity|].
  cbn [filter]. destruct (f x); cbn [negb List.length]; lia.
Qed.

(** The live loop from any accumulator: the calls made for each volume,
    and what they decide. *)
Lemma live_loop_outcomes {World} (ec2 : EC2.Client World) :
  forall volumes results st,
    exists results' w steps,
      EC2.for_each volumes (CostOptimizer.delete_volume_step ec2 false)
        results st =
      (Ok results',
       {| EC2.world := w;
          EC2.calls := EC2.calls st ++ List.concat steps |}) /\
      Forall2
        (fun volume step =>
           step = [EC2.ev (EC2.CreateSnapshot
                             (CostOptimizer.vi_VolumeId volume)) false] \/
           exists ok,
             step = [EC2.ev (EC2.CreateSnapshot
                               (CostOptimizer.vi_VolumeId volume)) true;
                     EC2.ev (EC2.DeleteVolume
                               (CostOptimizer.vi_VolumeId volume)) ok])
        volumes steps /\
      CostOptimizer.deleted results' =
        CostOptimizer.deleted results ++
        map (fun p => CostOptimizer.vi_VolumeId (fst p))
          (filter (fun p => forallb EC2.succeeded (snd p))
             (combine volumes steps)) /\
      CostOptimizer.total_savings results' =
        fold_left Qplus
          (map (fun p => CostOptimizer.vi_MonthlyCost (fst p))
             (filter (fun p => forallb EC2.succeeded (snd p))
                (combine volumes steps)))
          (CostOptimizer.total_savings results) /\
      map CostOptimizer.resource (CostOptimizer.failed results') =
        map CostOptimizer.resource (CostOptimizer.failed results) ++
        map (fun p => CostOptimizer.vi_VolumeId (fst p))
          (filter (fun p => negb (forallb EC2.succeeded (snd p)))
             (combine volumes steps)).
Proof.
  induction volumes as [|volume rest IH]; intros results st.
  - exists results, (EC2.world st), []. cbn. unfold EC2.ret.
    rewrite !app_nil_r. split; [now destruct st|].
    split; [constructor|]. repeat split.
  - cbn [EC2.for_each]. unfold EC2.bind.
    rewrite delete_volume_step_live. cbv zeta.
    destruct (EC2.create_snapshot ec2 _ (EC2.world st)) as [[s|e] w];
      [destruct (EC2.delete_volume ec2 _ w) as [[u|e] w']|];
      match goal with |- context [EC2.for_each rest _ ?r ?s] =>
        destruct (IH r s)
          as (results' & w2 & steps & Hrun & Hsteps & Hd & Ht & Hf)
      end; rewrite Hrun; cbn [EC2.calls] in *;
      cbn [CostOptimizer.deleted CostOptimizer.failed
           CostOptimizer.total_savings] in Hd, Ht, Hf.
    + eexists results', w2, (_ :: steps).
      split; [cbn [List.concat]; now rewrite <- app_assoc|].
      split; [constructor; [right; now exists true|exact Hsteps]|].
      cbn [combine filter forallb EC2.succeeded EC2.ev andb map fst snd
           fold_left negb].
      rewrite Hd, Ht, Hf, <- app_assoc. repeat split.
    + eexists results', w2, (_ :: steps).
      split; [cbn [List.concat]; now rewrite <- app_assoc|].
      split; [constructor; [right; now exists false|exact Hsteps]|].
      cbn [combine filter forallb EC2.succeeded EC2.ev andb map fst snd
           fold_left negb].
      rewrite Hd, Ht, Hf, map_app, <- app_assoc. repeat split.
    + eexists results', w2, (_ :: steps).
      split; [cbn [List.concat]; now rewrite <- app_assoc|].
      split; [constructor; [now left|exact Hsteps]|].
      cbn [combine filter forallb EC2.succeeded EC2.ev andb map fst snd
           fold_left negb].
      rewrite Hd, Ht, Hf, map_app, <- app_assoc. repeat split.
Qed.

(** X26. In dry-run mode [delete_unattached_volumes] makes no call and
    lists and counts every volume.  In live mode the calls it makes are,
    volume by volume and in order, either a [create_snapshot] that failed,
    or a [create_snapshot] that succeeded followed by a [delete_volume].
    The volumes it reports as deleted are exactly those for which both
    calls succeeded, its total savings are the sum of the monthly costs of
    those volumes only, and the others are exactly the resources of the
    failed list: a failed volume adds nothing to the total, and every
    volume ends up in one of the two lists. *)
Theorem volume_savings_count_deleted_volumes_only :
  forall (World : Type) (ec2 : EC2.Client World)
         (volumes : list CostOptimizer.VolumeInfo) (st : EC2.Cloud World),
    CostOptimizer.delete_unattached_volumes ec2 true volumes st =
      (Ok {| CostOptimizer.deleted := map CostOptimizer.vi_VolumeId volumes;
             CostOptimizer.failed := [];
             CostOptimizer.total_savings :=
               py_sum (map CostOptimizer.vi_MonthlyCost volumes) |}, st) /\
    exists results w steps,
      CostOptimizer.delete_unattached_volumes ec2 false volumes st =
        (Ok results,
         {| EC2.world := w;
            EC2.calls := EC2.calls st ++ List.concat steps |}) /\
      Forall2
        (fun volume step =>
           step = [EC2.ev (EC2.CreateSnapshot
                             (CostOptimizer.vi_VolumeId volume)) false] \/
           exists ok,
             step = [EC2.ev (EC2.CreateSnapshot
                               (CostOptimizer.vi_VolumeId volume)) true;
                     EC2.ev (EC2.DeleteVolume
                               (CostOptimizer.vi_VolumeId volume)) ok])
        volumes steps /\
      CostOptimizer.deleted results =
        map (fun p => CostOptimizer.vi_VolumeId (fst p))
          (filter (fun p => forallb EC2.succeeded (snd p))
             (combine volumes steps)) /\
      CostOptimizer.total_savings results =
        py_sum
          (map (fun p => CostOptimizer.vi_MonthlyCost (fst p))
             (filter (fun p => forallb EC2.succeeded (snd p))
                (combine volumes steps))) /\
      map CostOptimizer.resource (CostOptimizer.failed results) =
        map (fun p => CostOptimizer.vi_VolumeId (fst p))
          (filter (fun p => negb (forallb EC2.succeeded (snd p)))
             (combine volumes steps)) /\
      (List.length (CostOptimizer.deleted results) +
       List.length (CostOptimizer.failed results) = List.length volumes)%nat.
Proof.
  intros World ec2 volumes st.
  unfold CostOptimizer.delete_unattached_volumes. split.
  - rewrite dry_run_loop_is_silent. reflexivity.
  - destruct (live_loop_outcomes ec2 volumes
                {| CostOptimizer.deleted := []; CostOptimizer.failed := [];
                   CostOptimizer.total_savings := 0 |} st)
      as (results & w & steps & Hrun & Hsteps & Hd & Ht & Hf).
    cbn [CostOptimizer.deleted CostOptimizer.failed
         CostOptimizer.total_savings map app] in Hd, Ht, Hf.
    exists results, w, steps.
    split; [exact Hrun|]. split; [exact Hsteps|].
    split; [exact Hd|]. split; [exact Ht|]. split; [exact Hf|].
    rewrite <- (length_map CostOptimizer.resource), Hd, Hf, !length_map.
    rewrite <- (length_combine_same volumes steps (Forall2_length Hsteps)).
    apply filter_partition_length.
Qed.

(** A batch of three volumes: the snapshot of the first one fails, the
    second is deleted, the deletion of the third fails.  Only the second
    counts. *)
Lemma volume_savings_count_deleted_volumes_only_witness :
  exists results st',
    CostOptimizer.delete_unattached_volumes EC2.scripted false
      [Scenario.vol1_info; Scenario.vol1_info; Scenario.vol1_info]
      (EC2.start (Scenario.account [Some "SnapshotLimit"; None; None; None;
                                    Some "VolumeInUse"]))
    = (Ok results, st') /\
    map EC2.succeeded (EC2.calls st') = [false; true; true; true; false] /\
    CostOptimizer.deleted results = ["vol-1"] /\
    CostOptimizer.total_savings results == 8 /\
    List.length (CostOptimizer.failed results) = 2%nat.
Proof.
  destruct (proj2 (volume_savings_count_deleted_volumes_only EC2.Script
              EC2.scripted
              [Scenario.vol1_info; Scenario.vol1_info; Scenario.vol1_info]
              (EC2.start (Scenario.account
                 [Some "SnapshotLimit"; None; None; None;
                  Some "VolumeInUse"]))))
    as (results & w & steps & Hrun & _).
  revert Hrun. generalize (EC2.Build_Cloud EC2.Script w
    (EC2.calls (EC2.start (Scenario.account
       [Some "SnapshotLimit"; None; None; None; Some "VolumeInUse"]))
     ++ List.concat steps)).
  intros st' Hrun. exists results, st'. split; [exact Hrun|].
  vm_compute in Hrun. injection Hrun as Hr Hs. subst results st'.
  repeat split.
Defined.

(** X27. [find_old_snapshots] makes exactly one call,
    [describe_snapshots], and never raises.  If the call fails it reports
    no snapshot.  Otherwise a listed snapshot is reported iff it started
    strictly before [now] minus [days_old] days, with a monthly cost of
    0.05 per GB rounded to cents. *)
Theorem old_snapshots_are_the_ones_before_the_cutoff :
  forall (World : Type) (ec2 : EC2.Client World) (now days_old : Z)
         (st : EC2.Cloud World),
    exists found response w,
      EC2.describe_snapshots ec2 (EC2.world st) = (response, w) /\
      CostOptimizer.find_old_snapshots ec2 now days_old st =
      (Ok found,
       {| EC2.world := w;
          EC2.calls := EC2.calls st ++
            [EC2.ev EC2.DescribeSnapshots (EC2.is_ok response)] |}) /\
      match response with
      | Raise _ => found = []
      | Ok snapshots =>
        forall info, In info found <->
          exists snapshot,
            In snapshot snapshots /\
            (EC2.StartTime snapshot < now - days_old * 86400)%Z /\
            info =
              {| CostOptimizer.si_SnapshotId := EC2.SnapshotId snapshot;
                 CostOptimizer.si_VolumeSize := EC2.VolumeSize snapshot;
                 CostOptimizer.si_MonthlyCost :=
                   round2 (inject_Z (EC2.VolumeSize snapshot) * (5 # 100)) |}
      end.
Proof.
  intros World ec2 now days_old st.
  rewrite find_old_snapshots_run.
  destruct (EC2.describe_snapshots ec2 (EC2.world st)) as [[snapshots|e] w].
  - eexists _, (Ok snapshots), w. split; [reflexivity|].
    split; [reflexivity|]. intros info. rewrite in_flat_map. split.
    + intros (snapshot & Hin & Hinfo).
      destruct (_ <? _)%Z eqn:E; [|contradiction].
      apply Z.ltb_lt in E. destruct Hinfo as [<-|[]].
      exists snapshot. repeat split; auto.
    + intros (snapshot & Hin & Hage & ->). exists snapshot.
      split; [exact Hin|]. apply Z.ltb_lt in Hage. rewrite Hage. now left.
  - exists [], (Raise e), w. repeat split.
Qed.

(** ** Cost report: the untagged percentage for any totals *)

(** X28. The untagged percentage of the cost report is always produced,
    whatever the amounts and whatever [sum] and [round] compute: the
    division is only evaluated when the total, as computed in binary64, is
    strictly above 0, and it does not raise there; the value is then
    [round(untagged_total / total_cost * 100, 2)].  Any other total (zero,
    negative for a period of credits or refunds, [nan]) gives the [int]
    0. *)
Theorem untagged_percentage_always_returns :
  forall (py_sum : list float -> float) (round2 : float -> float)
         (cost_data untagged_costs : list float),
    exists pct,
      CostReport.report_untagged_percentage py_sum round2
        cost_data untagged_costs = Ok pct /\
      ((0 <? py_sum cost_data)%float = false -> pct = CostReport.Int 0) /\
      ((0 <? py_sum cost_data)%float = true ->
       pct = CostReport.Float
               (round2 (py_sum untagged_costs / py_sum cost_data * 100)%float)).
Proof.
  intros py_sum round2 cost_data untagged_costs.
  unfold CostReport.report_untagged_percentage.
  rewrite untagged_percentage_value.
  eexists. split; [reflexivity|].
  destruct (0 <? py_sum cost_data)%float; split; congruence.
Qed.

(** With a left-to-right [sum]: a total of credits gives 0; the amounts
    0.1, 0.2, -0.3 add up to a total above 0, so the percentage is
    computed; 1015 of 100000 gives 1.01. *)
Lemma untagged_percentage_always_returns_witness :
  CostReport.report_untagged_percentage Binary64.sum_left Binary64.round_cents
    [40; -100]%float [5]%float = Ok (CostReport.Int 0) /\
  Binary64.sum_left [0.1; 0.2; -0.3]%float = 5.551115123125783e-17%float /\
  (0 <? Binary64.sum_left [0.1; 0.2; -0.3])%float = true /\
  CostReport.report_untagged_percentage Binary64.sum_left Binary64.round_cents
    [0.1; 0.2; -0.3]%float [0.1; 0.2; -0.3]%float
    = Ok (CostReport.Float 100) /\
  CostReport.report_untagged_percentage Binary64.sum_left Binary64.round_cents
    [100000]%float [1015]%float = Ok (CostReport.Float 1.01).
Proof.
  destruct (untagged_percentage_always_returns Binary64.sum_left
              Binary64.round_cents [40; -100]%float [5]%float)
    as (pct & Hrun & Hzero & _).
  split.
  - rewrite Hrun. f_equal. apply Hzero. vm_compute. reflexivity.
  - repeat split; vm_compute; reflexivity.
Defined.

(** ** Cost optimizer: dry run against live run *)

(** X29. On an account where every [create_snapshot] and [delete_volume]
    call succeeds, the live run of [delete_unattached_volumes] reports
    exactly what the dry run reports for the same volumes: the same
    deleted list, no failure, the same total savings. *)
Theorem dry_run_reports_what_a_clean_live_run_reports :
  forall (World : Type) (ec2 : EC2.Client World)
         (volumes : list CostOptimizer.VolumeInfo)
         (st st0 : EC2.Cloud World),
    (forall v w, exists s w', EC2.create_snapshot ec2 v w = (Ok s, w')) ->
    (forall v w, exists u w', EC2.delete_volume ec2 v w = (Ok u, w')) ->
    fst (CostOptimizer.delete_unattached_volumes ec2 false volumes st) =
    fst (CostOptimizer.delete_unattached_volumes ec2 true volumes st0) /\
    fst (CostOptimizer.delete_unattached_volumes ec2 true volumes st0) =
    Ok {| CostOptimizer.deleted := map CostOptimizer.vi_VolumeId volumes;
          CostOptimizer.failed := [];
          CostOptimizer.total_savings :=
            py_sum (map CostOptimizer.vi_MonthlyCost volumes) |}.
Proof.
  intros World ec2 volumes st st0 Hsnap Hdel.
  unfold CostOptimizer.delete_unattached_volumes. split.
  - now apply live_matches_dry_run_when_calls_succeed.
  - rewrite dry_run_loop_is_silent. reflexivity.
Qed.

Lemma dry_run_reports_what_a_clean_live_run_reports_witness :
  (forall v w, exists s w',
     EC2.create_snapshot Samples.reliable v w = (Ok s, w')) /\
  (forall v w, exists u w',
     EC2.delete_volume Samples.reliable v w = (Ok u, w')) /\
  fst (CostOptimizer.delete_unattached_volumes Samples.reliable false
         [Scenario.vol1_info] {| EC2.world := tt; EC2.calls := [] |}) =
  fst (CostOptimizer.delete_unattached_volumes Samples.reliable true
         [Scenario.vol1_info] {| EC2.world := tt; EC2.calls := [] |}).
Proof.
  assert (H1 : forall v w, exists s w',
            EC2.create_snapshot Samples.reliable v w = (Ok s, w')).
  { intros v w. eexists. eexists. reflexivity. }
  assert (H2 : forall v w, exists u w',
            EC2.delete_volume Samples.reliable v w = (Ok u, w')).
  { intros v w. eexists. eexists. reflexivity. }
  split; [exact H1|]. split; [exact H2|].
  apply (proj1 (dry_run_reports_what_a_clean_live_run_reports unit
                  Samples.reliable [Scenario.vol1_info]
                  {| EC2.world := tt; EC2.calls := [] |}
                  {| EC2.world := tt; EC2.calls := [] |} H1 H2)).
Defined.

(** ** Flow logs: the count of a source *)

Section SourceCounts.
Context (py_int : string -> option Z).

Lemma count_loop_sources logs :
  forall c c',
    Denials.count_loop py_int logs c = Some c' ->
    NoDup (map fst (Denials.top_sources c)) ->
    NoDup (map fst (Denials.top_sources c')) /\
    forall src,
      Counter.lookup 0%Z src (Denials.top_sources c') =
      fold_left Z.add
        (flat_map
           (fun row =>
              if String.eqb (Denials.field_or row "srcAddr" "unknown") src
              then match Denials.rejections py_int row with
                   | Some n => [n]
                   | None => []
                   end
              else []) logs)
        (Counter.lookup 0%Z src (Denials.top_sources c)).
Proof.
  induction logs as [|row rest IH]; intros c c' H Hnd.
  - injection H as <-. split; [exact Hnd|reflexivity].
  - cbn [Denials.count_loop] in H.
    destruct (Denials.rejections py_int row) as [count|] eqn:Hc;
      [|discriminate].
    apply IH in H; [|cbn [Denials.top_sources]; now apply bump_nodup].
    destruct H as (Hnd' & Hlook). split; [exact Hnd'|].
    intros src. rewrite Hlook. cbn [Denials.top_sources flat_map].
    rewrite bump_lookup, Hc, fold_left_app.
    destruct (String.eqb _ src); reflexivity.
Qed.

End SourceCounts.

(** X30. In the result of [analyze_security_group_denials], the count
    listed for a source address is the sum of the rejection counts of all
    the rows from that source (rows without [srcAddr] count under
    "unknown"), and no source is listed twice. *)
Theorem top_sources_sum_their_rows :
  forall (py_int : string -> option Z) (rejected_logs : list FlowLogs.Row)
         (analysis : Denials.Analysis),
    Denials.analyze_security_group_denials py_int rejected_logs
      = Some analysis ->
    NoDup (map fst (Denials.top_10_sources analysis)) /\
    forall src count,
      In (src, count) (Denials.top_10_sources analysis) ->
      count =
        fold_left Z.add
          (flat_map
             (fun row =>
                if String.eqb (Denials.field_or row "srcAddr" "unknown") src
                then match Denials.rejections py_int row with
                     | Some n => [n]
                     | None => []
                     end
                else []) rejected_logs) 0%Z.
Proof.
  intros py_int rejected_logs analysis H.
  unfold Denials.analyze_security_group_denials in H.
  destruct (Denials.count_loop py_int rejected_logs _) as [c|] eqn:Hc;
    [|discriminate].
  injection H as <-. cbn [Denials.top_10_sources].
  apply count_loop_sources in Hc; [|constructor].
  destruct Hc as (Hnd & Hlook). split.
  - unfold Denials.top10. rewrite <- firstn_map. apply firstn_nodup.
    apply Permutation_NoDup with (map fst (Denials.top_sources c));
      [|exact Hnd].
    apply Permutation_map. symmetry. apply sorted_desc_perm.
  - intros src count Hin. apply top10_spec in Hin.
    rewrite (lookup_in 0%Z _ src count Hnd Hin). apply Hlook.
Qed.

Lemma top_sources_sum_their_rows_witness :
  exists analysis,
    Denials.analyze_security_group_denials Samples.int_of Samples.three_rows
      = Some analysis /\
    NoDup (map fst (Denials.top_10_sources analysis)).
Proof.
  destruct (Denials.analyze_security_group_denials Samples.int_of
              Samples.three_rows) as [analysis|] eqn:E;
    [|vm_compute in E; discriminate].
  exists analysis. split; [reflexivity|].
  apply (top_sources_sum_their_rows Samples.int_of Samples.three_rows
           analysis E).
Defined.
